(** * SMOPE-Net pose network ([models/pose.py]): a shallow embedding

    The three modules of [models/pose.py] are embedded over the real
    numbers: [MHAttentionMap] (the cross-attention map), [PoseHeadSmallLinear]
    (the class / 6-DoF prediction head) and [DETRpose] (the joint network
    around an external detector and an external 3D-model network).

    Tensors are nested lists of reals, one list level per axis.  Scalars are
    mathematical reals, so the statements below are about the exact
    arithmetic the floating-point code approximates.  Operations that torch
    rejects on mismatching shapes are total here (they truncate); the
    theorems that need well-shaped operands say so in their hypotheses. *)

From Stdlib Require Import String Reals Lra Lia Bool Arith List.
Import ListNotations.
Open Scope R_scope.

(** ** Tensors as nested lists *)

Definition vec := list R.
Definition tensor2 := list vec.
Definition tensor3 := list tensor2.
Definition tensor4 := list tensor3.

Fixpoint zip_with {A B C : Type} (f : A -> B -> C) (xs : list A) (ys : list B)
  : list C :=
  match xs, ys with
  | x :: xs', y :: ys' => f x y :: zip_with f xs' ys'
  | _, _ => []
  end.

(** [imap f l] applies [f] to every element together with its position. *)
Fixpoint imap_from {A B : Type} (i : nat) (f : nat -> A -> B) (l : list A)
  : list B :=
  match l with
  | [] => []
  | x :: l' => f i x :: imap_from (S i) f l'
  end.

Definition imap {A B : Type} (f : nat -> A -> B) (l : list A) : list B :=
  imap_from 0 f l.

Definition rsum (v : vec) : R := fold_right Rplus 0 v.

Definition dot (u v : vec) : R := rsum (zip_with Rmult u v).

(** [chunks c n l]: the first [n] consecutive blocks of width [c] of [l];
    the row-major reading of [view(..., n, c)] on one row. *)
Fixpoint chunks {A : Type} (c n : nat) (l : list A) : list (list A) :=
  match n with
  | O => []
  | S n' => firstn c l :: chunks c n' (skipn c l)
  end.

(** [transpose ncols rows] swaps the two axes of a matrix with [ncols]
    columns. *)
Definition transpose (ncols : nat) (rows : tensor2) : tensor2 :=
  map (fun j => map (fun r => nth j r 0) rows) (seq 0 ncols).

(** [F.relu] *)
Definition relu (x : R) : R := Rmax 0 x.

(** [F.softmax(v, dim=-1)] on one row. *)
Definition softmax (v : vec) : vec :=
  map (fun x => exp x / rsum (map exp v)) v.

(** ** Parameters and elementary layers *)

(** [nn.Parameter]: a tensor with its [requires_grad] flag. *)
Record Param (A : Type) : Type := mkParam
  { data : A; requires_grad : bool }.
Arguments mkParam {A} _ _.
Arguments data {A} _.
Arguments requires_grad {A} _.

(** [p.requires_grad_(flag)] *)
Definition requires_grad_ {A : Type} (flag : bool) (p : Param A)
  : Param A :=
  mkParam (data p) flag.

(** [nn.Linear]: [weight] has one row per output feature. *)
Record Linear : Type := mkLinear
  { weight : Param tensor2; bias : Param vec }.

(** The random draws an initialiser consumes, indexed by the position [k]
    of the layer in its module and by the entry's coordinates. *)
Record Init : Type := mkInit
  { default_weight : nat -> nat -> nat -> R;
    default_bias : nat -> nat -> R;
    xavier : nat -> nat -> nat -> R }.

(** [nn.Linear(in_features, out_features)]: a weight of [out_features] rows
    and [in_features] columns and a bias of [out_features] entries, both
    created trainable, filled with the default draws [w0] and [b0]. *)
Definition nn_Linear (in_features out_features : nat)
  (w0 : nat -> nat -> R) (b0 : nat -> R) : Linear :=
  mkLinear
    (mkParam (map (fun i => map (w0 i) (seq 0 in_features))
                  (seq 0 out_features)) true)
    (mkParam (map b0 (seq 0 out_features)) true).

(** [nn.init.zeros_(l.bias)] and [nn.init.constant_(l.bias.data, 0)] *)
Definition init_zero_bias (l : Linear) : Linear :=
  mkLinear (weight l)
           (mkParam (map (fun _ => 0) (data (bias l)))
                    (requires_grad (bias l))).

(** [nn.init.xavier_uniform_(l.weight)], [nn.init.xavier_normal_(...)]:
    every weight entry is overwritten in place by the draw [w]. *)
Definition init_weight (w : nat -> nat -> R) (l : Linear) : Linear :=
  mkLinear (mkParam (imap (fun i row => imap (fun j _ => w i j) row)
                          (data (weight l)))
                    (requires_grad (weight l)))
           (bias l).

(** One row through a linear layer: [W x + b]. *)
Definition linear (l : Linear) (x : vec) : vec :=
  zip_with (fun w b => dot w x + b) (data (weight l)) (data (bias l)).

Definition linear3 (l : Linear) (x : tensor3) : tensor3 :=
  map (map (linear l)) x.

Definition linear4 (l : Linear) (x : tensor4) : tensor4 :=
  map (linear3 l) x.

(** A uniform sample of [[0, 1)], the randomness a dropout mask consumes. *)
Definition unit_sample : Type := { u : R | 0 <= u < 1 }.

(** [nn.Dropout(p)] on one element: in training mode the element is kept
    with probability [1 - p] and rescaled by [1 / (1 - p)], otherwise it is
    zeroed; in evaluation mode the layer is the identity. *)
Definition dropout (p : R) (training : bool) (u : unit_sample) (x : R) : R :=
  if training
  then if Rlt_dec (proj1_sig u) (1 - p) then x / (1 - p) else 0
  else x.

Definition dropout4 (p : R) (training : bool)
  (noise : nat -> nat -> nat -> nat -> unit_sample) (w : tensor4) : tensor4 :=
  imap (fun b wb =>
    imap (fun q wq =>
      imap (fun n wn =>
        imap (fun m x => dropout p training (noise b q n m) x) wn) wq) wb) w.

(** ** MHAttentionMap *)

Record MHAttentionMap : Type := mkMHAttentionMap
  { am_num_heads : nat;
    am_hidden_dim : nat;
    am_dropout : R;
    q_linear : Linear;
    k_linear : Linear;
    normalize_fact : R }.

(** [MHAttentionMap.__init__]; the two linear layers are the layers 0 and
    1 of the initialiser [rng].  ([bias=False] is not modelled: the source
    zeroes both biases unconditionally, which needs them to exist.) *)
Definition MHAttentionMap_init (query_dim hidden_dim num_heads : nat)
  (dropout_p : R) (rng : Init) : MHAttentionMap :=
  let q_lin := nn_Linear query_dim hidden_dim
                 (default_weight rng 0) (default_bias rng 0) in
  let k_lin := nn_Linear query_dim hidden_dim
                 (default_weight rng 1) (default_bias rng 1) in
  let k_lin := init_zero_bias k_lin in
  let q_lin := init_zero_bias q_lin in
  let k_lin := init_weight (xavier rng 1) k_lin in
  let q_lin := init_weight (xavier rng 0) q_lin in
  mkMHAttentionMap num_heads hidden_dim dropout_p q_lin k_lin
    (Rpower (INR hidden_dim / INR num_heads) (- (1 / 2))).

(** [t.view(t.shape[0], t.shape[1], n, c)] *)
Definition view_heads (n c : nat) (t : tensor3) : tensor4 :=
  map (map (chunks c n)) t.

(** [t * s] for a scalar [s] *)
Definition scale4 (s : R) (t : tensor4) : tensor4 :=
  map (map (map (map (fun x => x * s)))) t.

(** [torch.einsum("bqnc,bmnc->bqnm", qh, kh)] *)
Definition einsum_bqnc_bmnc_bqnm (qh kh : tensor4) : tensor4 :=
  zip_with (fun qb kb =>
    map (fun qv =>
      imap (fun n qc => map (fun kv => dot qc (nth n kv [])) kb) qv) qb)
    qh kh.

(** [t.flatten(2)] of a 4-axis tensor *)
Definition flatten2 (t : tensor4) : tensor3 :=
  map (map (@concat R)) t.

(** [t.size()] of a 4-axis tensor *)
Definition size4 (t : tensor4) : nat * nat * nat * nat :=
  (length t,
   length (hd [] t),
   length (hd [] (hd [] t)),
   length (hd [] (hd [] (hd [] t)))).

(** [t.view(s)] of a 3-axis tensor to the 4-axis size [s] *)
Definition view4 (s : nat * nat * nat * nat) (t : tensor3) : tensor4 :=
  let '(_, _, n, m) := s in
  map (map (chunks m n)) t.

(** [F.softmax(t, dim=-1)] of a 3-axis tensor *)
Definition softmax3 (t : tensor3) : tensor3 := map (map softmax) t.

(** The scores before normalisation (lines 37-43 of [forward]). *)
Definition MHAttentionMap_scores (self : MHAttentionMap) (q k : tensor3)
  : tensor4 :=
  let q := linear3 (q_linear self) q in
  let k := linear3 (k_linear self) k in
  let c := (am_hidden_dim self / am_num_heads self)%nat in
  let qh := view_heads (am_num_heads self) c q in
  let kh := view_heads (am_num_heads self) c k in
  einsum_bqnc_bmnc_bqnm (scale4 (normalize_fact self) qh) kh.

(** [MHAttentionMap.forward] *)
Definition MHAttentionMap_forward (self : MHAttentionMap) (training : bool)
  (noise : nat -> nat -> nat -> nat -> unit_sample) (q k : tensor3)
  : tensor4 :=
  let weights := MHAttentionMap_scores self q k in
  let weights := view4 (size4 weights) (softmax3 (flatten2 weights)) in
  let weights := dropout4 (am_dropout self) training noise weights in
  weights.

(** ** PoseHeadSmallLinear *)

(** [nn.GroupNorm(num_groups, num_channels)] with its affine parameters. *)
Record GroupNorm : Type := mkGroupNorm
  { gn_num_groups : nat;
    gn_num_channels : nat;
    gn_eps : R;
    gn_weight : Param vec;
    gn_bias : Param vec }.

Definition nn_GroupNorm (num_groups num_channels : nat) : GroupNorm :=
  mkGroupNorm num_groups num_channels (1 / 100000)
    (mkParam (repeat 1 num_channels) true)
    (mkParam (repeat 0 num_channels) true).

Definition mean (v : vec) : R := rsum v / INR (length v).

(** The (biased) variance group normalisation divides by. *)
Definition variance (v : vec) : R :=
  rsum (map (fun x => (x - mean v) * (x - mean v)) v) / INR (length v).

(** One group (some channels of one sample) normalised by the statistics
    of all its entries. *)
Definition normalize_group (eps : R) (g : tensor2) : tensor2 :=
  let all := concat g in
  map (map (fun x => (x - mean all) / sqrt (variance all + eps))) g.

(** [GroupNorm.forward] on one sample, given as its list of channels. *)
Definition GroupNorm_sample (self : GroupNorm) (x : tensor2) : tensor2 :=
  let per_group := (gn_num_channels self / gn_num_groups self)%nat in
  let groups := chunks per_group (gn_num_groups self) x in
  let normed := concat (map (normalize_group (gn_eps self)) groups) in
  zip_with (fun row wb => map (fun v => v * fst wb + snd wb) row)
    normed (combine (data (gn_weight self)) (data (gn_bias self))).

(** [GroupNorm.forward] on a (batch, channel, position) tensor. *)
Definition GroupNorm_forward (self : GroupNorm) (x : tensor3) : tensor3 :=
  map (GroupNorm_sample self) x.

(** The entries of [nn.Sequential] in the head: linear layers and ReLUs. *)
Inductive Layer : Type :=
| LLinear (l : Linear)
| LReLU.

Definition Sequential := list Layer.

Definition Layer_forward (m : Layer) (x : vec) : vec :=
  match m with
  | LLinear l => linear l x
  | LReLU => map relu x
  end.

(** [nn.Sequential.forward] on one row. *)
Definition Sequential_row (s : Sequential) (x : vec) : vec :=
  fold_left (fun acc m => Layer_forward m acc) s x.

Definition Sequential_forward (s : Sequential) (x : tensor4) : tensor4 :=
  map (map (map (Sequential_row s))) x.

Record PoseHeadSmallLinear : Type := mkPoseHeadSmallLinear
  { ph_num_dims : nat;
    ph_num_heads : nat;
    l1 : Linear;
    g1 : GroupNorm;
    l2 : Sequential;
    l3 : Linear;
    l4 : Sequential;
    l5 : Linear }.

(** The loops that fill [l2] and [l4]: stage [i] maps width
    [num_feat // 2**i] to [num_feat // 2**(i+1)] and is followed by a ReLU;
    [base] is the position of the stack's first linear layer in the module. *)
Definition halving_stack (rng : Init) (base num_feat num_l : nat)
  : Sequential :=
  flat_map (fun i =>
    [ LLinear (nn_Linear (num_feat / 2 ^ i) (num_feat / 2 ^ (i + 1))
                 (default_weight rng (base + i))
                 (default_bias rng (base + i)));
      LReLU ]) (seq 0 num_l).

(** The body of [for m in self.modules(): if isinstance(m, nn.Linear): ...],
    on the linear layer at position [k]. *)
Definition reinit_linear (rng : Init) (k : nat) (l : Linear) : Linear :=
  init_zero_bias (init_weight (xavier rng k) l).

Definition reinit_stack (rng : Init) (base : nat) (s : Sequential)
  : Sequential :=
  imap (fun j m =>
    match m with
    | LLinear l => LLinear (reinit_linear rng (base + j / 2) l)
    | LReLU => LReLU
    end) s.

(** [PoseHeadSmallLinear.__init__] *)
Definition PoseHeadSmallLinear_init (num_dims num_heads : nat) (rng : Init)
  : PoseHeadSmallLinear :=
  let l1_ := nn_Linear num_dims num_dims
               (default_weight rng 0) (default_bias rng 0) in
  let g1_ := nn_GroupNorm 8 num_dims in
  let num_feat := (num_dims + num_heads)%nat in
  let num_l2 := 4%nat in
  let l2_ := halving_stack rng 1 num_feat num_l2 in
  let l3_ := nn_Linear (num_feat / 2 ^ num_l2) 1
               (default_weight rng 5) (default_bias rng 5) in
  let num_l4 := 4%nat in
  let l4_ := halving_stack rng 6 num_feat num_l4 in
  let l5_ := nn_Linear (num_feat / 2 ^ num_l4) 6
               (default_weight rng 10) (default_bias rng 10) in
  mkPoseHeadSmallLinear num_dims num_heads
    (reinit_linear rng 0 l1_) g1_
    (reinit_stack rng 1 l2_) (reinit_linear rng 5 l3_)
    (reinit_stack rng 6 l4_) (reinit_linear rng 10 l5_).

(** [t.size()] of a 3-axis tensor *)
Definition size3 (t : tensor3) : nat * nat * nat :=
  (length t, length (hd [] t), length (hd [] (hd [] t))).

(** [t.permute(0, 2, 1)] *)
Definition permute_0_2_1 (t : tensor3) : tensor3 :=
  let '(_, _, c) := size3 t in
  map (transpose c) t.

(** [t.permute(0, 1, 3, 2)] *)
Definition permute_0_1_3_2 (t : tensor4) : tensor4 :=
  let '(_, _, _, m) := size4 t in
  map (map (transpose m)) t.

(** [t.unsqueeze(1)] *)
Definition unsqueeze1 (t : tensor3) : tensor4 :=
  map (fun tb => [tb]) t.

(** [t.repeat(1, n, 1, 1)] *)
Definition repeat_1_n_1_1 (n : nat) (t : tensor4) : tensor4 :=
  map (fun tb => concat (repeat tb n)) t.

(** [torch.cat([a, b], dim=3)] *)
Definition cat3 (a b : tensor4) : tensor4 :=
  zip_with (zip_with (zip_with (@app R))) a b.

Definition relu3 (t : tensor3) : tensor3 := map (map (map relu)) t.
Definition relu4 (t : tensor4) : tensor4 := map relu3 t.

(** [t.squeeze(-1)] of a tensor whose last axis has one entry (the output
    of [l3], a layer with one output feature). *)
Definition squeeze_last (t : tensor4) : tensor3 :=
  map (map (map (fun v => hd 0 v))) t.

(** Lines 93-95 of [PoseHeadSmallLinear.forward]: the refined model
    features. *)
Definition PoseHead_refine (self : PoseHeadSmallLinear) (x : tensor3)
  : tensor3 :=
  let x := linear3 (l1 self) x in
  let x := permute_0_2_1 (GroupNorm_forward (g1 self) (permute_0_2_1 x)) in
  relu3 x.

(** Line 96: the fused tensor. *)
Definition PoseHead_fuse (self : PoseHeadSmallLinear) (x : tensor3)
  (attention : tensor4) : tensor4 :=
  let x := PoseHead_refine self x in
  cat3 (repeat_1_n_1_1 (length (hd [] attention)) (unsqueeze1 x))
       (permute_0_1_3_2 attention).

(** Lines 99-101: the model-class branch. *)
Definition PoseHead_class (self : PoseHeadSmallLinear) (x : tensor4)
  : tensor3 :=
  let x_c := Sequential_forward (l2 self) x in
  let x_c := relu4 (linear4 (l3 self) x_c) in
  softmax3 (squeeze_last x_c).

(** Lines 104-105: the 6-DoF branch. *)
Definition PoseHead_pose (self : PoseHeadSmallLinear) (x : tensor4)
  : tensor4 :=
  let x_p := Sequential_forward (l4 self) x in
  linear4 (l5 self) x_p.

(** [PoseHeadSmallLinear.forward] *)
Definition PoseHeadSmallLinear_forward (self : PoseHeadSmallLinear)
  (x : tensor3) (attention : tensor4) : tensor3 * tensor4 :=
  let x := PoseHead_fuse self x attention in
  let x_c := PoseHead_class self x in
  let x_p := PoseHead_pose self x in
  (x_c, x_p).

(** ** The module interface: parameters and their gradient flags *)

(** What [DETRpose.__init__] needs of [nn.Module]: visiting every parameter
    of a module ([map_parameters], the loop over [m.parameters()]) and
    reading the flags back ([grad_flags], in [parameters()] order). *)
Class NNModule (M : Type) : Type :=
  { map_parameters : (forall A : Type, Param A -> Param A) -> M -> M;
    grad_flags : M -> list bool }.

#[export] Instance NNModule_Linear : NNModule Linear :=
  { map_parameters f l := mkLinear (f _ (weight l)) (f _ (bias l));
    grad_flags l := [requires_grad (weight l); requires_grad (bias l)] }.

#[export] Instance NNModule_GroupNorm : NNModule GroupNorm :=
  { map_parameters f g :=
      mkGroupNorm (gn_num_groups g) (gn_num_channels g) (gn_eps g)
        (f _ (gn_weight g)) (f _ (gn_bias g));
    grad_flags g := [requires_grad (gn_weight g); requires_grad (gn_bias g)] }.

#[export] Instance NNModule_Layer : NNModule Layer :=
  { map_parameters f m :=
      match m with
      | LLinear l => LLinear (map_parameters f l)
      | LReLU => LReLU
      end;
    grad_flags m :=
      match m with
      | LLinear l => grad_flags l
      | LReLU => []
      end }.

#[export] Instance NNModule_Sequential : NNModule Sequential :=
  { map_parameters f s := map (map_parameters f) s;
    grad_flags s := flat_map grad_flags s }.

#[export] Instance NNModule_MHAttentionMap : NNModule MHAttentionMap :=
  { map_parameters f a :=
      mkMHAttentionMap (am_num_heads a) (am_hidden_dim a) (am_dropout a)
        (map_parameters f (q_linear a)) (map_parameters f (k_linear a))
        (normalize_fact a);
    grad_flags a := grad_flags (q_linear a) ++ grad_flags (k_linear a) }.

#[export] Instance NNModule_PoseHeadSmallLinear
  : NNModule PoseHeadSmallLinear :=
  { map_parameters f h :=
      mkPoseHeadSmallLinear (ph_num_dims h) (ph_num_heads h)
        (map_parameters f (l1 h)) (map_parameters f (g1 h))
        (map_parameters f (l2 h)) (map_parameters f (l3 h))
        (map_parameters f (l4 h)) (map_parameters f (l5 h));
    grad_flags h :=
      grad_flags (l1 h) ++ grad_flags (g1 h) ++ grad_flags (l2 h)
      ++ grad_flags (l3 h) ++ grad_flags (l4 h) ++ grad_flags (l5 h) }.

(** ** The external collaborators *)

(** A tensor of an external module, kept opaque: its shape and its flat
    row-major storage. *)
Record Tensor : Type := mkTensor { shape : list nat; storage : list R }.

(** The named parameters of an external module. *)
Definition ParamList := list (string * Param Tensor).

(** The parameter values alone, which is all a forward pass reads. *)
Definition state_dict (ps : ParamList) : list (string * Tensor) :=
  map (fun np => (fst np, data (snd np))) ps.

(** The detector object handed to [DETRpose]: its parameters and the
    attributes [DETRpose] reads. *)
Record DETR : Type := mkDETR
  { detr_parameters : ParamList;
    aux_loss : bool;
    transformer_d_model : nat;
    transformer_nhead : nat }.

(** The 3D-model network ([models/Model3DNet.py], not part of this file). *)
Record Model3DNet : Type := mkModel3DNet
  { m3d_parameters : ParamList }.

#[export] Instance NNModule_ParamList : NNModule ParamList :=
  { map_parameters f ps := map (fun np => (fst np, f _ (snd np))) ps;
    grad_flags ps := map (fun np => requires_grad (snd np)) ps }.

#[export] Instance NNModule_DETR : NNModule DETR :=
  { map_parameters f d :=
      mkDETR (map_parameters f (detr_parameters d)) (aux_loss d)
        (transformer_d_model d) (transformer_nhead d);
    grad_flags d := grad_flags (detr_parameters d) }.

#[export] Instance NNModule_Model3DNet : NNModule Model3DNet :=
  { map_parameters f m := mkModel3DNet (map_parameters f (m3d_parameters m));
    grad_flags m := grad_flags (m3d_parameters m) }.

Definition Mask := list (list (list bool)).

(** [util.misc.NestedTensor] *)
Record NestedTensor : Type := mkNestedTensor
  { tensors : tensor4; mask : option Mask }.

(** [NestedTensor.decompose] *)
Definition decompose (n : NestedTensor) : tensor4 * option Mask :=
  (tensors n, mask n).

(** What [forward] accepts: a list of images, one batched tensor, or an
    already padded batch. *)
Inductive Samples : Type :=
| SamplesList (l : list tensor3)
| SamplesTensor (t : tensor4)
| SamplesNested (n : NestedTensor).

(** The random numbers a call of an external module draws (the state of
    the generator its dropout layers and the like read). *)
Definition Draws := nat -> R.

(** The code of the collaborators.  The calls into the detector and into
    the 3D-model network are functions of the mode of the network
    ([self.training], which [train()] and [eval()] set on every registered
    sub-module, [self.detr] and [self.model_3d_net] included), of the random
    numbers the call draws, of the parameter values of the object they
    belong to, and of their arguments.  [nested_tensor_from_tensor_list] is
    a plain function and [query_embed.weight] a parameter read. *)
Record Collaborators : Type := mkCollaborators
  { nested_tensor_from_tensor_list : Samples -> NestedTensor;
    detr_backbone :
      bool -> Draws -> list (string * Tensor) -> NestedTensor
      -> list NestedTensor * list tensor4;
    detr_input_proj :
      bool -> Draws -> list (string * Tensor) -> tensor4 -> tensor4;
    detr_transformer :
      bool -> Draws -> list (string * Tensor) -> tensor4 -> Mask -> tensor2
      -> tensor4 -> tensor4 * tensor4;
    detr_query_embed_weight : list (string * Tensor) -> tensor2;
    detr_class_embed :
      bool -> Draws -> list (string * Tensor) -> tensor4 -> tensor4;
    detr_bbox_embed :
      bool -> Draws -> list (string * Tensor) -> tensor4 -> tensor4;
    forward_encoder : bool -> Draws -> list (string * Tensor) -> tensor2;
    forward_decoder :
      bool -> Draws -> list (string * Tensor) -> tensor2
      -> Tensor * Tensor * Tensor }.

(** One entry of the auxiliary-output list. *)
Record AuxOutput : Type := mkAuxOutput
  { aux_pred_logits : tensor3; aux_pred_boxes : tensor3 }.

(** [l[:-1]] *)
Definition all_but_last {A : Type} (l : list A) : list A := removelast l.

(** Modelled from the spec: the detector's helper [_set_aux_loss] is not in
    [models/pose.py].  It "packages per-layer outputs into the
    auxiliary-output record list", with "one entry per intermediate layer"
    for "every decoder layer except the last", "each with its own class
    logits and box coordinates". *)
Definition DETR_set_aux_loss (outputs_class outputs_coord : tensor4)
  : list AuxOutput :=
  zip_with mkAuxOutput (all_but_last outputs_class)
    (all_but_last outputs_coord).

(** [t.sigmoid()] *)
Definition sigmoid (x : R) : R := 1 / (1 + exp (- x)).
Definition sigmoid4 (t : tensor4) : tensor4 :=
  map (map (map (map sigmoid))) t.

(** ** DETRpose *)

(** The exceptions [forward] can raise by itself. *)
Inductive exn : Type :=
| AssertionError
| IndexError
| AttributeError.

Inductive result (A : Type) : Type :=
| Ok (a : A)
| Raise (e : exn).
Arguments Ok {A} _.
Arguments Raise {A} _.

Definition bind {A B : Type} (r : result A) (f : A -> result B) : result B :=
  match r with
  | Ok a => f a
  | Raise e => Raise e
  end.

Notation "x <- r ;; k" := (bind r (fun x => k))
  (at level 61, r at next level, right associativity).
Notation "' p <- r ;; k" := (bind r (fun x => let 'p := x in k))
  (at level 61, p pattern, r at next level, right associativity).

(** [l[-1]] *)
Definition index_last {A : Type} (l : list A) : result A :=
  match rev l with
  | x :: _ => Ok x
  | [] => Raise IndexError
  end.

(** The sub-modules a [DETRpose] object can hold. *)
Inductive Submodule : Type :=
| SubDETR (d : DETR)
| SubModel3DNet (m : Model3DNet)
| SubMHAttentionMap (a : MHAttentionMap)
| SubPoseHead (h : PoseHeadSmallLinear).

#[export] Instance NNModule_Submodule : NNModule Submodule :=
  { map_parameters f s :=
      match s with
      | SubDETR d => SubDETR (map_parameters f d)
      | SubModel3DNet m => SubModel3DNet (map_parameters f m)
      | SubMHAttentionMap a => SubMHAttentionMap (map_parameters f a)
      | SubPoseHead h => SubPoseHead (map_parameters f h)
      end;
    grad_flags s :=
      match s with
      | SubDETR d => grad_flags d
      | SubModel3DNet m => grad_flags m
      | SubMHAttentionMap a => grad_flags a
      | SubPoseHead h => grad_flags h
      end }.

(** A [DETRpose] object: the sub-modules registered so far, by attribute
    name, in registration order ([nn.Module._modules]). *)
Definition DETRpose := list (string * Submodule).

#[export] Instance NNModule_DETRpose : NNModule DETRpose :=
  { map_parameters f self :=
      map (fun nm => (fst nm, map_parameters f (snd nm))) self;
    grad_flags self := flat_map (fun nm => grad_flags (snd nm)) self }.

(** [self.name = m] for an attribute not set before. *)
Definition register (name : string) (m : Submodule) (self : DETRpose)
  : DETRpose :=
  self ++ [(name, m)].

(** [self.name] *)
Fixpoint getattr (name : string) (self : DETRpose) : result Submodule :=
  match self with
  | [] => Raise AttributeError
  | (n, m) :: rest => if String.eqb n name then Ok m else getattr name rest
  end.

(** [DETRpose.__init__]; [model_3d_net0] is the object [Model3DNet()]
    returns and [rng_att], [rng_head] the draws of the two initialisers. *)
Definition DETRpose_init (detr : DETR) (freeze_detr : bool)
  (model_3d_net0 : Model3DNet) (rng_att rng_head : Init) : DETRpose :=
  let self := register "detr" (SubDETR detr) [] in
  let self :=
    if freeze_detr
    then map_parameters (fun A p => requires_grad_ false p) self
    else self in
  let hidden_dim := transformer_d_model detr in
  let nheads := transformer_nhead detr in
  let self := register "model_3d_net" (SubModel3DNet model_3d_net0) self in
  let self :=
    register "bbox_attention"
      (SubMHAttentionMap
         (MHAttentionMap_init hidden_dim hidden_dim nheads 0 rng_att))
      self in
  let self :=
    register "pose_head"
      (SubPoseHead (PoseHeadSmallLinear_init hidden_dim nheads rng_head))
      self in
  self.

Definition self_detr (self : DETRpose) : result DETR :=
  m <- getattr "detr" self ;;
  match m with SubDETR d => Ok d | _ => Raise AttributeError end.

Definition self_model_3d_net (self : DETRpose) : result Model3DNet :=
  m <- getattr "model_3d_net" self ;;
  match m with SubModel3DNet d => Ok d | _ => Raise AttributeError end.

Definition self_bbox_attention (self : DETRpose) : result MHAttentionMap :=
  m <- getattr "bbox_attention" self ;;
  match m with SubMHAttentionMap d => Ok d | _ => Raise AttributeError end.

Definition self_pose_head (self : DETRpose) : result PoseHeadSmallLinear :=
  m <- getattr "pose_head" self ;;
  match m with SubPoseHead d => Ok d | _ => Raise AttributeError end.

(** The values of the result dictionary. *)
Inductive Value : Type :=
| VTensor3 (t : tensor3)
| VTensor4 (t : tensor4)
| VAux (l : list AuxOutput)
| VTensor (t : Tensor).

(** The result dictionary, in insertion order. *)
Definition Dict := list (string * Value).

(** [d[key] = v] *)
Fixpoint dict_set (key : string) (v : Value) (d : Dict) : Dict :=
  match d with
  | [] => [(key, v)]
  | (k, w) :: rest =>
      if String.eqb k key then (k, v) :: rest
      else (k, w) :: dict_set key v rest
  end.

(** [d.get(key)] *)
Fixpoint dict_get (key : string) (d : Dict) : option Value :=
  match d with
  | [] => None
  | (k, w) :: rest => if String.eqb k key then Some w else dict_get key rest
  end.

(** [t[None].repeat(n, 1, 1)] *)
Definition broadcast_batch (n : nat) (t : tensor2) : tensor3 :=
  concat (repeat [t] n).

(** Lines 162-169 of [DETRpose.forward]: the attention between the query
    boxes and the 3D models, then the class and 6-DoF outputs. *)
Definition attend_and_predict (att : MHAttentionMap)
  (head : PoseHeadSmallLinear) (training : bool)
  (noise : nat -> nat -> nat -> nat -> unit_sample)
  (hs_last : tensor3) (model_3d_feat : tensor3)
  : tensor4 * (tensor3 * tensor4) :=
  let bbox_3dmodel_attention :=
    MHAttentionMap_forward att training noise hs_last model_3d_feat in
  (bbox_3dmodel_attention,
   PoseHeadSmallLinear_forward head model_3d_feat bbox_3dmodel_attention).

(** Lines 128-129: a list of images or a plain tensor is padded into a
    [NestedTensor]; a [NestedTensor] is taken as it is. *)
Definition as_nested_tensor (ext : Collaborators) (samples : Samples)
  : NestedTensor :=
  match samples with
  | SamplesList _ | SamplesTensor _ =>
      nested_tensor_from_tensor_list ext samples
  | SamplesNested n => n
  end.

(** [DETRpose.forward]; [training] is the mode of the network, [noise]
    the randomness the dropout layer of the attention map draws and [draws]
    the randomness the detector and the 3D-model network draw.  The
    exceptions modelled are those of the look-ups [forward] makes itself
    (attributes, [[-1]] on a list of layers, the assertion); what the tensor
    operations raise on mismatching shapes is not. *)
Definition DETRpose_forward (ext : Collaborators) (self : DETRpose)
  (training : bool) (noise : nat -> nat -> nat -> nat -> unit_sample)
  (draws : Draws) (samples : Samples) : result Dict :=
  let samples := as_nested_tensor ext samples in
  detr <- self_detr self ;;
  let sd := state_dict (detr_parameters detr) in
  let '(features, pos) := detr_backbone ext training draws sd samples in
  feat <- index_last features ;;
  let bs := length (tensors feat) in
  let '(src, mask) := decompose feat in
  match mask with
  | None => Raise AssertionError
  | Some mask =>
      let src_proj := detr_input_proj ext training draws sd src in
      pos_last <- index_last pos ;;
      let '(hs, memory) :=
        detr_transformer ext training draws sd src_proj mask
          (detr_query_embed_weight ext sd) pos_last in
      let outputs_class := detr_class_embed ext training draws sd hs in
      let outputs_coord :=
        sigmoid4 (detr_bbox_embed ext training draws sd hs) in
      logits <- index_last outputs_class ;;
      boxes <- index_last outputs_coord ;;
      let out :=
        dict_set "pred_boxes" (VTensor3 boxes)
          (dict_set "pred_logits" (VTensor3 logits) []) in
      let out :=
        if aux_loss detr
        then dict_set "aux_outputs"
               (VAux (DETR_set_aux_loss outputs_class outputs_coord)) out
        else out in
      m3d <- self_model_3d_net self ;;
      let sd3 := state_dict (m3d_parameters m3d) in
      let model_3d_feat := forward_encoder ext training draws sd3 in
      let pred_model_point :=
        forward_decoder ext training draws sd3 model_3d_feat in
      att <- self_bbox_attention self ;;
      hs_last <- index_last hs ;;
      head <- self_pose_head self ;;
      let model_3d_feat := broadcast_batch bs model_3d_feat in
      let '(_, (pose_class, pose_6dof)) :=
        attend_and_predict att head training noise hs_last model_3d_feat in
      let out := dict_set "pose_class" (VTensor3 pose_class) out in
      let out := dict_set "pose_6dof" (VTensor4 pose_6dof) out in
      let '(points, scales, centers) := pred_model_point in
      let out := dict_set "pred_model_points" (VTensor points) out in
      let out := dict_set "pred_model_scales" (VTensor scales) out in
      let out := dict_set "pred_model_centers" (VTensor centers) out in
      Ok out
  end.

(** The steps of [forward] on given sub-modules, once the attribute
    look-ups [self.detr], [self.model_3d_net], [self.bbox_attention] and
    [self.pose_head] have succeeded. *)
Definition forward_body (ext : Collaborators) (detr : DETR)
  (m3d : Model3DNet) (att : MHAttentionMap) (head : PoseHeadSmallLinear)
  (training : bool) (noise : nat -> nat -> nat -> nat -> unit_sample)
  (draws : Draws) (samples : Samples) : result Dict :=
  let sd := state_dict (detr_parameters detr) in
  let '(features, pos) :=
    detr_backbone ext training draws sd (as_nested_tensor ext samples) in
  feat <- index_last features ;;
  match mask feat with
  | None => Raise AssertionError
  | Some mask =>
      pos_last <- index_last pos ;;
      let '(hs, memory) :=
        detr_transformer ext training draws sd
          (detr_input_proj ext training draws sd (tensors feat))
          mask (detr_query_embed_weight ext sd) pos_last in
      let outputs_class := detr_class_embed ext training draws sd hs in
      let outputs_coord :=
        sigmoid4 (detr_bbox_embed ext training draws sd hs) in
      logits <- index_last outputs_class ;;
      boxes <- index_last outputs_coord ;;
      hs_last <- index_last hs ;;
      let sd3 := state_dict (m3d_parameters m3d) in
      let model_3d_feat := forward_encoder ext training draws sd3 in
      let '(_, (pose_class, pose_6dof)) :=
        attend_and_predict att head training noise hs_last
          (broadcast_batch (length (tensors feat)) model_3d_feat) in
      let '(points, scales, centers) :=
        forward_decoder ext training draws sd3 model_3d_feat in
      let out :=
        dict_set "pred_boxes" (VTensor3 boxes)
          (dict_set "pred_logits" (VTensor3 logits) []) in
      let out :=
        if aux_loss detr
        then dict_set "aux_outputs"
               (VAux (DETR_set_aux_loss outputs_class outputs_coord)) out
        else out in
      Ok (dict_set "pred_model_centers" (VTensor centers)
           (dict_set "pred_model_scales" (VTensor scales)
             (dict_set "pred_model_points" (VTensor points)
               (dict_set "pose_6dof" (VTensor4 pose_6dof)
                 (dict_set "pose_class" (VTensor3 pose_class) out)))))
  end.

(** ** Shapes *)

Definition shape2 {A : Type} (r c : nat) (t : list (list A)) : Prop :=
  length t = r /\ Forall (fun v => length v = c) t.

Definition shape3 {A : Type} (a r c : nat) (t : list (list (list A)))
  : Prop :=
  length t = a /\ Forall (shape2 r c) t.

Definition shape4 {A : Type} (a b r c : nat)
  (t : list (list (list (list A)))) : Prop :=
  length t = a /\ Forall (shape3 b r c) t.

(** A linear layer with [n] output features. *)
Definition Linear_out (n : nat) (l : Linear) : Prop :=
  length (data (weight l)) = n /\ length (data (bias l)) = n.

(** The shapes [PoseHeadSmallLinear.__init__] establishes and training
    preserves: [l1] and [g1] act on [num_dims] channels, the channels split
    evenly into the groups, [l3] has one output and [l5] has six. *)
Definition PoseHead_wf (h : PoseHeadSmallLinear) : Prop :=
  (0 < ph_num_dims h)%nat
  /\ Linear_out (ph_num_dims h) (l1 h)
  /\ gn_num_channels (g1 h) = ph_num_dims h
  /\ (0 < gn_num_groups (g1 h))%nat
  /\ (ph_num_dims h mod gn_num_groups (g1 h) = 0)%nat
  /\ length (data (gn_weight (g1 h))) = ph_num_dims h
  /\ length (data (gn_bias (g1 h))) = ph_num_dims h
  /\ Linear_out 1 (l3 h)
  /\ Linear_out 6 (l5 h).

(** ** Reference definitions that follow the specification's wording *)

(** The specification's reading of the attention normalisation: a softmax
    over the model axis alone, separately for each (batch, query, head). *)
Definition spec_rowwise_attention (self : MHAttentionMap) (q k : tensor3)
  : tensor4 :=
  map (map (map softmax)) (MHAttentionMap_scores self q k).

(** The specification's reading of the classification branch: the stack,
    the projection to a scalar, then the softmax, with nothing between. *)
Definition spec_PoseHead_class (self : PoseHeadSmallLinear) (x : tensor4)
  : tensor3 :=
  let x_c := Sequential_forward (l2 self) x in
  let x_c := linear4 (l3 self) x_c in
  softmax3 (squeeze_last x_c).

(** The per-sample results of [attend_and_predict], concatenated along the
    batch axis ([torch.cat(..., dim=0)] on each of the three outputs). *)
Definition stack_samples (l : list (tensor4 * (tensor3 * tensor4)))
  : tensor4 * (tensor3 * tensor4) :=
  (concat (map fst l),
   (concat (map (fun r => fst (snd r)) l),
    concat (map (fun r => snd (snd r)) l))).

(** ** Vector operations used to state affinity *)




(** ** Concrete instances *)

(** A dropout draw. *)
Definition zero_sample : unit_sample :=
  exist _ 0 (conj (Rle_refl 0) Rlt_0_1).

Definition ex_noise : nat -> nat -> nat -> nat -> unit_sample :=
  fun _ _ _ _ => zero_sample.

(** Draws that leave every weight matrix with ones on its diagonal. *)
Definition diag_init : Init :=
  mkInit (fun _ _ _ => 0) (fun _ _ => 0)
         (fun _ i j => if Nat.eqb i j then 1 else 0).

(** Draws that zero every weight matrix. *)
Definition zero_init : Init :=
  mkInit (fun _ _ _ => 0) (fun _ _ => 0) (fun _ _ _ => 0).

(** An attention map with two heads over two channels. *)
Definition ex_att : MHAttentionMap := MHAttentionMap_init 2 2 2 0 diag_init.

(** One image with one query, and two 3D models. *)
Definition ex_q : tensor3 := [[[1; 2]]].
Definition ex_k : tensor3 := [[[1; 0]; [0; 1]]].

(** Model features for two 3D models over eight channels, and joint
    attention weights of one query over eight heads and the two models. *)
Definition ex_feat8 : tensor2 :=
  [[1; 0; 0; 0; 0; 0; 0; 0]; [0; 1; 0; 0; 0; 0; 0; 0]].

Definition ex_x8 : tensor3 := [ex_feat8].

Definition ex_att8 : tensor4 :=
  [[[1 / 32; 3 / 32] :: repeat [1 / 16; 1 / 16] 7]].

(** A linear layer with given (trained) values. *)
Definition trained (w : tensor2) (b : vec) : Linear :=
  mkLinear (mkParam w true) (mkParam b true).

Definition unit_row (n i : nat) : vec :=
  map (fun j => if Nat.eqb j i then 1 else 0) (seq 0 n).

(** The weight whose first output copies input [i] and whose other
    outputs are zero. *)
Definition select_weight (n_out n_in i : nat) : tensor2 :=
  unit_row n_in i :: repeat (repeat 0 n_in) (n_out - 1).

(** A head for [num_dims = 8] and [num_heads = 8] (fused width 16) whose
    class branch passes the attention of head 0 through the four stages
    and negates it in the final projection. *)
Definition ex_head : PoseHeadSmallLinear :=
  let h0 := PoseHeadSmallLinear_init 8 8 zero_init in
  mkPoseHeadSmallLinear 8 8 (l1 h0) (g1 h0)
    [ LLinear (trained (select_weight 8 16 8) (repeat 0 8)); LReLU;
      LLinear (trained (select_weight 4 8 0) (repeat 0 4)); LReLU;
      LLinear (trained (select_weight 2 4 0) (repeat 0 2)); LReLU;
      LLinear (trained (select_weight 1 2 0) (repeat 0 1)); LReLU ]
    (trained [[-1]] [0]) (l4 h0) (l5 h0).

(** A detector with one parameter, auxiliary outputs enabled, eight
    channels and eight heads, and a 3D-model network with one parameter. *)
Definition ex_detr : DETR :=
  mkDETR [("query_embed.weight"%string, mkParam (mkTensor [1%nat] [0]) true)]
    true 8 8.

Definition ex_m3d : Model3DNet :=
  mkModel3DNet [("encoder.weight"%string, mkParam (mkTensor [1%nat] [0]) true)].

(** Collaborators for one image, one query and two decoder layers: the
    backbone returns its input as the only scale, the transformer returns
    two layers of hidden states, the class head has one logit and the box
    head four coordinates, and the 3D-model network knows two models.
    None of them looks at the mode or at the draws. *)
Definition ex_ext : Collaborators :=
  mkCollaborators
    (fun _ => mkNestedTensor [[[[0]]]] (Some [[[false]]]))
    (fun _ _ _ n => ([n], [[[[[0]]]]]))
    (fun _ _ _ t => t)
    (fun _ _ _ src _ _ _ =>
       ([[[[0; 0; 0; 0; 0; 0; 0; 0]]]; [[[1; 0; 0; 0; 0; 0; 0; 0]]]], src))
    (fun _ => [[0]])
    (fun _ _ _ hs => map (map (map (fun _ => [0]))) hs)
    (fun _ _ _ hs => map (map (map (fun _ => [0; 0; 0; 0]))) hs)
    (fun _ _ _ => [[1; 0; 0; 0; 0; 0; 0; 0]; [0; 1; 0; 0; 0; 0; 0; 0]])
    (fun _ _ _ _ => (mkTensor [] [], mkTensor [] [], mkTensor [] [])).

Definition ex_draws : Draws := fun _ => 0.

Definition ex_samples : Samples :=
  SamplesNested (mkNestedTensor [[[[0]]]] (Some [[[false]]])).

(** The attention map [DETRpose.__init__] builds for eight channels and
    eight heads, and the last-layer hidden states of two images with one
    query each. *)
Definition ex_att8_module : MHAttentionMap :=
  MHAttentionMap_init 8 8 8 0 diag_init.

Definition ex_hs2 : tensor3 :=
  [[[1; 0; 0; 0; 0; 0; 0; 0]]; [[0; 0; 0; 0; 0; 0; 0; 2]]].

(** The linear layers of a stack, in order. *)
Definition Sequential_linears (s : Sequential) : list Linear :=
  flat_map (fun m => match m with LLinear l => [l] | LReLU => [] end) s.

(** The linear layers of the head, in the order [self.modules()] visits
    them. *)
Definition PoseHead_linears (h : PoseHeadSmallLinear) : list Linear :=
  [l1 h] ++ Sequential_linears (l2 h) ++ [l3 h]
  ++ Sequential_linears (l4 h) ++ [l5 h].

(** The dictionary [forward] returns, written out entry by entry in
    insertion order; [aux] is the auxiliary list when [aux_loss] is set. *)
Definition result_dict (aux : option (list AuxOutput))
  (logits boxes pose_class : tensor3) (pose_6dof : tensor4)
  (points scales centers : Tensor) : Dict :=
  [("pred_logits"%string, VTensor3 logits);
   ("pred_boxes"%string, VTensor3 boxes)]
  ++ match aux with
     | Some a => [("aux_outputs"%string, VAux a)]
     | None => []
     end
  ++ [("pose_class"%string, VTensor3 pose_class);
      ("pose_6dof"%string, VTensor4 pose_6dof);
      ("pred_model_points"%string, VTensor points);
      ("pred_model_scales"%string, VTensor scales);
      ("pred_model_centers"%string, VTensor centers)].

(** Attention weights of one query over four heads and two models, and of
    two queries over eight heads and two models that differ in the second
    query only. *)
Definition ex_att4 : tensor4 := [[repeat [1 / 8; 1 / 8] 4]].

Definition ex_att8_two : tensor4 :=
  [[[1 / 32; 3 / 32] :: repeat [1 / 16; 1 / 16] 7; repeat [1 / 16; 1 / 16] 8]].

Definition ex_att8_two' : tensor4 :=
  [[[1 / 32; 3 / 32] :: repeat [1 / 16; 1 / 16] 7; repeat [1 / 32; 3 / 32] 8]].

(** ** Widths of the layers *)

(** A linear layer from [n_in] to [n_out] features: a weight of [n_out]
    rows and [n_in] columns and a bias of [n_out] entries. *)
Definition Linear_shape (n_in n_out : nat) (l : Linear) : Prop :=
  shape2 n_out n_in (data (weight l)) /\ length (data (bias l)) = n_out.

(** A stack of [Linear], [ReLU] pairs that maps [n_in] features to the
    widths [ws], one after the other. *)
Fixpoint Sequential_widths (n_in : nat) (ws : list nat) (s : Sequential)
  : Prop :=
  match ws, s with
  | [], [] => True
  | w :: ws', LLinear l :: LReLU :: s' =>
      Linear_shape n_in w l /\ Sequential_widths w ws' s'
  | _, _ => False
  end.

(** The widths [PoseHeadSmallLinear.__init__] gives the layers of a head
    for [num_dims] channels and [num_heads] heads (lines 60-82): [l1] keeps
    the channels, [l2] and [l4] halve [num_feat = num_dims + num_heads] four
    times, [l3] maps the last width to 1 and [l5] maps it to 6. *)
Definition PoseHead_widths (num_dims num_heads : nat)
  (h : PoseHeadSmallLinear) : Prop :=
  let num_feat := (num_dims + num_heads)%nat in
  let halves :=
    [num_feat / 2 ^ 1; num_feat / 2 ^ 2; num_feat / 2 ^ 3;
     num_feat / 2 ^ 4]%nat in
  ph_num_dims h = num_dims
  /\ Linear_shape num_dims num_dims (l1 h)
  /\ gn_num_groups (g1 h) = 8%nat
  /\ gn_num_channels (g1 h) = num_dims
  /\ Sequential_widths num_feat halves (l2 h)
  /\ Linear_shape (num_feat / 2 ^ 4) 1 (l3 h)
  /\ Sequential_widths num_feat halves (l4 h)
  /\ Linear_shape (num_feat / 2 ^ 4) 6 (l5 h).

(** The widths [MHAttentionMap.__init__] gives the two projections (lines
    26-27), with a hidden width the heads divide, as [view] on lines 40-41
    needs. *)
Definition Attention_widths (query_dim : nat) (a : MHAttentionMap) : Prop :=
  Linear_shape query_dim (am_hidden_dim a) (q_linear a)
  /\ Linear_shape query_dim (am_hidden_dim a) (k_linear a)
  /\ (1 <= am_num_heads a)%nat
  /\ (am_hidden_dim a mod am_num_heads a = 0)%nat.

(** ** The collaborators in two calls *)





(** * Properties *)

(** ** Lists *)

Lemma zip_with_length {A B C : Type} (f : A -> B -> C) xs ys :
  length (zip_with f xs ys) = Nat.min (length xs) (length ys).
Proof.
  revert ys; induction xs as [|x xs IH]; intros [|y ys]; simpl; auto.
Qed.

Lemma zip_with_Forall {A B C : Type} (f : A -> B -> C) (P : C -> Prop) xs ys :
  (forall x y, In x xs -> In y ys -> P (f x y)) ->
  Forall P (zip_with f xs ys).
Proof.
  revert ys; induction xs as [|x xs IH]; intros [|y ys] H; simpl;
    constructor.
  - apply H; left; reflexivity.
  - apply IH; intros; apply H; right; assumption.
Qed.

Lemma imap_from_length {A B : Type} (f : nat -> A -> B) i l :
  length (imap_from i f l) = length l.
Proof. revert i; induction l; intros; simpl; auto. Qed.

Lemma imap_length {A B : Type} (f : nat -> A -> B) l :
  length (imap f l) = length l.
Proof. apply imap_from_length. Qed.

Lemma imap_from_ext {A B : Type} (f g : nat -> A -> B) i l :
  (forall j x, In x l -> f j x = g j x) ->
  imap_from i f l = imap_from i g l.
Proof.
  revert i; induction l as [|x l IH]; intros i H; simpl; [reflexivity|].
  rewrite H by (left; reflexivity).
  rewrite IH by (intros; apply H; right; assumption).
  reflexivity.
Qed.

Lemma imap_from_id {A : Type} (f : nat -> A -> A) i l :
  (forall j x, f j x = x) -> imap_from i f l = l.
Proof.
  intros H; revert i; induction l; intros; simpl; [|rewrite H, IHl]; auto.
Qed.

Lemma imap_from_In {A B : Type} (f : nat -> A -> B) i l y :
  In y (imap_from i f l) -> exists j x, In x l /\ y = f j x.
Proof.
  revert i; induction l as [|x l IH]; intros i; simpl; [contradiction|].
  intros [<- | H].
  - exists i, x; auto.
  - destruct (IH _ H) as (j & x' & Hx & ->); exists j, x'; auto.
Qed.

Lemma chunks_length {A : Type} c n (l : list A) :
  length (chunks c n l) = n.
Proof. revert l; induction n; intros; simpl; auto. Qed.

Lemma firstn_plus {A : Type} a b (l : list A) :
  firstn (a + b) l = firstn a l ++ firstn b (skipn a l).
Proof.
  revert l; induction a as [|a IH]; intros [|x l]; simpl; auto.
  - rewrite firstn_nil; reflexivity.
  - rewrite IH; reflexivity.
Qed.

Lemma concat_chunks_firstn {A : Type} c n (l : list A) :
  concat (chunks c n l) = firstn (n * c) l.
Proof.
  revert l; induction n as [|n IH]; intros l; simpl; [reflexivity|].
  rewrite IH, firstn_plus; reflexivity.
Qed.

Lemma concat_chunks {A : Type} c n (l : list A) :
  length l = (n * c)%nat -> concat (chunks c n l) = l.
Proof.
  intros H; rewrite concat_chunks_firstn, <- H; apply firstn_all.
Qed.

Lemma chunks_Forall_length {A : Type} c n (l : list A) :
  length l = (n * c)%nat -> Forall (fun ch => length ch = c) (chunks c n l).
Proof.
  revert l; induction n as [|n IH]; intros l H; simpl; constructor.
  - rewrite length_firstn; simpl in H; lia.
  - apply IH; rewrite length_skipn; simpl in H; lia.
Qed.

Lemma length_concat_rows {A : Type} r c (t : list (list A)) :
  length t = r -> Forall (fun v => length v = c) t ->
  length (concat t) = (r * c)%nat.
Proof.
  intros <- H; induction H as [|v t Hv _ IH]; simpl; [reflexivity|].
  rewrite length_app, IH, Hv; reflexivity.
Qed.

(** ** Sums and softmax *)

Lemma rsum_app u v : rsum (u ++ v) = rsum u + rsum v.
Proof. induction u; simpl; lra. Qed.

Lemma rsum_map_div (f : R -> R) (s : R) v :
  rsum (map (fun x => f x / s) v) = rsum (map f v) / s.
Proof. induction v; simpl; [|rewrite IHv]; lra. Qed.

Lemma rsum_exp_pos v : v <> [] -> 0 < rsum (map exp v).
Proof.
  induction v as [|x [|y v] IH]; intros H; [congruence| |].
  - simpl; pose proof (exp_pos x); lra.
  - assert (0 < rsum (map exp (y :: v))) by (apply IH; discriminate).
    change (0 < exp x + rsum (map exp (y :: v))).
    pose proof (exp_pos x); lra.
Qed.

Lemma softmax_length v : length (softmax v) = length v.
Proof. apply length_map. Qed.

Lemma softmax_sum v : v <> [] -> rsum (softmax v) = 1.
Proof.
  intros H; unfold softmax.
  rewrite (rsum_map_div exp).
  pose proof (rsum_exp_pos v H); field; lra.
Qed.

Lemma softmax_pos v : Forall (fun p => 0 < p) (softmax v).
Proof.
  unfold softmax; apply Forall_forall; intros p Hp.
  apply in_map_iff in Hp as (x & <- & Hx).
  assert (0 < rsum (map exp v)).
  { apply rsum_exp_pos; intros ->; inversion Hx. }
  apply Rdiv_lt_0_compat; [apply exp_pos | assumption].
Qed.

(** ** Shapes of the elementary operations *)

(** [lia] after the tensor type names are unfolded, so that the lengths of
    one list read as one term. *)
Ltac tnorm := unfold tensor4, tensor3, tensor2, vec in *.
Ltac tlia := tnorm; lia.

Lemma shape2_In {A : Type} r c (t : list (list A)) v :
  shape2 r c t -> In v t -> length v = c.
Proof. intros [_ H] Hv; rewrite Forall_forall in H; auto. Qed.

Lemma shape3_In {A : Type} a r c (t : list (list (list A))) tb :
  shape3 a r c t -> In tb t -> shape2 r c tb.
Proof. intros [_ H] Hb; rewrite Forall_forall in H; auto. Qed.

Lemma shape4_In {A : Type} a b r c (t : list (list (list (list A)))) tb :
  shape4 a b r c t -> In tb t -> shape3 b r c tb.
Proof. intros [_ H] Hb; rewrite Forall_forall in H; auto. Qed.

Lemma In_length_pos {A : Type} (x : A) l : In x l -> (1 <= length l)%nat.
Proof. destruct l; simpl; [contradiction | lia]. Qed.

Lemma In_hd {A : Type} (d : A) l : (1 <= length l)%nat -> In (hd d l) l.
Proof. destruct l; simpl; [lia | auto]. Qed.

Lemma size4_shape a b r c (t : tensor4) :
  shape4 a b r c t -> (1 <= a)%nat -> (1 <= b)%nat -> (1 <= r)%nat ->
  size4 t = (a, b, r, c).
Proof.
  intros H Ha Hb Hr.
  assert (H0 : shape3 b r c (hd [] t)).
  { apply (shape4_In _ _ _ _ _ _ H), In_hd; destruct H; lia. }
  assert (H1 : shape2 r c (hd [] (hd [] t))).
  { apply (shape3_In _ _ _ _ _ H0), In_hd; destruct H0; lia. }
  assert (H2 : length (hd [] (hd [] (hd [] t))) = c).
  { apply (shape2_In _ _ _ _ H1), In_hd; destruct H1; lia. }
  destruct H as [Ea _], H0 as [Eb _], H1 as [Er _].
  unfold size4; repeat f_equal; assumption.
Qed.

Lemma linear3_shape l a r c t :
  shape3 a r c t ->
  shape3 a r (Nat.min (length (data (weight l))) (length (data (bias l))))
    (linear3 l t).
Proof.
  intros [Ha Ht]; split; [unfold linear3; rewrite length_map; exact Ha|].
  unfold linear3; apply Forall_map.
  eapply Forall_impl; [|exact Ht].
  intros tb [Hr _]; split; [rewrite length_map; exact Hr|].
  apply Forall_map, Forall_forall; intros v _.
  unfold linear; apply zip_with_length.
Qed.

(** The scores have one row of [M] entries per (batch, query, head). *)
Lemma scores_shape self q k B Q M Dq Dk :
  shape3 B Q Dq q -> shape3 B M Dk k ->
  shape4 B Q (am_num_heads self) M (MHAttentionMap_scores self q k).
Proof.
  intros [HqB Hq] [HkB Hk].
  unfold MHAttentionMap_scores, einsum_bqnc_bmnc_bqnm, scale4, view_heads,
    linear3.
  split.
  - rewrite zip_with_length, !length_map; tlia.
  - apply zip_with_Forall; intros qb kb Hqb Hkb.
    apply in_map_iff in Hqb as (qb1 & <- & Hqb).
    apply in_map_iff in Hqb as (qb2 & <- & Hqb).
    apply in_map_iff in Hqb as (qb3 & <- & Hqb).
    apply in_map_iff in Hkb as (kb1 & <- & Hkb).
    apply in_map_iff in Hkb as (kb2 & <- & Hkb).
    rewrite Forall_forall in Hq, Hk.
    destruct (Hq _ Hqb) as [HQ _], (Hk _ Hkb) as [HM _].
    split; [rewrite !length_map; exact HQ|].
    apply Forall_map, Forall_map, Forall_map, Forall_forall; intros v _.
    split; [rewrite imap_length, length_map; apply chunks_length|].
    apply Forall_forall; intros r Hr.
    apply imap_from_In in Hr as (j & x & _ & ->).
    rewrite !length_map; exact HM.
Qed.

(** ** Dropout *)

Lemma dropout_zero training u x : dropout 0 training u x = x.
Proof.
  unfold dropout; destruct training; [|reflexivity].
  destruct u as [u [H0 H1]]; cbn [proj1_sig].
  destruct (Rlt_dec u (1 - 0)) as [_ | Hn]; [field | exfalso; lra].
Qed.

Lemma dropout_eval p u x : dropout p false u x = x.
Proof. reflexivity. Qed.

Lemma dropout4_id p training noise w :
  training = false \/ p = 0 -> dropout4 p training noise w = w.
Proof.
  intros H; unfold dropout4, imap.
  apply imap_from_id; intros b wb.
  apply imap_from_id; intros qi wq.
  apply imap_from_id; intros n wn.
  apply imap_from_id; intros m x.
  destruct H as [-> | ->]; [apply dropout_eval | apply dropout_zero].
Qed.

(** ** The attention map normalises over heads and models together *)

(** Each (batch, query) block of the output is the softmax of all its
    [num_heads * M] scores, cut back into heads, then dropout. *)
Lemma forward_closed_form self training noise q k B Q M Dq Dk :
  shape3 B Q Dq q -> shape3 B M Dk k -> (1 <= am_num_heads self)%nat ->
  MHAttentionMap_forward self training noise q k
  = dropout4 (am_dropout self) training noise
      (map (map (fun s_bq =>
                   chunks M (am_num_heads self) (softmax (concat s_bq))))
           (MHAttentionMap_scores self q k)).
Proof.
  intros Hq Hk HH.
  pose proof (scores_shape self q k B Q M Dq Dk Hq Hk) as Hs.
  unfold MHAttentionMap_forward; f_equal.
  set (s := MHAttentionMap_scores self q k) in *.
  unfold view4, softmax3, flatten2.
  destruct (size4 s) as [[[a0 b0] n0] m0] eqn:Es.
  rewrite !map_map.
  apply map_ext_in; intros sb Hsb.
  rewrite !map_map.
  apply map_ext_in; intros r Hr.
  assert (HB : (1 <= B)%nat).
  { destruct Hs as [<- _]; eapply In_length_pos; eauto. }
  assert (HQ : (1 <= Q)%nat).
  { destruct (shape4_In _ _ _ _ _ _ Hs Hsb) as [<- _].
    eapply In_length_pos; eauto. }
  rewrite (size4_shape _ _ _ _ _ Hs HB HQ HH) in Es.
  inversion Es; subst; reflexivity.
Qed.

Lemma forward_joint_softmax self training noise q k B Q M Dq Dk :
  training = false \/ am_dropout self = 0 ->
  shape3 B Q Dq q -> shape3 B M Dk k -> (1 <= am_num_heads self)%nat ->
  MHAttentionMap_forward self training noise q k
  = map (map (fun s_bq =>
                chunks M (am_num_heads self) (softmax (concat s_bq))))
        (MHAttentionMap_scores self q k).
Proof.
  intros Hd Hq Hk HH.
  rewrite (forward_closed_form self training noise q k B Q M Dq Dk)
    by assumption.
  apply dropout4_id; exact Hd.
Qed.

Lemma rsum_concat (t : tensor2) : rsum (concat t) = rsum (map rsum t).
Proof. induction t; simpl; [|rewrite rsum_app, IHt]; reflexivity. Qed.

Lemma rsum_pos v : v <> [] -> Forall (fun p => 0 < p) v -> 0 < rsum v.
Proof.
  intros Hne H; induction H as [|x v Hx Hv IH]; [congruence|].
  destruct v as [|y v]; simpl in *; [lra|].
  assert (0 < y + rsum v) by (apply IH; discriminate); lra.
Qed.

Lemma rsum_nonneg v : Forall (fun p => 0 < p) v -> 0 <= rsum v.
Proof. induction 1; simpl; lra. Qed.

(** In a sum of at least two positive terms, each term is below the sum. *)
Lemma term_lt_rsum v x :
  Forall (fun p => 0 < p) v -> (2 <= length v)%nat -> In x v -> x < rsum v.
Proof.
  intros Hpos Hlen Hx.
  apply in_split in Hx as (l1 & l2 & ->).
  rewrite rsum_app; simpl.
  apply Forall_app in Hpos as [H1 H2].
  inversion H2 as [|? ? _ H2']; subst.
  rewrite length_app in Hlen; simpl in Hlen.
  destruct l1 as [|y l1].
  - destruct l2 as [|z l2]; [simpl in Hlen; lia|].
    assert (0 < rsum (z :: l2)) by (apply rsum_pos; [discriminate|assumption]).
    simpl in *; lra.
  - assert (0 < rsum (y :: l1)) by (apply rsum_pos; [discriminate|assumption]).
    pose proof (rsum_nonneg _ H2'); lra.
Qed.

Lemma Forall_concat_inv {A : Type} (P : A -> Prop) (t : list (list A)) :
  Forall P (concat t) -> Forall (Forall P) t.
Proof.
  induction t as [|v t IH]; simpl; intros H; constructor.
  - apply Forall_app in H; tauto.
  - apply IH; apply Forall_app in H; tauto.
Qed.

(** One (batch, query) block: the joint softmax of [H] rows of [M] scores. *)
Lemma joint_block H M (r : tensor2) :
  shape2 H M r -> (1 <= H)%nat -> (1 <= M)%nat ->
  let w := chunks M H (softmax (concat r)) in
  shape2 H M w
  /\ rsum (concat w) = 1
  /\ Forall (Forall (fun p => 0 < p)) w
  /\ ((2 <= H)%nat -> Forall (fun w_n => rsum w_n < 1) w)
  /\ (H = 1%nat -> w = map softmax r).
Proof.
  intros [Hr Hc] HH HM w.
  assert (Hlen : length (softmax (concat r)) = (H * M)%nat).
  { rewrite softmax_length; apply length_concat_rows; assumption. }
  assert (Hcat : concat w = softmax (concat r)).
  { apply concat_chunks; exact Hlen. }
  assert (Hne : concat r <> []).
  { intros E; rewrite softmax_length, E in Hlen; simpl in Hlen; nia. }
  assert (Hsh : shape2 H M w).
  { split; [apply chunks_length | apply chunks_Forall_length; exact Hlen]. }
  assert (Hpos : Forall (Forall (fun p => 0 < p)) w).
  { apply Forall_concat_inv; rewrite Hcat; apply softmax_pos. }
  repeat split; try apply Hsh; try exact Hpos.
  - rewrite Hcat; apply softmax_sum; exact Hne.
  - intros H2; apply Forall_forall; intros w_n Hn.
    assert (Hone : rsum (map rsum w) = 1).
    { rewrite <- rsum_concat, Hcat; apply softmax_sum; exact Hne. }
    rewrite <- Hone; apply term_lt_rsum.
    + apply Forall_map, Forall_forall; intros ch Hch.
      apply rsum_pos.
      * intros E; pose proof (shape2_In _ _ _ _ Hsh Hch) as Hl.
        rewrite E in Hl; simpl in Hl; lia.
      * rewrite Forall_forall in Hpos; auto.
    + rewrite length_map; destruct Hsh as [E _]; tlia.
    + apply in_map; exact Hn.
  - intros ->; subst w.
    destruct r as [|v [|v' r]]; simpl in Hr; try discriminate.
    simpl; rewrite app_nil_r.
    inversion Hc as [|? ? Hv _]; subst.
    rewrite <- softmax_length, firstn_all; reflexivity.
Qed.

(** C1 (as amended).  For well-shaped operands and no active dropout, the
    attention map returns a tensor of shape (B, Q, heads, M) in which each
    (batch, query) block is the softmax of all its heads * M scores taken
    together: the block's entries are positive and sum to 1 over the head
    and model axes jointly.  With two or more heads the M values of one
    head sum to strictly less than 1; with a single head the result is the
    per-row softmax over the model axis. *)
Theorem attention_joint_distribution
  (self : MHAttentionMap) (training : bool)
  (noise : nat -> nat -> nat -> nat -> unit_sample) (q k : tensor3)
  (B Q M Dq Dk : nat) :
  training = false \/ am_dropout self = 0 ->
  shape3 B Q Dq q -> shape3 B M Dk k ->
  (1 <= am_num_heads self)%nat -> (1 <= M)%nat ->
  shape4 B Q (am_num_heads self) M
    (MHAttentionMap_forward self training noise q k)
  /\ MHAttentionMap_forward self training noise q k
     = map (map (fun s_bq =>
                   chunks M (am_num_heads self) (softmax (concat s_bq))))
           (MHAttentionMap_scores self q k)
  /\ Forall (Forall (fun w_bq =>
               rsum (concat w_bq) = 1
               /\ Forall (Forall (fun p => 0 < p)) w_bq))
       (MHAttentionMap_forward self training noise q k)
  /\ ((2 <= am_num_heads self)%nat ->
      Forall (Forall (Forall (fun w_bqn => rsum w_bqn < 1)))
        (MHAttentionMap_forward self training noise q k))
  /\ (am_num_heads self = 1%nat ->
      MHAttentionMap_forward self training noise q k
      = spec_rowwise_attention self q k).
Proof.
  intros Hd Hq Hk HH HM.
  pose proof (scores_shape self q k B Q M Dq Dk Hq Hk) as Hs.
  rewrite (forward_joint_softmax self training noise q k B Q M Dq Dk)
    by assumption.
  set (s := MHAttentionMap_scores self q k) in *.
  assert (Hblock : forall sb r, In sb s -> In r sb ->
            shape2 (am_num_heads self) M r).
  { intros sb r Hsb Hr.
    exact (shape3_In _ _ _ _ _ (shape4_In _ _ _ _ _ _ Hs Hsb) Hr). }
  split; [|split; [reflexivity|split; [|split]]].
  - destruct Hs as [HB Hs]; split; [rewrite length_map; exact HB|].
    apply Forall_map, Forall_forall; intros sb Hsb.
    rewrite Forall_forall in Hs; destruct (Hs _ Hsb) as [HQ Hrows].
    split; [rewrite length_map; exact HQ|].
    apply Forall_map, Forall_forall; intros r Hr.
    apply (joint_block _ _ r); eauto.
  - apply Forall_map, Forall_forall; intros sb Hsb.
    apply Forall_map, Forall_forall; intros r Hr.
    destruct (joint_block _ _ r (Hblock _ _ Hsb Hr) HH HM)
      as (_ & Hsum & Hpos & _); auto.
  - intros H2.
    apply Forall_map, Forall_forall; intros sb Hsb.
    apply Forall_map, Forall_forall; intros r Hr.
    destruct (joint_block _ _ r (Hblock _ _ Hsb Hr) HH HM)
      as (_ & _ & _ & Hlt & _); auto.
  - intros H1; unfold spec_rowwise_attention; fold s.
    apply map_ext_in; intros sb Hsb.
    apply map_ext_in; intros r Hr.
    destruct (joint_block _ _ r (Hblock _ _ Hsb Hr) HH HM)
      as (_ & _ & _ & _ & Heq); auto.
Qed.

Lemma ex_q_shape : shape3 1 1 2 ex_q.
Proof. repeat constructor. Qed.

Lemma ex_k_shape : shape3 1 2 2 ex_k.
Proof. repeat constructor. Qed.

Lemma attention_joint_distribution_witness :
  shape4 1 1 2 2 (MHAttentionMap_forward ex_att true ex_noise ex_q ex_k)
  /\ Forall (Forall (Forall (fun w_bqn => rsum w_bqn < 1)))
       (MHAttentionMap_forward ex_att true ex_noise ex_q ex_k).
Proof.
  destruct (attention_joint_distribution ex_att true ex_noise ex_q ex_k
              1 1 2 2 2) as (Hs & _ & _ & Hlt & _).
  - right; reflexivity.
  - exact ex_q_shape.
  - exact ex_k_shape.
  - simpl; lia.
  - lia.
  - split; [exact Hs | apply Hlt; simpl; lia].
Defined.

(** C1 fails as stated: in an attention map with two heads, the values of
    head 0 for the only query do not sum to 1 over the two models, and the
    result differs from the per-row softmax over the model axis. *)
Lemma attention_rowwise_counterexample :
  rsum (nth 0 (nth 0 (nth 0
          (MHAttentionMap_forward ex_att false ex_noise ex_q ex_k)
          []) []) []) <> 1
  /\ MHAttentionMap_forward ex_att false ex_noise ex_q ex_k
     <> spec_rowwise_attention ex_att ex_q ex_k.
Proof.
  assert (Hs : exists a b c d,
             MHAttentionMap_scores ex_att ex_q ex_k = [[[[a; b]; [c; d]]]]).
  { do 4 eexists; reflexivity. }
  destruct Hs as (a & b & c & d & Hs).
  assert (Hfwd : MHAttentionMap_forward ex_att false ex_noise ex_q ex_k
                 = [[chunks 2 2 (softmax [a; b; c; d])]]).
  { rewrite (forward_joint_softmax ex_att false ex_noise ex_q ex_k 1 1 2 2 2).
    - rewrite Hs; reflexivity.
    - left; reflexivity.
    - exact ex_q_shape.
    - exact ex_k_shape.
    - simpl; lia. }
  assert (Hlt : rsum (nth 0 (chunks 2 2 (softmax [a; b; c; d])) []) < 1).
  { assert (Hb : shape2 2 2 [[a; b]; [c; d]]) by (repeat constructor).
    destruct (joint_block 2 2 _ Hb) as (_ & _ & _ & H2 & _); try lia.
    specialize (H2 (le_n 2)).
    inversion H2; assumption. }
  assert (Hne : rsum (nth 0 (nth 0 (nth 0
            (MHAttentionMap_forward ex_att false ex_noise ex_q ex_k)
            []) []) []) <> 1).
  { rewrite Hfwd; apply Rlt_not_eq; exact Hlt. }
  split; [exact Hne|].
  intros E; apply Hne; rewrite E.
  unfold spec_rowwise_attention; rewrite Hs.
  cbn [map nth]; apply softmax_sum; discriminate.
Qed.

(** ** Shapes through the prediction head *)

Lemma shape3_map3 {A B : Type} (f : A -> B) a r c (t : list (list (list A))) :
  shape3 a r c t -> shape3 a r c (map (map (map f)) t).
Proof.
  intros [Ha Ht]; split; [rewrite length_map; exact Ha|].
  apply Forall_map; eapply Forall_impl; [|exact Ht].
  intros tb [Hr Hb]; split; [rewrite length_map; exact Hr|].
  apply Forall_map; eapply Forall_impl; [|exact Hb].
  intros v Hv; rewrite length_map; exact Hv.
Qed.

Lemma shape3_map2 {A B : Type} (f : list A -> list B) a r c
  (t : list (list (list A))) :
  (forall v, length (f v) = length v) ->
  shape3 a r c t -> shape3 a r c (map (map f) t).
Proof.
  intros Hf [Ha Ht]; split; [rewrite length_map; exact Ha|].
  apply Forall_map; eapply Forall_impl; [|exact Ht].
  intros tb [Hr Hb]; split; [rewrite length_map; exact Hr|].
  apply Forall_map; eapply Forall_impl; [|exact Hb].
  intros v Hv; rewrite Hf; exact Hv.
Qed.

Lemma shape4_map3 {A B : Type} (f : A -> list B) a b r c
  (t : list (list (list A))) :
  (forall x, length (f x) = c) ->
  shape3 a b r t -> shape4 a b r c (map (map (map f)) t).
Proof.
  intros Hf [Ha Ht]; split; [rewrite length_map; exact Ha|].
  apply Forall_map; eapply Forall_impl; [|exact Ht].
  intros tb [Hr Hb]; split; [rewrite length_map; exact Hr|].
  apply Forall_map; eapply Forall_impl; [|exact Hb].
  intros v Hv; split; [rewrite length_map; exact Hv|].
  apply Forall_map, Forall_forall; intros x _; apply Hf.
Qed.

Lemma shape4_outer {A : Type} a b r c (t : list (list (list (list A)))) :
  shape4 a b r c t -> shape3 a b r t.
Proof.
  intros [Ha Ht]; split; [exact Ha|].
  eapply Forall_impl; [|exact Ht].
  intros tb [Hb Hr]; split; [exact Hb|].
  eapply Forall_impl; [|exact Hr].
  intros v [Hv _]; exact Hv.
Qed.

Lemma transpose_shape c (rows : tensor2) :
  shape2 c (length rows) (transpose c rows).
Proof.
  unfold transpose; split; [rewrite length_map, length_seq; reflexivity|].
  apply Forall_map, Forall_forall; intros j _; apply length_map.
Qed.

Lemma hd_shape3 {A : Type} a r c (t : list (list (list A))) tb :
  shape3 a r c t -> In tb t -> (1 <= r)%nat ->
  length (hd [] (hd [] t)) = c.
Proof.
  intros H Hb Hr.
  assert (H0 : shape2 r c (hd [] t)).
  { apply (shape3_In _ _ _ _ _ H), In_hd; eapply In_length_pos; eauto. }
  apply (shape2_In _ _ _ _ H0), In_hd; destruct H0; lia.
Qed.

Lemma permute_0_2_1_shape a r c (t : tensor3) :
  shape3 a r c t -> (1 <= r)%nat -> shape3 a c r (permute_0_2_1 t).
Proof.
  intros H Hr; unfold permute_0_2_1, size3.
  split; [rewrite length_map; apply H|].
  apply Forall_map, Forall_forall; intros tb Hb.
  pose proof (hd_shape3 _ _ _ _ _ H Hb Hr) as Ec.
  destruct (shape3_In _ _ _ _ _ H Hb) as [Er _].
  unfold tensor3, tensor2, vec in *; rewrite Ec, <- Er.
  apply transpose_shape.
Qed.

Lemma shape3_empty_rows {A : Type} a c (t : list (list (list A))) :
  shape3 a 0 c t -> t = repeat [] a.
Proof.
  intros [<- Ht]; induction Ht as [|tb t [Hb _] _ IH]; [reflexivity|].
  apply length_zero_iff_nil in Hb; subst; simpl; f_equal; exact IH.
Qed.

Lemma repeat_nil_shape {A : Type} a c :
  shape3 a 0 c (repeat (@nil (list A)) a).
Proof.
  split; [apply repeat_length|].
  apply Forall_forall; intros tb Hb; apply repeat_spec in Hb; subst.
  split; [reflexivity | constructor].
Qed.

Lemma permute_0_2_1_empty a c (t : tensor3) :
  shape3 a 0 c t -> permute_0_2_1 t = t.
Proof.
  intros H; rewrite (shape3_empty_rows _ _ _ H); clear H.
  unfold permute_0_2_1, size3.
  destruct a; [reflexivity|].
  cbn [repeat hd length]; unfold transpose; cbn [seq map].
  f_equal; induction a; simpl; [|rewrite IHa]; reflexivity.
Qed.

Lemma chunks_nil_concat {A B : Type} (f : list A -> list B) c n :
  f [] = [] -> concat (map f (chunks c n [])) = [].
Proof.
  intros Hf; induction n as [|n IH]; simpl; [reflexivity|].
  rewrite firstn_nil, skipn_nil, Hf, IH; reflexivity.
Qed.

Lemma GroupNorm_sample_nil g : GroupNorm_sample g [] = [].
Proof.
  unfold GroupNorm_sample.
  rewrite (chunks_nil_concat (normalize_group (gn_eps g))); reflexivity.
Qed.

Lemma GroupNorm_forward_nil g B :
  GroupNorm_forward g (repeat [] B) = repeat [] B.
Proof.
  unfold GroupNorm_forward; induction B; simpl;
    [|rewrite GroupNorm_sample_nil, IHB]; reflexivity.
Qed.

Lemma normalize_concat_shape e (gs : tensor3) M :
  Forall (fun r => length r = M) (concat gs) ->
  length (concat (map (normalize_group e) gs)) = length (concat gs)
  /\ Forall (fun r => length r = M) (concat (map (normalize_group e) gs)).
Proof.
  induction gs as [|g gs IH]; simpl; intros H; [split; [reflexivity|constructor]|].
  apply Forall_app in H as [Hg Hgs].
  destruct (IH Hgs) as [IH1 IH2].
  split.
  - rewrite !length_app, IH1; unfold normalize_group.
    rewrite length_map; reflexivity.
  - apply Forall_app; split; [|exact IH2].
    unfold normalize_group; apply Forall_map.
    eapply Forall_impl; [|exact Hg].
    intros r Hr; rewrite length_map; exact Hr.
Qed.

Lemma div_mul_exact C G : (0 < G)%nat -> (C mod G = 0)%nat ->
  (G * (C / G) = C)%nat.
Proof.
  intros HG Hm; pose proof (Nat.div_mod_eq C G); lia.
Qed.

Lemma GroupNorm_sample_shape g C M (rows : tensor2) :
  gn_num_channels g = C -> (0 < gn_num_groups g)%nat ->
  (C mod gn_num_groups g = 0)%nat ->
  length (data (gn_weight g)) = C -> length (data (gn_bias g)) = C ->
  shape2 C M rows -> shape2 C M (GroupNorm_sample g rows).
Proof.
  intros HC HG Hmod Hw Hb [Hlen Hrows].
  unfold GroupNorm_sample; rewrite HC.
  set (G := gn_num_groups g) in *.
  assert (Hcat : concat (chunks (C / G) G rows) = rows).
  { apply concat_chunks; tnorm; rewrite Hlen; symmetry.
    apply div_mul_exact; auto. }
  destruct (normalize_concat_shape (gn_eps g) (chunks (C / G) G rows) M)
    as [Hn1 Hn2]; [rewrite Hcat; exact Hrows|].
  rewrite Hcat in Hn1.
  split.
  - rewrite zip_with_length, length_combine; tlia.
  - apply zip_with_Forall; intros r wb Hr _.
    rewrite length_map; rewrite Forall_forall in Hn2; auto.
Qed.

Lemma linear_length l x :
  length (linear l x)
  = Nat.min (length (data (weight l))) (length (data (bias l))).
Proof. apply zip_with_length. Qed.

Lemma linear_out_length n l x : Linear_out n l -> length (linear l x) = n.
Proof. intros [Hw Hb]; rewrite linear_length; tlia. Qed.

(** The refined model features keep the shape (B, M, num_dims). *)
Lemma refine_shape h B M C (x : tensor3) :
  PoseHead_wf h -> shape3 B M C x ->
  shape3 B M (ph_num_dims h) (PoseHead_refine h x).
Proof.
  intros (Hd & Hl1 & HC & HG & Hmod & Hw & Hb & _) Hx.
  unfold PoseHead_refine.
  assert (H1 : shape3 B M (ph_num_dims h) (linear3 (l1 h) x)).
  { pose proof (linear3_shape (l1 h) _ _ _ _ Hx) as H.
    destruct Hl1 as [E1 E2]; rewrite E1, E2, Nat.min_id in H; exact H. }
  apply (shape3_map3 relu).
  destruct (Nat.eq_dec M 0) as [-> | HM].
  - pose proof (shape3_empty_rows _ _ _ H1) as Ey.
    pose proof (GroupNorm_forward_nil (g1 h) B) as Eg.
    pose proof (permute_0_2_1_empty B (ph_num_dims h) (repeat [] B)
                  (repeat_nil_shape B _)) as Ep.
    pose proof (@repeat_nil_shape R B (ph_num_dims h)) as Hs.
    set (y := linear3 (l1 h) x) in *; clearbody y.
    tnorm; subst y; rewrite Ep, Eg, Ep; exact Hs.
  - apply permute_0_2_1_shape; [|lia].
    pose proof (permute_0_2_1_shape _ _ _ _ H1 ltac:(lia)) as [H2 H3].
    split; [unfold GroupNorm_forward; rewrite length_map; exact H2|].
    unfold GroupNorm_forward; apply Forall_map.
    eapply Forall_impl; [|exact H3].
    intros rows Hrows; apply GroupNorm_sample_shape; auto.
Qed.

Lemma concat_repeat_singleton {A : Type} (x : A) n :
  concat (repeat [x] n) = repeat x n.
Proof. induction n; simpl; [|rewrite IHn]; reflexivity. Qed.

(** The fused tensor has shape (B, Q, M, num_dims + heads). *)
Lemma fuse_shape h B Q H M C (x : tensor3) (att : tensor4) :
  PoseHead_wf h -> shape3 B M C x -> shape4 B Q H M att -> (1 <= H)%nat ->
  shape4 B Q M (ph_num_dims h + H) (PoseHead_fuse h x att).
Proof.
  intros Hwf Hx Hatt HH.
  pose proof (refine_shape h B M C x Hwf Hx) as Hr.
  unfold PoseHead_fuse, cat3, repeat_1_n_1_1, unsqueeze1, permute_0_1_3_2.
  set (x' := PoseHead_refine h x) in *.
  destruct (size4 att) as [[[a0 b0] n0] m0] eqn:Es.
  split.
  - rewrite zip_with_length, !length_map.
    destruct Hr as [E1 _], Hatt as [E2 _]; tlia.
  - apply zip_with_Forall; intros xb ab Hxb Hab.
    apply in_map_iff in Hxb as (xb1 & <- & Hxb).
    apply in_map_iff in Hxb as (xb2 & <- & Hxb).
    apply in_map_iff in Hab as (ab1 & <- & Hab).
    rewrite concat_repeat_singleton.
    pose proof (shape3_In _ _ _ _ _ Hr Hxb) as Hxb2.
    pose proof (shape4_In _ _ _ _ _ _ Hatt Hab) as Hab1.
    assert (HQ : length (hd [] att) = Q).
    { assert (Hh : In (hd [] att) att)
        by (apply In_hd; eapply In_length_pos; eauto).
      destruct (shape4_In _ _ _ _ _ _ Hatt Hh); assumption. }
    split.
    + rewrite zip_with_length, repeat_length, length_map.
      destruct Hab1 as [E1 _]; tlia.
    + apply zip_with_Forall; intros xr ar Hxr Har.
      apply repeat_spec in Hxr; subst xr.
      apply in_map_iff in Har as (ar1 & <- & Har).
      assert (HB1 : (1 <= B)%nat).
      { destruct Hatt as [<- _]; eapply In_length_pos; eauto. }
      assert (HQ1 : (1 <= Q)%nat).
      { destruct Hab1 as [<- _]; eapply In_length_pos; eauto. }
      rewrite (size4_shape _ _ _ _ _ Hatt HB1 HQ1 HH) in Es.
      inversion Es; subst a0 b0 n0 m0.
      pose proof (transpose_shape M ar1) as [Ht1 Ht2].
      destruct (shape3_In _ _ _ _ _ Hab1 Har) as [Har1 _].
      split.
      * rewrite zip_with_length; destruct Hxb2 as [E1 _]; tlia.
      * apply zip_with_Forall; intros u v Hu Hv.
        pose proof (shape2_In _ _ _ _ Hxb2 Hu) as Eu.
        rewrite Forall_forall in Ht2; pose proof (Ht2 _ Hv) as Ev.
        rewrite length_app; tlia.
Qed.

(** ** The class distribution *)

Lemma class_shape h B Q M (fused : tensor4) :
  shape3 B Q M fused -> shape3 B Q M (PoseHead_class h fused).
Proof.
  intros Hf; unfold PoseHead_class, softmax3.
  apply shape3_map2; [apply softmax_length|].
  apply (shape3_map3 (fun v => hd 0 v)).
  apply (shape3_map3 (map relu)).
  apply (shape3_map3 (linear (l3 h))).
  apply (shape3_map3 (Sequential_row (l2 h))); exact Hf.
Qed.

Lemma softmax3_rows_sum a r c (t : tensor3) :
  shape3 a r c t -> (1 <= c)%nat ->
  Forall (Forall (fun row => rsum row = 1)) (softmax3 t).
Proof.
  intros Ht Hc; unfold softmax3.
  apply Forall_map, Forall_forall; intros tb Hb.
  apply Forall_map, Forall_forall; intros v Hv.
  apply softmax_sum; intros ->.
  pose proof (shape2_In _ _ _ _ (shape3_In _ _ _ _ _ Ht Hb) Hv) as E.
  simpl in E; lia.
Qed.

(** C2.  For a well-formed head, model features of shape (B, M, C) with at
    least one model and attention weights of shape (B, Q, heads, M), the
    classification output has shape (B, Q, M) and each of its (batch, query)
    rows sums to 1 over the model axis. *)
Theorem class_output_distribution
  (h : PoseHeadSmallLinear) (x : tensor3) (attention : tensor4)
  (B Q H M C : nat) :
  PoseHead_wf h -> shape3 B M C x -> shape4 B Q H M attention ->
  (1 <= H)%nat -> (1 <= M)%nat ->
  shape3 B Q M (fst (PoseHeadSmallLinear_forward h x attention))
  /\ Forall (Forall (fun row => rsum row = 1))
       (fst (PoseHeadSmallLinear_forward h x attention)).
Proof.
  intros Hwf Hx Hatt HH HM.
  pose proof (shape4_outer _ _ _ _ _
                (fuse_shape h B Q H M C x attention Hwf Hx Hatt HH)) as Hf.
  cbn [PoseHeadSmallLinear_forward fst].
  split; [apply class_shape; exact Hf|].
  unfold PoseHead_class.
  apply (softmax3_rows_sum B Q M); [|exact HM].
  apply (shape3_map3 (fun v => hd 0 v)).
  apply (shape3_map3 (map relu)).
  apply (shape3_map3 (linear (l3 h))).
  apply (shape3_map3 (Sequential_row (l2 h))); exact Hf.
Qed.

(** ** The pose output *)




Lemma nth_map_in {A B : Type} (g : A -> B) l n d d' :
  (n < length l)%nat -> nth n (map g l) d = g (nth n l d').
Proof.
  intros Hn; rewrite (nth_indep _ d (g d')) by (rewrite length_map; exact Hn).
  apply map_nth.
Qed.


(** ** The class branch applies a ReLU before the softmax *)

Lemma relu_nonneg x : 0 <= x -> relu x = x.
Proof. intros; unfold relu; apply Rmax_right; assumption. Qed.

Lemma relu_nonpos x : x <= 0 -> relu x = 0.
Proof. intros; unfold relu; apply Rmax_left; assumption. Qed.

(** Rewrites the innermost [relu] of a non-negative argument. *)
Ltac relu_step :=
  match goal with
  | |- context [relu ?e] =>
      lazymatch e with
      | context [relu _] => fail
      | _ => rewrite (relu_nonneg e) by lra
      end
  end.

(** Entry by entry, the class output is the softmax over the models of the
    rectified scalar projections. *)
Lemma class_entrywise h (fused : tensor4) :
  PoseHead_class h fused
  = map (map (fun row =>
       softmax (map (fun f =>
         relu (hd 0 (linear (l3 h) (Sequential_row (l2 h) f)))) row)))
      fused.
Proof.
  unfold PoseHead_class, softmax3, squeeze_last, relu4, relu3, linear4,
    linear3, Sequential_forward.
  rewrite !map_map; apply map_ext; intros tb.
  rewrite !map_map; apply map_ext; intros row.
  rewrite !map_map; f_equal.
  apply map_ext; intros f.
  destruct (linear (l3 h) (Sequential_row (l2 h) f)); [|reflexivity].
  cbn [map hd]; symmetry; apply relu_nonneg; lra.
Qed.

Lemma spec_class_entrywise h (fused : tensor4) :
  spec_PoseHead_class h fused
  = map (map (fun row =>
       softmax (map (fun f =>
         hd 0 (linear (l3 h) (Sequential_row (l2 h) f))) row)))
      fused.
Proof.
  unfold spec_PoseHead_class, softmax3, squeeze_last, linear4,
    linear3, Sequential_forward.
  rewrite !map_map; apply map_ext; intros tb.
  rewrite !map_map; apply map_ext; intros row.
  rewrite !map_map; reflexivity.
Qed.

Lemma reinit_weight_shape rng k inn out w0 b0 :
  shape2 out inn
    (data (weight (reinit_linear rng k (nn_Linear inn out w0 b0)))).
Proof.
  cbn [reinit_linear init_zero_bias init_weight nn_Linear data weight].
  split; [rewrite imap_length, length_map, length_seq; reflexivity|].
  apply Forall_forall; intros r Hr.
  apply imap_from_In in Hr as (i & x & Hx & ->).
  rewrite imap_length.
  apply in_map_iff in Hx as (i' & <- & _).
  rewrite length_map, length_seq; reflexivity.
Qed.

Lemma reinit_linear_out rng k inn out w0 b0 :
  Linear_out out (reinit_linear rng k (nn_Linear inn out w0 b0)).
Proof.
  split; [apply reinit_weight_shape|].
  cbn [reinit_linear init_zero_bias init_weight nn_Linear data bias].
  rewrite !length_map, length_seq; reflexivity.
Qed.

(** [__init__] builds a well-formed head when the eight groups divide the
    channels. *)
Lemma init_wf d nh rng :
  (0 < d)%nat -> (d mod 8 = 0)%nat ->
  PoseHead_wf (PoseHeadSmallLinear_init d nh rng).
Proof.
  intros Hd Hm; unfold PoseHead_wf, PoseHeadSmallLinear_init.
  cbn [ph_num_dims l1 g1 l3 l5 nn_GroupNorm gn_num_channels gn_num_groups
       gn_weight gn_bias data].
  repeat split; try apply reinit_linear_out; try apply repeat_length;
    try apply reinit_weight_shape; auto; lia.
Qed.

(** C3 (as amended).  The classification output is, for each (batch,
    query), the softmax over the model axis of the rectified scalar
    projections: the stack, the projection to a scalar, a ReLU, then the
    softmax.  The stack [__init__] builds has four linear+ReLU stages, stage
    [i] mapping width [num_feat // 2**i] to [num_feat // 2**(i+1)], and the
    projection maps width [num_feat // 16] to 1. *)
Theorem class_branch_relu_then_softmax :
  (forall (h : PoseHeadSmallLinear) (x : tensor3) (attention : tensor4),
     fst (PoseHeadSmallLinear_forward h x attention)
     = map (map (fun row =>
              softmax (map (fun f =>
                relu (hd 0 (linear (l3 h) (Sequential_row (l2 h) f)))) row)))
           (PoseHead_fuse h x attention))
  /\ (forall (d nh : nat) (rng : Init),
        exists stage : nat -> Linear,
          l2 (PoseHeadSmallLinear_init d nh rng)
          = flat_map (fun i => [LLinear (stage i); LReLU]) (seq 0 4)
          /\ (forall i, (i < 4)%nat ->
                shape2 ((d + nh) / 2 ^ (i + 1)) ((d + nh) / 2 ^ i)
                  (data (weight (stage i))))
          /\ shape2 1 ((d + nh) / 2 ^ 4)
               (data (weight (l3 (PoseHeadSmallLinear_init d nh rng))))).
Proof.
  split.
  - intros h x attention; cbn [PoseHeadSmallLinear_forward fst].
    apply class_entrywise.
  - intros d nh rng.
    exists (fun i =>
      reinit_linear rng (1 + i)
        (nn_Linear ((d + nh) / 2 ^ i) ((d + nh) / 2 ^ (i + 1))
           (default_weight rng (1 + i)) (default_bias rng (1 + i)))).
    split; [reflexivity|split].
    + intros i _; apply reinit_weight_shape.
    + apply reinit_weight_shape.
Qed.

Lemma ex_head_wf : PoseHead_wf ex_head.
Proof.
  pose proof (init_wf 8 8 zero_init) as H.
  unfold PoseHead_wf in *; cbn [ex_head ph_num_dims l1 g1 l3 l5].
  destruct H as (H1 & H2 & H3 & H4 & H5 & H6 & H7 & _ & H9);
    [lia | reflexivity |].
  repeat split; try assumption; try apply H2; try apply H9.
Qed.

Lemma ex_x8_shape : shape3 1 2 8 ex_x8.
Proof. repeat constructor. Qed.

Lemma ex_att8_shape : shape4 1 1 8 2 ex_att8.
Proof. unfold ex_att8; cbn [repeat]; repeat constructor. Qed.

(** The class logit of [ex_head] is minus the attention of head 0. *)
Lemma ex_head_logit (r t : vec) (v : R) :
  length r = 8%nat -> length t = 7%nat -> 0 <= v ->
  hd 0 (linear (l3 ex_head) (Sequential_row (l2 ex_head) (r ++ v :: t)))
  = - v.
Proof.
  intros Hr Ht Hv.
  do 9 (destruct r as [|? r]; simpl in Hr; try discriminate).
  do 8 (destruct t as [|? t]; simpl in Ht; try discriminate).
  clear Hr Ht.
  cbn [ex_head l2 l3 Sequential_row fold_left Layer_forward app].
  cbn.
  repeat relu_step.
  lra.
Qed.

Lemma ex_fused :
  exists r0 r1 : vec,
    length r0 = 8%nat /\ length r1 = 8%nat
    /\ PoseHead_fuse ex_head ex_x8 ex_att8
       = [[[r0 ++ (1 / 32) :: repeat (1 / 16) 7;
            r1 ++ (3 / 32) :: repeat (1 / 16) 7]]].
Proof.
  pose proof (refine_shape ex_head 1 2 8 ex_x8 ex_head_wf ex_x8_shape) as H.
  unfold PoseHead_fuse.
  destruct (PoseHead_refine ex_head ex_x8) as [|[|r0 [|r1 [|? ?]]] [|? ?]];
    destruct H as [H1 H2]; simpl in H1; try discriminate;
    inversion H2 as [|? ? [H3 H4] _]; subst; simpl in H3; try discriminate.
  exists r0, r1.
  inversion H4 as [|? ? E0 H5]; subst.
  inversion H5 as [|? ? E1 _]; subst.
  repeat split; [exact E0 | exact E1].
Qed.

Lemma half_lt p q : 0 < q -> q < p -> 1 / 2 < p / (p + (q + 0)).
Proof.
  intros Hq Hp; unfold Rdiv.
  apply (Rmult_lt_reg_r (p + (q + 0))); [lra|].
  replace (p * / (p + (q + 0)) * (p + (q + 0))) with p by (field; lra).
  lra.
Qed.

(** C3 fails as stated: with the ReLU the two models of the example get
    the probabilities 1/2 and 1/2, whereas the softmax of the bare
    projections, as the specification words it, separates them. *)
Lemma class_branch_counterexample :
  fst (PoseHeadSmallLinear_forward ex_head ex_x8 ex_att8) = [[[1 / 2; 1 / 2]]]
  /\ fst (PoseHeadSmallLinear_forward ex_head ex_x8 ex_att8)
     <> spec_PoseHead_class ex_head (PoseHead_fuse ex_head ex_x8 ex_att8).
Proof.
  cbn [PoseHeadSmallLinear_forward fst].
  rewrite class_entrywise, spec_class_entrywise.
  destruct ex_fused as (r0 & r1 & Hr0 & Hr1 & ->).
  cbn [map].
  rewrite !ex_head_logit; try assumption; try reflexivity; try lra.
  rewrite !relu_nonpos by lra.
  assert (E0 : softmax [0; 0] = [1 / 2; 1 / 2]).
  { unfold softmax; cbn [map rsum fold_right]; rewrite exp_0.
    repeat f_equal; lra. }
  rewrite E0; split; [reflexivity|].
  intros E; injection E as E _.
  pose proof (half_lt (exp (- (1 / 32))) (exp (- (3 / 32)))
                (exp_pos _) ltac:(apply exp_increasing; lra)).
  lra.
Qed.

(** ** The joint network *)

Lemma index_last_In {A : Type} (l : list A) x :
  index_last l = Ok x -> In x l.
Proof.
  unfold index_last; intros H.
  destruct (rev l) as [|y r] eqn:E; [discriminate|].
  injection H as <-.
  apply in_rev; rewrite E; left; reflexivity.
Qed.



(** Freezing changes flags only: the parameter values stay. *)
Lemma state_dict_requires_grad flag (ps : ParamList) :
  state_dict (map_parameters (fun A p => requires_grad_ flag p) ps)
  = state_dict ps.
Proof.
  unfold state_dict; cbn [map_parameters NNModule_ParamList].
  rewrite map_map; apply map_ext; intros [n p]; reflexivity.
Qed.

(** The attributes of a freshly constructed [DETRpose]. *)
Lemma init_attrs detr freeze_detr m3d rng_att rng_head :
  let self := DETRpose_init detr freeze_detr m3d rng_att rng_head in
  self_detr self
  = Ok (if freeze_detr
        then map_parameters (fun A p => requires_grad_ false p) detr
        else detr)
  /\ self_model_3d_net self = Ok m3d
  /\ self_bbox_attention self
     = Ok (MHAttentionMap_init (transformer_d_model detr)
             (transformer_d_model detr) (transformer_nhead detr) 0 rng_att)
  /\ self_pose_head self
     = Ok (PoseHeadSmallLinear_init (transformer_d_model detr)
             (transformer_nhead detr) rng_head).
Proof. destruct freeze_detr; repeat split; reflexivity. Qed.

Lemma frozen_state detr (freeze_detr : bool) :
  state_dict (detr_parameters
    (if freeze_detr
     then map_parameters (fun A p => requires_grad_ false p) detr
     else detr))
  = state_dict (detr_parameters detr)
  /\ aux_loss (if freeze_detr
               then map_parameters (fun A p => requires_grad_ false p) detr
               else detr)
     = aux_loss detr.
Proof.
  destruct freeze_detr; split; try reflexivity.
  apply (state_dict_requires_grad false).
Qed.

(** [forward] on a constructed network, with the attribute look-ups
    resolved. *)
Lemma forward_constructed ext detr freeze_detr m3d rng_att rng_head
  training noise draws samples :
  DETRpose_forward ext
    (DETRpose_init detr freeze_detr m3d rng_att rng_head)
    training noise draws samples
  = forward_body ext detr m3d
      (MHAttentionMap_init (transformer_d_model detr)
         (transformer_d_model detr) (transformer_nhead detr) 0 rng_att)
      (PoseHeadSmallLinear_init (transformer_d_model detr)
         (transformer_nhead detr) rng_head)
      training noise draws samples.
Proof.
  destruct (init_attrs detr freeze_detr m3d rng_att rng_head)
    as (Hd & Hm & Ha & Hh).
  destruct (frozen_state detr freeze_detr) as [Hsd Haux].
  unfold DETRpose_forward, forward_body.
  rewrite Hd, Hm, Ha, Hh; cbn [bind].
  rewrite Hsd, Haux.
  cbv zeta.
  destruct (detr_backbone ext training draws
              (state_dict (detr_parameters detr))
              (as_nested_tensor ext samples)) as [features pos].
  destruct (index_last features) as [feat|e]; [|reflexivity].
  cbn [bind decompose].
  destruct (mask feat) as [mk|]; [|reflexivity].
  destruct (index_last pos) as [pos_last|e]; [|reflexivity].
  cbn [bind].
  destruct (detr_transformer ext _ _ _ _ mk _ pos_last) as [hs memory].
  destruct (index_last (detr_class_embed ext _ _ _ hs)) as [logits|e];
    [|reflexivity].
  cbn [bind].
  destruct (index_last (sigmoid4 (detr_bbox_embed ext _ _ _ hs)))
    as [boxes|e]; [|reflexivity].
  cbn [bind].
  destruct (index_last hs) as [hs_last|e]; [|reflexivity].
  cbn [bind].
  destruct (attend_and_predict _ _ training noise hs_last _)
    as [a [pc p6]].
  destruct (forward_decoder ext _ _ _ _) as [[points scales] centers].
  reflexivity.
Qed.

(** The only exception the body raises besides [IndexError] is the failed
    assertion, and it needs a missing mask. *)
Lemma forward_body_cases ext detr m3d att head training noise draws
  samples :
  let sd := state_dict (detr_parameters detr) in
  let features :=
    fst (detr_backbone ext training draws sd
           (as_nested_tensor ext samples)) in
  match index_last features with
  | Raise e => forward_body ext detr m3d att head training noise draws samples
               = Raise e
  | Ok feat =>
      match mask feat with
      | None => forward_body ext detr m3d att head training noise draws samples
                = Raise AssertionError
      | Some _ =>
          forward_body ext detr m3d att head training noise draws samples
          = Raise IndexError
          \/ exists out,
               forward_body ext detr m3d att head training noise draws samples
               = Ok out
      end
  end.
Proof.
  intros sd features; subst features; unfold forward_body; fold sd.
  destruct (detr_backbone ext training draws sd (as_nested_tensor ext samples))
    as [features pos]; cbn [fst].
  destruct (index_last features) as [feat|e]; [|reflexivity].
  cbn [bind].
  destruct (mask feat) as [mk|]; [|reflexivity].
  assert (Hidx : forall (A : Type) (l : list A) (k : A -> result Dict),
            (forall x, k x = Raise IndexError \/ exists out, k x = Ok out) ->
            (x <- index_last l ;; k x) = Raise IndexError
            \/ exists out, (x <- index_last l ;; k x) = Ok out).
  { intros A l k Hk; unfold index_last.
    destruct (rev l); cbn [bind]; [left; reflexivity | apply Hk]. }
  apply Hidx; intros pos_last.
  destruct (detr_transformer ext training draws sd _ mk _ pos_last)
    as [hs memory].
  cbv zeta.
  apply Hidx; intros logits.
  apply Hidx; intros boxes.
  apply Hidx; intros hs_last.
  destruct (attend_and_predict att head training noise hs_last _)
    as [a [pc p6]].
  destruct (forward_decoder ext _ _ _ _) as [[points scales] centers].
  right; eexists; reflexivity.
Qed.

(** The body returns a result when the mask is present and no layer or
    scale list is empty; the result is the dictionary built from the last
    entries. *)
Lemma forward_body_ok ext detr m3d att head training noise draws samples
  features pos feat mk pos_last hs memory logits boxes hs_last :
  let sd := state_dict (detr_parameters detr) in
  detr_backbone ext training draws sd (as_nested_tensor ext samples)
  = (features, pos) ->
  index_last features = Ok feat -> mask feat = Some mk ->
  index_last pos = Ok pos_last ->
  detr_transformer ext training draws sd
    (detr_input_proj ext training draws sd (tensors feat)) mk
    (detr_query_embed_weight ext sd) pos_last = (hs, memory) ->
  index_last (detr_class_embed ext training draws sd hs) = Ok logits ->
  index_last (sigmoid4 (detr_bbox_embed ext training draws sd hs)) = Ok boxes ->
  index_last hs = Ok hs_last ->
  exists pose_class pose_6dof points scales centers,
    forward_body ext detr m3d att head training noise draws samples
    = Ok (dict_set "pred_model_centers" (VTensor centers)
           (dict_set "pred_model_scales" (VTensor scales)
             (dict_set "pred_model_points" (VTensor points)
               (dict_set "pose_6dof" (VTensor4 pose_6dof)
                 (dict_set "pose_class" (VTensor3 pose_class)
                   (if aux_loss detr
                    then dict_set "aux_outputs"
                           (VAux (DETR_set_aux_loss
                              (detr_class_embed ext training draws sd hs)
                              (sigmoid4
                                 (detr_bbox_embed ext training draws sd
                                    hs))))
                           (dict_set "pred_boxes" (VTensor3 boxes)
                              (dict_set "pred_logits" (VTensor3 logits) []))
                    else dict_set "pred_boxes" (VTensor3 boxes)
                           (dict_set "pred_logits" (VTensor3 logits)
                              []))))))).
Proof.
  intros sd Hb Hf Hm Hp Ht Hc Hx Hh.
  unfold forward_body; fold sd.
  rewrite Hb, Hf; cbn [bind]; rewrite Hm, Hp; cbn [bind].
  rewrite Ht; cbv zeta; rewrite Hc, Hx, Hh; cbn [bind].
  destruct (attend_and_predict att head training noise hs_last _)
    as [a [pc p6]].
  destruct (forward_decoder ext _ _ _ _) as [[points scales] centers].
  exists pc, p6, points, scales, centers; reflexivity.
Qed.




(** [forward] on any network whose four sub-modules are set. *)
Lemma forward_resolved ext self detr m3d att head training noise draws
  samples :
  self_detr self = Ok detr -> self_model_3d_net self = Ok m3d ->
  self_bbox_attention self = Ok att -> self_pose_head self = Ok head ->
  DETRpose_forward ext self training noise draws samples
  = forward_body ext detr m3d att head training noise draws samples.
Proof.
  intros Hd Hm Ha Hh.
  unfold DETRpose_forward, forward_body.
  rewrite Hd, Hm, Ha, Hh; cbn [bind].
  cbv zeta.
  destruct (detr_backbone ext training draws
              (state_dict (detr_parameters detr))
              (as_nested_tensor ext samples)) as [features pos].
  destruct (index_last features) as [feat|e]; [|reflexivity].
  cbn [bind decompose].
  destruct (mask feat) as [mk|]; [|reflexivity].
  destruct (index_last pos) as [pos_last|e]; [|reflexivity].
  cbn [bind].
  destruct (detr_transformer ext _ _ _ _ mk _ pos_last) as [hs memory].
  destruct (index_last (detr_class_embed ext _ _ _ hs)) as [logits|e];
    [|reflexivity].
  cbn [bind].
  destruct (index_last (sigmoid4 (detr_bbox_embed ext _ _ _ hs)))
    as [boxes|e]; [|reflexivity].
  cbn [bind].
  destruct (index_last hs) as [hs_last|e]; [|reflexivity].
  cbn [bind].
  destruct (attend_and_predict _ _ training noise hs_last _)
    as [a [pc p6]].
  destruct (forward_decoder ext _ _ _ _) as [[points scales] centers].
  reflexivity.
Qed.

(** C5.  With the same detector, 3D-model network and initial draws, the
    network constructed with [freeze_detr=True] and the one constructed
    with [freeze_detr=False] return the same result on every input, in
    every mode: the freezing loop only clears gradient flags. *)
Theorem freeze_preserves_forward
  (ext : Collaborators) (detr : DETR) (m3d : Model3DNet)
  (rng_att rng_head : Init) (training : bool)
  (noise : nat -> nat -> nat -> nat -> unit_sample) (draws : Draws)
  (samples : Samples) :
  DETRpose_forward ext (DETRpose_init detr true m3d rng_att rng_head)
    training noise draws samples
  = DETRpose_forward ext (DETRpose_init detr false m3d rng_att rng_head)
      training noise draws samples.
Proof. rewrite !forward_constructed; reflexivity. Qed.

(** ** Dropout with probability zero *)


Lemma nth_softmax v m :
  (m < length v)%nat ->
  nth m (softmax v) 0 = exp (nth m v 0) / rsum (map exp v).
Proof.
  intros H; unfold softmax.
  rewrite (nth_map_in _ v m 0 0) by exact H; reflexivity.
Qed.














(** ** Auxiliary outputs *)








(** ** Which parameters the freezing loop reaches *)

(** C10.  After construction with [freeze_detr=True], every parameter of
    the detector has [requires_grad = False] (its values unchanged), the
    3D-model network is the object its constructor returned, so its
    parameters are trainable if they were created trainable, and every
    parameter of the attention map and of the prediction head has
    [requires_grad = True]: the loop ran when the detector was the only
    registered sub-module. *)
Theorem freeze_reaches_detector_only
  (detr : DETR) (m3d : Model3DNet) (rng_att rng_head : Init) :
  Forall (fun flag => flag = true) (grad_flags m3d) ->
  exists d m a h,
    let self := DETRpose_init detr true m3d rng_att rng_head in
    self_detr self = Ok d
    /\ self_model_3d_net self = Ok m
    /\ self_bbox_attention self = Ok a
    /\ self_pose_head self = Ok h
    /\ Forall (fun flag => flag = false) (grad_flags d)
    /\ state_dict (detr_parameters d) = state_dict (detr_parameters detr)
    /\ m = m3d
    /\ Forall (fun flag => flag = true) (grad_flags m)
    /\ Forall (fun flag => flag = true) (grad_flags a)
    /\ Forall (fun flag => flag = true) (grad_flags h).
Proof.
  intros Hm3d.
  destruct (init_attrs detr true m3d rng_att rng_head) as (Hd & Hm & Ha & Hh).
  do 4 eexists; cbv zeta.
  split; [exact Hd|]. split; [exact Hm|]. split; [exact Ha|].
  split; [exact Hh|].
  split; [|split; [|split; [reflexivity|split; [exact Hm3d|split]]]].
  - cbn [grad_flags NNModule_DETR NNModule_ParamList map_parameters
         detr_parameters].
    rewrite map_map; apply Forall_map, Forall_forall; reflexivity.
  - apply (state_dict_requires_grad false).
  - repeat constructor.
  - repeat constructor.
Qed.

Lemma freeze_reaches_detector_only_witness :
  exists d m a h,
    let self := DETRpose_init ex_detr true ex_m3d zero_init zero_init in
    self_detr self = Ok d
    /\ self_model_3d_net self = Ok m
    /\ self_bbox_attention self = Ok a
    /\ self_pose_head self = Ok h
    /\ Forall (fun flag => flag = false) (grad_flags d)
    /\ state_dict (detr_parameters d) = state_dict (detr_parameters ex_detr)
    /\ m = ex_m3d
    /\ Forall (fun flag => flag = true) (grad_flags m)
    /\ Forall (fun flag => flag = true) (grad_flags a)
    /\ Forall (fun flag => flag = true) (grad_flags h).
Proof.
  apply (freeze_reaches_detector_only ex_detr ex_m3d zero_init zero_init).
  repeat constructor.
Defined.

(** ** Every stage acts on each batch element separately *)

Lemma zip_with_map_both {A A' B B' C : Type} (f : A' -> B' -> C)
  (g : A -> A') (h : B -> B') xs ys :
  zip_with f (map g xs) (map h ys) = zip_with (fun x y => f (g x) (h y)) xs ys.
Proof.
  revert ys; induction xs as [|x xs IH]; intros [|y ys]; simpl;
    [reflexivity..|rewrite IH; reflexivity].
Qed.

Lemma zip_with_ext_in {A B C : Type} (f g : A -> B -> C) xs ys :
  (forall x y, In x xs -> In y ys -> f x y = g x y) ->
  zip_with f xs ys = zip_with g xs ys.
Proof.
  revert ys; induction xs as [|x xs IH]; intros [|y ys] H; simpl;
    try reflexivity.
  rewrite H by (left; reflexivity).
  rewrite IH by (intros; apply H; right; assumption).
  reflexivity.
Qed.

Lemma zip_with_combine {A B C : Type} (f : A -> B -> C) xs ys :
  zip_with f xs ys = map (fun p => f (fst p) (snd p)) (combine xs ys).
Proof.
  revert ys; induction xs as [|x xs IH]; intros [|y ys]; simpl;
    [reflexivity..|rewrite IH; reflexivity].
Qed.

Lemma imap_from_map {A B C : Type} (f : nat -> B -> C) (g : A -> B) i l :
  imap_from i f (map g l) = imap_from i (fun j x => f j (g x)) l.
Proof.
  revert i; induction l as [|x l IH]; intros i; simpl;
    [|rewrite IH]; reflexivity.
Qed.

Lemma map_imap_from {A B C : Type} (g : B -> C) (f : nat -> A -> B) i l :
  map g (imap_from i f l) = imap_from i (fun j x => g (f j x)) l.
Proof.
  revert i; induction l as [|x l IH]; intros i; simpl;
    [|rewrite IH]; reflexivity.
Qed.

Lemma zip_with_imap_combine {A B C D : Type} (f : B -> C -> D)
  (g : nat -> A * B -> C) i (q : list A) (k : list B) :
  zip_with f k (imap_from i g (combine q k))
  = imap_from i (fun b p => f (snd p) (g b p)) (combine q k).
Proof.
  revert i k; induction q as [|x q IH]; intros i [|y k]; simpl;
    try reflexivity.
  rewrite IH; reflexivity.
Qed.

Lemma combine_repeat {A B : Type} (q : list A) (y : B) :
  combine q (repeat y (length q)) = map (fun x => (x, y)) q.
Proof. induction q; simpl; [|rewrite IHq]; reflexivity. Qed.

Lemma in_combine_shape3 {A B : Type} a r c r' c'
  (q : list (list (list A))) (k : list (list (list B))) p :
  shape3 a r c q -> shape3 a r' c' k -> In p (combine q k) ->
  shape3 1 r c [fst p] /\ shape3 1 r' c' [snd p].
Proof.
  intros Hq Hk Hp; destruct p as [qb kb]; cbn [fst snd].
  pose proof (shape3_In _ _ _ _ _ Hq (in_combine_l _ _ _ _ Hp)).
  pose proof (shape3_In _ _ _ _ _ Hk (in_combine_r _ _ _ _ Hp)).
  split; (split; [reflexivity | constructor; [assumption | constructor]]).
Qed.

(** The scores of a batch are the scores of its elements. *)
Lemma scores_batchwise self q k :
  MHAttentionMap_scores self q k
  = zip_with (fun qb kb => hd [] (MHAttentionMap_scores self [qb] [kb])) q k.
Proof.
  unfold MHAttentionMap_scores, einsum_bqnc_bmnc_bqnm, scale4, view_heads,
    linear3.
  rewrite !map_map, zip_with_map_both; reflexivity.
Qed.

Lemma block_shape H M (r : tensor2) :
  shape2 H M r -> shape2 H M (chunks M H (softmax (concat r))).
Proof.
  intros [Hr Hc].
  assert (Hlen : length (softmax (concat r)) = (H * M)%nat).
  { rewrite softmax_length; apply length_concat_rows; assumption. }
  split; [apply chunks_length | apply chunks_Forall_length; exact Hlen].
Qed.

Lemma dropout4_shape {p training noise} a b r c (w : tensor4) :
  shape4 a b r c w -> shape4 a b r c (dropout4 p training noise w).
Proof.
  intros [Ha Hw]; unfold dropout4, imap.
  split; [rewrite imap_from_length; exact Ha|].
  rewrite Forall_forall in *; intros y Hy.
  apply imap_from_In in Hy as (i & wb & Hwb & ->).
  destruct (Hw _ Hwb) as [Hb Hwb'].
  split; [rewrite imap_from_length; exact Hb|].
  rewrite Forall_forall in *; intros y Hy.
  apply imap_from_In in Hy as (j & wq & Hwq & ->).
  destruct (Hwb' _ Hwq) as [Hr Hwq'].
  split; [rewrite imap_from_length; exact Hr|].
  rewrite Forall_forall in *; intros y Hy.
  apply imap_from_In in Hy as (n & wn & Hwn & ->).
  rewrite imap_from_length; auto.
Qed.

(** The attention weights have shape (B, Q, heads, M) in every mode. *)
Lemma forward_shape self training noise q k B Q M Dq Dk :
  shape3 B Q Dq q -> shape3 B M Dk k -> (1 <= am_num_heads self)%nat ->
  shape4 B Q (am_num_heads self) M
    (MHAttentionMap_forward self training noise q k).
Proof.
  intros Hq Hk HH.
  rewrite (forward_closed_form self training noise q k B Q M Dq Dk)
    by assumption.
  apply dropout4_shape.
  destruct (scores_shape self q k B Q M Dq Dk Hq Hk) as [HB Hs].
  split; [rewrite length_map; exact HB|].
  apply Forall_map; eapply Forall_impl; [|exact Hs].
  intros sb [HQ Hrows]; split; [rewrite length_map; exact HQ|].
  apply Forall_map; eapply Forall_impl; [|exact Hrows].
  intros r; apply block_shape.
Qed.

(** The attention weights of a batch are those of its elements, each
    computed alone with its own slice of the dropout draws. *)
Lemma attention_batchwise self training noise q k B Q M Dq Dk :
  shape3 B Q Dq q -> shape3 B M Dk k -> (1 <= am_num_heads self)%nat ->
  exists A : nat -> tensor2 * tensor2 -> tensor3,
    MHAttentionMap_forward self training noise q k
    = imap A (combine q k)
    /\ forall b p, In p (combine q k) ->
         MHAttentionMap_forward self training (fun _ => noise b)
           [fst p] [snd p] = [A b p].
Proof.
  intros Hq Hk HH.
  set (Nrow := map (fun s_bq : tensor2 =>
                 chunks M (am_num_heads self) (softmax (concat s_bq)))).
  set (Dn := fun (b : nat) (wb : tensor3) =>
    imap (fun qi wq =>
      imap (fun n wn =>
        imap (fun m x =>
          dropout (am_dropout self) training (noise b qi n m) x) wn) wq) wb).
  exists (fun b p =>
    Dn b (Nrow (hd [] (MHAttentionMap_scores self [fst p] [snd p])))).
  split.
  - rewrite (forward_closed_form self training noise q k B Q M Dq Dk)
      by assumption.
    rewrite scores_batchwise, zip_with_combine.
    unfold dropout4, imap; rewrite !imap_from_map; reflexivity.
  - intros b p Hp.
    destruct (in_combine_shape3 _ _ _ _ _ _ _ _ Hq Hk Hp) as [Hq1 Hk1].
    rewrite (forward_closed_form self training _ _ _ 1 Q M Dq Dk)
      by assumption.
    rewrite scores_batchwise; reflexivity.
Qed.

Lemma permute_0_2_1_const a r c (t : tensor3) :
  shape3 a r c t ->
  permute_0_2_1 t = map (transpose (match r with O => O | S _ => c end)) t.
Proof.
  intros H; unfold permute_0_2_1, size3.
  destruct t as [|tb t]; [reflexivity|].
  assert (Hb : shape2 r c tb) by (apply (shape3_In _ _ _ _ _ H); left; reflexivity).
  f_equal; f_equal; cbn [hd].
  destruct Hb as [Hr Hrows]; destruct tb as [|v tb]; simpl in Hr; subst r;
    [reflexivity|].
  cbn [hd]; apply Forall_inv in Hrows; exact Hrows.
Qed.

Lemma permute_0_1_3_2_const a b r c (t : tensor4) :
  shape4 a b r c t -> (1 <= r)%nat ->
  permute_0_1_3_2 t
  = map (map (transpose (match b with O => O | S _ => c end))) t.
Proof.
  intros H Hr; unfold permute_0_1_3_2, size4.
  destruct t as [|tb t]; [reflexivity|].
  assert (Hb : shape3 b r c tb)
    by (apply (shape4_In _ _ _ _ _ _ H); left; reflexivity).
  f_equal; f_equal; f_equal; cbn [hd].
  destruct Hb as [Hlen Hq]; destruct tb as [|tq tb]; simpl in Hlen; subst b;
    [reflexivity|].
  cbn [hd]; apply Forall_inv in Hq; destruct Hq as [Hr' Hrows].
  destruct tq as [|v tq]; simpl in Hr'; [lia|].
  cbn [hd]; apply Forall_inv in Hrows; exact Hrows.
Qed.

Lemma map_repeat_nil {A B : Type} (f : list A -> list B) n :
  f [] = [] -> map f (repeat [] n) = repeat [] n.
Proof. intros Hf; induction n; simpl; [|rewrite Hf, IHn]; reflexivity. Qed.

(** The refined features of a batch are those of its elements. *)
Lemma refine_batchwise h M C :
  PoseHead_wf h ->
  exists Rs : tensor2 -> tensor2,
    forall B (x : tensor3), shape3 B M C x -> PoseHead_refine h x = map Rs x.
Proof.
  intros Hwf.
  exists (fun xb =>
    map (map relu)
      (transpose M
         (GroupNorm_sample (g1 h)
            (transpose (match M with O => O | S _ => ph_num_dims h end)
               (map (linear (l1 h)) xb))))).
  intros B x Hx.
  pose proof Hwf as (Hd & Hl1 & HC & HG & Hmod & Hw & Hb & _).
  assert (H1 : shape3 B M (ph_num_dims h) (linear3 (l1 h) x)).
  { pose proof (linear3_shape (l1 h) _ _ _ _ Hx) as H.
    destruct Hl1 as [E1 E2]; rewrite E1, E2, Nat.min_id in H; exact H. }
  unfold PoseHead_refine.
  rewrite (permute_0_2_1_const _ _ _ _ H1).
  destruct M as [|m].
  - pose proof (shape3_empty_rows _ _ _ Hx) as Ex.
    pose proof (shape3_empty_rows _ _ _ H1) as E1.
    tnorm; rewrite E1, Ex.
    rewrite (map_repeat_nil (transpose 0)) by reflexivity.
    rewrite GroupNorm_forward_nil.
    rewrite (permute_0_2_1_empty B 0) by apply repeat_nil_shape.
    unfold relu3.
    rewrite (map_repeat_nil (map (map relu))) by reflexivity.
    symmetry; apply map_repeat_nil.
    unfold transpose; reflexivity.
  - assert (H2 : shape3 B (ph_num_dims h) (S m)
                   (GroupNorm_forward (g1 h)
                      (map (transpose (ph_num_dims h)) (linear3 (l1 h) x)))).
    { pose proof (permute_0_2_1_shape _ _ _ _ H1 ltac:(lia)) as [H2 H3].
      rewrite (permute_0_2_1_const _ _ _ _ H1) in H2, H3.
      split; [unfold GroupNorm_forward; rewrite length_map; exact H2|].
      unfold GroupNorm_forward; apply Forall_map.
      eapply Forall_impl; [|exact H3].
      intros rows Hrows; apply GroupNorm_sample_shape; auto. }
    rewrite (permute_0_2_1_const _ _ _ _ H2).
    destruct (ph_num_dims h) as [|d] eqn:Ed; [lia|].
    unfold relu3, GroupNorm_forward, linear3.
    rewrite !map_map; reflexivity.
Qed.

Lemma zip_with_nil_r {A B C : Type} (f : A -> B -> C) xs :
  zip_with f xs [] = [].
Proof. destruct xs; reflexivity. Qed.

(** The fused tensor of a batch is made of those of its elements. *)
Lemma fuse_batchwise h Q H M C :
  PoseHead_wf h -> (1 <= H)%nat ->
  exists Fs : tensor2 -> tensor3 -> tensor3,
    forall B (x : tensor3) (att : tensor4),
      shape3 B M C x -> shape4 B Q H M att ->
      PoseHead_fuse h x att = zip_with Fs x att.
Proof.
  intros Hwf HH.
  destruct (refine_batchwise h M C Hwf) as (Rs & HRs).
  exists (fun xb ab =>
    zip_with (zip_with (@app R)) (repeat (Rs xb) Q)
      (map (transpose (match Q with O => O | S _ => M end)) ab)).
  intros B x att Hx Hatt.
  unfold PoseHead_fuse, cat3, repeat_1_n_1_1, unsqueeze1.
  rewrite (HRs B x Hx).
  rewrite (permute_0_1_3_2_const _ _ _ _ _ Hatt HH).
  destruct att as [|ab att]; [cbn [map]; rewrite !zip_with_nil_r; reflexivity|].
  assert (HQ : length ab = Q).
  { destruct (shape4_In _ _ _ _ _ _ Hatt (or_introl eq_refl)); assumption. }
  cbn [hd]; rewrite HQ.
  rewrite !map_map, zip_with_map_both.
  apply zip_with_ext_in; intros xb ab' _ _.
  cbn [concat]; rewrite concat_repeat_singleton; reflexivity.
Qed.

(** The outputs of the head on a batch are those on its elements. *)
Lemma head_batchwise h Q H M C :
  PoseHead_wf h -> (1 <= H)%nat ->
  exists Hs : tensor2 -> tensor3 -> tensor2 * tensor3,
    forall B (x : tensor3) (att : tensor4),
      shape3 B M C x -> shape4 B Q H M att ->
      PoseHeadSmallLinear_forward h x att
      = (map fst (zip_with Hs x att), map snd (zip_with Hs x att)).
Proof.
  intros Hwf HH.
  destruct (fuse_batchwise h Q H M C Hwf HH) as (Fs & HFs).
  exists (fun xb ab =>
    (map (fun row => softmax (map (fun f =>
            relu (hd 0 (linear (l3 h) (Sequential_row (l2 h) f)))) row))
         (Fs xb ab),
     map (map (fun f => linear (l5 h) (Sequential_row (l4 h) f))) (Fs xb ab))).
  intros B x att Hx Hatt.
  unfold PoseHeadSmallLinear_forward.
  rewrite class_entrywise, (HFs B x att Hx Hatt).
  rewrite !zip_with_combine, !map_map; cbn [fst snd].
  f_equal.
  unfold PoseHead_pose, linear4, linear3, Sequential_forward.
  rewrite !map_map; apply map_ext; intros p.
  rewrite !map_map; apply map_ext; intros r.
  rewrite map_map; reflexivity.
Qed.

Lemma stack_singletons {A : Type}
  (f : A -> tensor3) (g : A -> tensor2) (h : A -> tensor3) (l : list A) :
  stack_samples (map (fun x => ([f x], ([g x], [h x]))) l)
  = (map f l, (map g l, map h l)).
Proof.
  unfold stack_samples; rewrite !map_map; cbn [fst snd].
  assert (E : forall (X : Type) (u : A -> X),
            concat (map (fun x => [u x]) l) = map u l).
  { intros X u; induction l as [|x l IH]; simpl; [|rewrite IH];
      reflexivity. }
  rewrite !E; reflexivity.
Qed.

Lemma imap_from_as_map {A B : Type} (f : nat -> A -> B) i l :
  imap_from i f l
  = map (fun p => f (fst p) (snd p)) (combine (seq i (length l)) l).
Proof.
  revert i; induction l as [|x l IH]; intros i; simpl;
    [|rewrite IH]; reflexivity.
Qed.

(** Lines 162-169 on a batch are the same lines on each batch element, the
    results stacked along the batch axis. *)
Lemma attend_and_predict_batchwise att head training noise q k B Q M Dq D :
  PoseHead_wf head -> (1 <= am_num_heads att)%nat ->
  shape3 B Q Dq q -> shape3 B M D k ->
  attend_and_predict att head training noise q k
  = stack_samples
      (imap (fun b qk =>
               attend_and_predict att head training (fun _ => noise b)
                 [fst qk] [snd qk])
            (combine q k)).
Proof.
  intros Hwf HH Hq Hk.
  destruct (attention_batchwise att training noise q k B Q M Dq D Hq Hk HH)
    as (A & HA & HA1).
  destruct (head_batchwise head Q (am_num_heads att) M D Hwf HH)
    as (Hs & HHs).
  pose proof (forward_shape att training noise q k B Q M Dq D Hq Hk HH)
    as Hsh.
  unfold attend_and_predict at 1.
  rewrite (HHs B k _ Hk Hsh), HA.
  assert (Hper : forall b p, In p (combine q k) ->
            attend_and_predict att head training (fun _ => noise b)
              [fst p] [snd p]
            = ([A b p], ([fst (Hs (snd p) (A b p))],
                         [snd (Hs (snd p) (A b p))]))).
  { intros b p Hp.
    destruct (in_combine_shape3 _ _ _ _ _ _ _ _ Hq Hk Hp) as [Hq1 Hk1].
    pose proof (forward_shape att training (fun _ => noise b)
                  [fst p] [snd p] 1 Q M Dq D Hq1 Hk1 HH) as Hsh1.
    unfold attend_and_predict.
    rewrite (HHs 1%nat [snd p] _ Hk1 Hsh1), (HA1 b p Hp); reflexivity. }
  unfold imap.
  rewrite (imap_from_ext _
             (fun b p => ([A b p], ([fst (Hs (snd p) (A b p))],
                                    [snd (Hs (snd p) (A b p))]))))
    by (intros; apply Hper; assumption).
  rewrite zip_with_imap_combine.
  rewrite !map_imap_from.
  rewrite (imap_from_as_map (fun b p => ([A b p], _))).
  rewrite (stack_singletons
             (fun p => A (fst p) (snd p))
             (fun p => fst (Hs (snd (snd p)) (A (fst p) (snd p))))
             (fun p => snd (Hs (snd (snd p)) (A (fst p) (snd p))))).
  rewrite !imap_from_as_map; reflexivity.
Qed.

Lemma class_output_distribution_witness :
  shape3 1 1 2 (fst (PoseHeadSmallLinear_forward ex_head ex_x8 ex_att8))
  /\ Forall (Forall (fun row => rsum row = 1))
       (fst (PoseHeadSmallLinear_forward ex_head ex_x8 ex_att8)).
Proof.
  apply (class_output_distribution ex_head ex_x8 ex_att8 1 1 8 2 8).
  - exact ex_head_wf.
  - exact ex_x8_shape.
  - exact ex_att8_shape.
  - lia.
  - lia.
Defined.


Lemma broadcast_batch_repeat n (t : tensor2) :
  broadcast_batch n t = repeat t n.
Proof. apply concat_repeat_singleton. Qed.

Lemma repeat_shape3 n r c (t : tensor2) :
  shape2 r c t -> shape3 n r c (repeat t n).
Proof.
  intros Ht; split; [apply repeat_length|].
  apply Forall_forall; intros x Hx; apply repeat_spec in Hx; subst.
  exact Ht.
Qed.

(** C8.  For a well-formed head and well-shaped operands, running the
    attention map and the prediction head on the model features tiled to
    batch size B gives, for each batch element, what the same two stages
    give on that element's hidden states and one copy of the features (with
    that element's dropout draws); the same holds for any batch of B
    feature sets, each output row depending on its own batch element only;
    and a batch whose B rows all equal the shared feature set is the tiled
    tensor. *)
Theorem broadcast_is_per_sample
  (att : MHAttentionMap) (head : PoseHeadSmallLinear) (training : bool)
  (noise : nat -> nat -> nat -> nat -> unit_sample)
  (hs_last : tensor3) (feat : tensor2) (B Q M D Dq : nat) :
  PoseHead_wf head -> (1 <= am_num_heads att)%nat ->
  shape3 B Q Dq hs_last -> shape2 M D feat ->
  attend_and_predict att head training noise hs_last (broadcast_batch B feat)
  = stack_samples
      (imap (fun b qb =>
               attend_and_predict att head training (fun _ => noise b)
                 [qb] (broadcast_batch 1 feat))
            hs_last)
  /\ (forall k : tensor3, shape3 B M D k ->
        attend_and_predict att head training noise hs_last k
        = stack_samples
            (imap (fun b qk =>
                     attend_and_predict att head training (fun _ => noise b)
                       [fst qk] [snd qk])
                  (combine hs_last k)))
  /\ (forall k : tensor3, length k = B -> Forall (fun kb => kb = feat) k ->
        k = broadcast_batch B feat).
Proof.
  intros Hwf HH Hq Hfeat.
  split; [|split].
  - rewrite broadcast_batch_repeat.
    rewrite (attend_and_predict_batchwise att head training noise hs_last
               (repeat feat B) B Q M Dq D Hwf HH Hq
               (repeat_shape3 B M D feat Hfeat)).
    destruct Hq as [<- _].
    rewrite combine_repeat; unfold imap; rewrite imap_from_map.
    reflexivity.
  - intros k Hk.
    apply (attend_and_predict_batchwise att head training noise hs_last k
             B Q M Dq D Hwf HH Hq Hk).
  - intros k Hlen Hall; subst B; clear - Hall.
    rewrite broadcast_batch_repeat.
    induction Hall as [|kb k -> _ IH]; simpl; [|rewrite <- IH]; reflexivity.
Qed.

Lemma broadcast_is_per_sample_witness :
  attend_and_predict ex_att8_module ex_head true ex_noise ex_hs2
    (broadcast_batch 2 ex_feat8)
  = stack_samples
      (imap (fun b qb =>
               attend_and_predict ex_att8_module ex_head true
                 (fun _ => ex_noise b) [qb] (broadcast_batch 1 ex_feat8))
            ex_hs2).
Proof.
  assert (H1 : (1 <= am_num_heads ex_att8_module)%nat) by (simpl; lia).
  assert (H2 : shape3 2 1 8 ex_hs2) by (repeat constructor).
  assert (H3 : shape2 2 8 ex_feat8) by (repeat constructor).
  exact (proj1 (broadcast_is_per_sample ex_att8_module ex_head true ex_noise
                  ex_hs2 ex_feat8 2 1 2 8 8 ex_head_wf H1 H2 H3)).
Defined.

(** * Further properties of the three modules *)

(** ** The attention map in every mode *)

Lemma imap_from_Forall {A B : Type} (P : B -> Prop) (f : nat -> A -> B) i l :
  (forall j x, In x l -> P (f j x)) -> Forall P (imap_from i f l).
Proof.
  intros H; apply Forall_forall; intros y Hy.
  apply imap_from_In in Hy as (j & x & Hx & ->); auto.
Qed.

Lemma firstn_Forall {A : Type} (P : A -> Prop) c (l : list A) :
  Forall P l -> Forall P (firstn c l).
Proof.
  intros H; revert c; induction H as [|x l Hx _ IH]; intros [|c]; simpl;
    constructor; auto.
Qed.

Lemma skipn_Forall {A : Type} (P : A -> Prop) c (l : list A) :
  Forall P l -> Forall P (skipn c l).
Proof.
  intros H; revert c; induction H as [|x l Hx Hl IH]; intros [|c]; simpl;
    auto.
Qed.

Lemma chunks_Forall {A : Type} (P : A -> Prop) c n (l : list A) :
  Forall P l -> Forall (Forall P) (chunks c n l).
Proof.
  revert l; induction n as [|n IH]; intros l H; simpl; constructor.
  - apply firstn_Forall; exact H.
  - apply IH, skipn_Forall; exact H.
Qed.

Lemma dropout_nonneg p training u x : 0 < x -> 0 <= dropout p training u x.
Proof.
  intros Hx; unfold dropout; destruct training; [|lra].
  destruct u as [u [H0 H1]]; cbn [proj1_sig].
  destruct (Rlt_dec u (1 - p)) as [Hk|_]; [|lra].
  apply Rlt_le, Rdiv_lt_0_compat; lra.
Qed.

(** X1.  In training and in evaluation mode, with any dropout probability and
    any mask draws, the attention weights of well-shaped operands have
    shape (B, Q, heads, M) and none of them is negative. *)
Theorem attention_shape_in_every_mode
  (self : MHAttentionMap) (training : bool)
  (noise : nat -> nat -> nat -> nat -> unit_sample) (q k : tensor3)
  (B Q M Dq Dk : nat) :
  shape3 B Q Dq q -> shape3 B M Dk k -> (1 <= am_num_heads self)%nat ->
  shape4 B Q (am_num_heads self) M
    (MHAttentionMap_forward self training noise q k)
  /\ Forall (Forall (Forall (Forall (fun w => 0 <= w))))
       (MHAttentionMap_forward self training noise q k).
Proof.
  intros Hq Hk HH.
  split; [apply (forward_shape self training noise q k B Q M Dq Dk);
          assumption|].
  rewrite (forward_closed_form self training noise q k B Q M Dq Dk)
    by assumption.
  unfold dropout4, imap.
  apply imap_from_Forall; intros b wb Hwb.
  apply in_map_iff in Hwb as (sb & <- & _).
  apply imap_from_Forall; intros qi wq Hwq.
  apply in_map_iff in Hwq as (r & <- & _).
  pose proof (chunks_Forall _ M (am_num_heads self) _
                (softmax_pos (concat r))) as Hpos.
  rewrite Forall_forall in Hpos.
  apply imap_from_Forall; intros n wn Hwn.
  specialize (Hpos _ Hwn); rewrite Forall_forall in Hpos.
  apply imap_from_Forall; intros m x Hx.
  apply dropout_nonneg; auto.
Qed.

Lemma attention_shape_in_every_mode_witness :
  shape4 1 1 2 2 (MHAttentionMap_forward ex_att true ex_noise ex_q ex_k)
  /\ Forall (Forall (Forall (Forall (fun w => 0 <= w))))
       (MHAttentionMap_forward ex_att true ex_noise ex_q ex_k).
Proof.
  apply (attention_shape_in_every_mode ex_att true ex_noise ex_q ex_k
           1 1 2 2 2).
  - exact ex_q_shape.
  - exact ex_k_shape.
  - simpl; lia.
Defined.

(** ** Queries do not interact *)

Lemma nth_imap_from {A B : Type} (f : nat -> A -> B) i l n d d' :
  (n < length l)%nat ->
  nth n (imap_from i f l) d = f (i + n)%nat (nth n l d').
Proof.
  revert i n; induction l as [|x l IH]; intros i n Hn; simpl in Hn; [lia|].
  destruct n as [|n]; simpl.
  - rewrite Nat.add_0_r; reflexivity.
  - rewrite IH by lia; f_equal; lia.
Qed.

Lemma nth_combine {A B : Type} (q : list A) (k : list B) n dq dk :
  length q = length k ->
  nth n (combine q k) (dq, dk) = (nth n q dq, nth n k dk).
Proof. intros H; apply combine_nth; exact H. Qed.

(** The scores of one (batch, query) are a function of that query's
    hidden state and of the batch element's keys. *)
Lemma scores_per_query self :
  exists Sq : vec -> tensor2 -> tensor2,
    forall q k,
      MHAttentionMap_scores self q k
      = zip_with (fun qb kb => map (fun qv => Sq qv kb) qb) q k.
Proof.
  exists (fun qv kb => hd [] (hd [] (MHAttentionMap_scores self [[qv]] [kb]))).
  intros q k.
  unfold MHAttentionMap_scores, einsum_bqnc_bmnc_bqnm, scale4, view_heads,
    linear3.
  rewrite !map_map, zip_with_map_both.
  apply zip_with_ext_in; intros qb kb _ _.
  rewrite !(map_map _ _ qb).
  apply map_ext; intros qv; reflexivity.
Qed.

(** The weights of one (batch, query) are a function of that query's
    hidden state, of the batch element's keys and of the block's dropout
    draws. *)
Lemma attention_per_query self training B Q M Dq Dk :
  (1 <= am_num_heads self)%nat ->
  exists W : (nat -> nat -> unit_sample) -> vec -> tensor2 -> tensor2,
    forall noise (q k : tensor3),
      shape3 B Q Dq q -> shape3 B M Dk k ->
      MHAttentionMap_forward self training noise q k
      = imap (fun b p =>
                imap (fun qi qv => W (noise b qi) qv (snd p)) (fst p))
             (combine q k).
Proof.
  intros HH.
  destruct (scores_per_query self) as (Sq & HSq).
  exists (fun nz qv kb =>
    imap (fun n wn =>
            imap (fun m x => dropout (am_dropout self) training (nz n m) x)
              wn)
      (chunks M (am_num_heads self) (softmax (concat (Sq qv kb))))).
  intros noise q k Hq Hk.
  rewrite (forward_closed_form self training noise q k B Q M Dq Dk)
    by assumption.
  rewrite HSq, zip_with_combine.
  unfold dropout4, imap.
  rewrite !map_map, imap_from_map.
  apply imap_from_ext; intros b p _.
  rewrite !map_map, imap_from_map; reflexivity.
Qed.

(** X2.  The attention weights of a query depend on the hidden state of that
    query and on the keys of its batch element only: changing the other
    queries of the batch, or other batch elements, leaves them as they
    are.  (The joint softmax couples heads and models, never queries.) *)
Theorem attention_queries_independent
  (self : MHAttentionMap) (training : bool)
  (noise : nat -> nat -> nat -> nat -> unit_sample) (q q' k k' : tensor3)
  (B Q M Dq Dk b qi : nat) :
  shape3 B Q Dq q -> shape3 B Q Dq q' ->
  shape3 B M Dk k -> shape3 B M Dk k' ->
  (1 <= am_num_heads self)%nat -> (b < B)%nat -> (qi < Q)%nat ->
  nth qi (nth b q []) [] = nth qi (nth b q' []) [] ->
  nth b k [] = nth b k' [] ->
  nth qi (nth b (MHAttentionMap_forward self training noise q k) []) []
  = nth qi (nth b (MHAttentionMap_forward self training noise q' k') []) [].
Proof.
  intros Hq Hq' Hk Hk' HH Hb Hqi Eq Ek.
  destruct (attention_per_query self training B Q M Dq Dk HH) as (W & HW).
  rewrite (HW noise q k Hq Hk), (HW noise q' k' Hq' Hk').
  assert (Hgen : forall (q k : tensor3), shape3 B Q Dq q -> shape3 B M Dk k ->
            nth qi (nth b
              (imap (fun b p =>
                       imap (fun qi qv => W (noise b qi) qv (snd p)) (fst p))
                    (combine q k)) []) []
            = W (noise b qi) (nth qi (nth b q []) []) (nth b k [])).
  { clear - Hb Hqi; intros q k Hq Hk.
    assert (Hlq : length q = B) by apply Hq.
    assert (Hlk : length k = B) by apply Hk.
    unfold imap.
    rewrite (nth_imap_from _ 0 (combine q k) b [] ([], []))
      by (rewrite length_combine; tlia).
    rewrite nth_combine by tlia; cbn [fst snd Nat.add].
    assert (Hin : In (nth b q []) q) by (apply nth_In; tlia).
    destruct (shape3_In _ _ _ _ _ Hq Hin) as [HQ _].
    tnorm.
    rewrite (nth_imap_from _ 0 (nth b q []) qi [] []) by lia.
    reflexivity. }
  pose proof (Hgen q k Hq Hk) as E1.
  pose proof (Hgen q' k' Hq' Hk') as E2.
  tnorm; rewrite E1, E2, Eq, Ek; reflexivity.
Qed.

Lemma attention_queries_independent_witness :
  nth 0 (nth 0 (MHAttentionMap_forward ex_att true ex_noise
                  [[[1; 2]; [5; 6]]] [[[1; 0]; [0; 1]]]) []) []
  = nth 0 (nth 0 (MHAttentionMap_forward ex_att true ex_noise
                    [[[1; 2]; [7; 8]]] [[[1; 0]; [0; 1]]]) []) [].
Proof.
  apply (attention_queries_independent ex_att true ex_noise
           [[[1; 2]; [5; 6]]] [[[1; 2]; [7; 8]]]
           [[[1; 0]; [0; 1]]] [[[1; 0]; [0; 1]]] 1 2 2 2 2 0 0).
  - repeat constructor.
  - repeat constructor.
  - repeat constructor.
  - repeat constructor.
  - simpl; lia.
  - lia.
  - lia.
  - reflexivity.
  - reflexivity.
Defined.

(** ** What the constructors establish *)

Lemma nth_imap {A B : Type} (f : nat -> A -> B) l n d d' :
  (n < length l)%nat -> nth n (imap f l) d = f n (nth n l d').
Proof. intros H; unfold imap; rewrite (nth_imap_from f 0 l n d d' H); reflexivity. Qed.

Lemma nth_map_seq {B : Type} (f : nat -> B) n len d :
  (n < len)%nat -> nth n (map f (seq 0 len)) d = f n.
Proof.
  intros H; rewrite (nth_map_in f (seq 0 len) n d 0%nat)
    by (rewrite length_seq; exact H).
  rewrite seq_nth by exact H; reflexivity.
Qed.

Lemma map_const_repeat {A B : Type} (c : B) (l : list A) :
  map (fun _ => c) l = repeat c (length l).
Proof. induction l; simpl; [|rewrite IHl]; reflexivity. Qed.

(** After re-initialisation the entry (i, j) of a weight is the draw for
    (i, j), and the bias is zero. *)
Lemma reinit_linear_values rng k inn out w0 b0 :
  let l := reinit_linear rng k (nn_Linear inn out w0 b0) in
  (forall i j, (i < out)%nat -> (j < inn)%nat ->
     nth j (nth i (data (weight l)) []) 0 = xavier rng k i j)
  /\ data (bias l) = repeat 0 out.
Proof.
  intros l; subst l.
  cbn [reinit_linear init_zero_bias init_weight nn_Linear data weight bias].
  split.
  - intros i j Hi Hj; tnorm.
    rewrite (nth_imap _ _ i [] []) by (rewrite length_map, length_seq; exact Hi).
    rewrite (nth_map_seq _ i out []) by exact Hi.
    rewrite (nth_imap _ _ j 0 0) by (rewrite length_map, length_seq; exact Hj).
    reflexivity.
  - rewrite map_map, map_const_repeat, length_seq; reflexivity.
Qed.

(** X3.  [MHAttentionMap.__init__] leaves both projections with a weight of
    [hidden_dim] rows and [query_dim] columns holding the Xavier draws
    (each projection its own), a zero bias of [hidden_dim] entries and
    trainable parameters, keeps the given dropout probability, and sets the
    score scale to [1 / sqrt (hidden_dim / num_heads)]. *)
Theorem attention_init_state
  (query_dim hidden_dim num_heads : nat) (p : R) (rng : Init) :
  (0 < hidden_dim)%nat -> (0 < num_heads)%nat ->
  let a := MHAttentionMap_init query_dim hidden_dim num_heads p rng in
  shape2 hidden_dim query_dim (data (weight (q_linear a)))
  /\ shape2 hidden_dim query_dim (data (weight (k_linear a)))
  /\ (forall i j, (i < hidden_dim)%nat -> (j < query_dim)%nat ->
        nth j (nth i (data (weight (q_linear a))) []) 0 = xavier rng 0 i j
        /\ nth j (nth i (data (weight (k_linear a))) []) 0 = xavier rng 1 i j)
  /\ data (bias (q_linear a)) = repeat 0 hidden_dim
  /\ data (bias (k_linear a)) = repeat 0 hidden_dim
  /\ Forall (fun flag => flag = true) (grad_flags a)
  /\ am_dropout a = p
  /\ am_num_heads a = num_heads
  /\ normalize_fact a = / sqrt (INR hidden_dim / INR num_heads).
Proof.
  intros Hh Hn a.
  pose proof (reinit_weight_shape rng 0 query_dim hidden_dim
                (default_weight rng 0) (default_bias rng 0)) as Sq.
  pose proof (reinit_weight_shape rng 1 query_dim hidden_dim
                (default_weight rng 1) (default_bias rng 1)) as Sk.
  destruct (reinit_linear_values rng 0 query_dim hidden_dim
              (default_weight rng 0) (default_bias rng 0)) as [Vq Bq].
  destruct (reinit_linear_values rng 1 query_dim hidden_dim
              (default_weight rng 1) (default_bias rng 1)) as [Vk Bk].
  split; [exact Sq|]. split; [exact Sk|].
  split; [intros i j Hi Hj; split; [apply Vq | apply Vk]; assumption|].
  split; [exact Bq|]. split; [exact Bk|].
  split; [repeat constructor|].
  split; [reflexivity|]. split; [reflexivity|].
  subst a; cbn [MHAttentionMap_init normalize_fact].
  assert (Hx : 0 < INR hidden_dim / INR num_heads).
  { apply Rdiv_lt_0_compat; apply lt_0_INR; assumption. }
  rewrite Rpower_Ropp.
  replace (1 / 2) with (/ 2) by lra.
  rewrite Rpower_sqrt by exact Hx; reflexivity.
Qed.

Lemma attention_init_state_witness :
  normalize_fact (MHAttentionMap_init 8 8 2 0 diag_init)
  = / sqrt (INR 8 / INR 2).
Proof.
  apply (attention_init_state 8 8 2 0 diag_init); lia.
Defined.

Lemma reinit_stack_linears rng base nf :
  Sequential_linears (reinit_stack rng base (halving_stack rng base nf 4))
  = map (fun i =>
           reinit_linear rng (base + i)
             (nn_Linear (nf / 2 ^ i) (nf / 2 ^ (i + 1))
                (default_weight rng (base + i)) (default_bias rng (base + i))))
        (seq 0 4).
Proof. reflexivity. Qed.

Lemma reinit_linear_shape rng k inn out w0 b0 :
  Linear_shape inn out (reinit_linear rng k (nn_Linear inn out w0 b0)).
Proof.
  split; [apply reinit_weight_shape | apply reinit_linear_out].
Qed.

(** The four stages [__init__] stacks halve the width each time. *)
Lemma reinit_stack_widths rng base nf :
  Sequential_widths nf
    [nf / 2 ^ 1; nf / 2 ^ 2; nf / 2 ^ 3; nf / 2 ^ 4]%nat
    (reinit_stack rng base (halving_stack rng base nf 4)).
Proof.
  change (reinit_stack rng base (halving_stack rng base nf 4))
    with (flat_map (fun i =>
            [LLinear (reinit_linear rng (base + i)
                        (nn_Linear (nf / 2 ^ i) (nf / 2 ^ (i + 1))
                           (default_weight rng (base + i))
                           (default_bias rng (base + i))));
             LReLU]) (seq 0 4)).
  cbn [flat_map seq app Sequential_widths Nat.add].
  replace (nf / 2 ^ 0)%nat with nf by (symmetry; apply Nat.div_1_r).
  repeat split; try apply reinit_linear_shape; apply reinit_linear_out.
Qed.

(** The widths of the head [__init__] builds. *)
Lemma init_widths num_dims num_heads rng :
  PoseHead_widths num_dims num_heads
    (PoseHeadSmallLinear_init num_dims num_heads rng).
Proof.
  unfold PoseHead_widths.
  cbn [PoseHeadSmallLinear_init ph_num_dims l1 g1 l2 l3 l4 l5
       nn_GroupNorm gn_num_groups gn_num_channels].
  split; [reflexivity|].
  split; [apply reinit_linear_shape|].
  split; [reflexivity|]. split; [reflexivity|].
  split; [apply reinit_stack_widths|].
  split; [apply reinit_linear_shape|].
  split; [apply reinit_stack_widths | apply reinit_linear_shape].
Qed.

(** The widths of the attention map [__init__] builds. *)
Lemma attention_init_widths query_dim hidden_dim num_heads p rng :
  (1 <= num_heads)%nat -> (hidden_dim mod num_heads = 0)%nat ->
  Attention_widths query_dim
    (MHAttentionMap_init query_dim hidden_dim num_heads p rng).
Proof.
  intros Hn Hm.
  pose proof (reinit_linear_shape rng 0 query_dim hidden_dim
                (default_weight rng 0) (default_bias rng 0)) as Sq.
  pose proof (reinit_linear_shape rng 1 query_dim hidden_dim
                (default_weight rng 1) (default_bias rng 1)) as Sk.
  split; [exact Sq|]. split; [exact Sk|]. split; assumption.
Qed.

(** X4.  [PoseHeadSmallLinear.__init__], for a positive number of channels
    that the eight groups divide, builds a head whose widths chain: [l1]
    from [num_dims] to [num_dims], a normalisation of [num_dims] channels
    in 8 groups, [l2] and [l4] each four [Linear], [ReLU] stages from
    [num_feat = num_dims + num_heads] through [num_feat // 2], [// 4],
    [// 8] to [num_feat // 16], [l3] from there to 1 and [l5] from there to
    6.  The eleven linear layers all have a zero bias, the normalisation
    starts with unit scale and zero shift, and all 24 parameters are
    trainable. *)
Theorem head_init_state (num_dims num_heads : nat) (rng : Init) :
  (0 < num_dims)%nat -> (num_dims mod 8 = 0)%nat ->
  let h := PoseHeadSmallLinear_init num_dims num_heads rng in
  PoseHead_widths num_dims num_heads h
  /\ PoseHead_wf h
  /\ length (PoseHead_linears h) = 11%nat
  /\ Forall (fun l => Forall (fun b => b = 0) (data (bias l)))
       (PoseHead_linears h)
  /\ data (gn_weight (g1 h)) = repeat 1 num_dims
  /\ data (gn_bias (g1 h)) = repeat 0 num_dims
  /\ length (grad_flags h) = 24%nat
  /\ Forall (fun flag => flag = true) (grad_flags h).
Proof.
  intros Hd Hm h.
  split; [apply init_widths|].
  split; [apply init_wf; assumption|].
  split; [reflexivity|].
  split.
  - subst h; unfold PoseHead_linears.
    cbn [PoseHeadSmallLinear_init l1 l2 l3 l4 l5].
    rewrite !reinit_stack_linears.
    assert (Hz : forall k inn out w0 b0,
              Forall (fun b => b = 0)
                (data (bias (reinit_linear rng k (nn_Linear inn out w0 b0))))).
    { intros k inn out w0 b0.
      destruct (reinit_linear_values rng k inn out w0 b0) as [_ E].
      cbv zeta in E; rewrite E.
      apply Forall_forall; intros b Hb; apply repeat_spec in Hb; exact Hb. }
    repeat (apply Forall_app; split);
      try (apply Forall_map, Forall_forall; intros i _; apply Hz);
      try (constructor; [apply Hz | constructor]).
  - split; [reflexivity|]. split; [reflexivity|].
    split; [reflexivity | repeat constructor].
Qed.

Lemma head_init_state_witness :
  PoseHead_widths 8 8 (PoseHeadSmallLinear_init 8 8 zero_init)
  /\ PoseHead_wf (PoseHeadSmallLinear_init 8 8 zero_init).
Proof.
  destruct (head_init_state 8 8 zero_init) as (H1 & H2 & _);
    [lia | reflexivity |].
  split; assumption.
Defined.

(** ** The fused tensor *)

Lemma nth_zip_with {A B C : Type} (f : A -> B -> C) xs ys n d dx dy :
  (n < length xs)%nat -> (n < length ys)%nat ->
  nth n (zip_with f xs ys) d = f (nth n xs dx) (nth n ys dy).
Proof.
  revert ys n; induction xs as [|x xs IH]; intros [|y ys] n Hx Hy;
    simpl in Hx, Hy; try lia.
  destruct n as [|n]; simpl; [reflexivity|].
  apply IH; lia.
Qed.

Lemma nth_repeat_lt {A : Type} (x : A) n len d :
  (n < len)%nat -> nth n (repeat x len) d = x.
Proof.
  revert n; induction len as [|len IH]; intros n H; [lia|].
  destruct n; simpl; [reflexivity | apply IH; lia].
Qed.

Lemma nth_transpose c (rows : tensor2) m :
  (m < c)%nat -> nth m (transpose c rows) [] = map (fun r => nth m r 0) rows.
Proof.
  intros H; unfold transpose.
  exact (nth_map_seq (fun j => map (fun r => nth j r 0) rows) m c [] H).
Qed.

(** Line 96 without the size look-ups. *)
Lemma fuse_explicit h (x : tensor3) (att : tensor4) B Q H M :
  shape4 B Q H M att -> (1 <= H)%nat ->
  PoseHead_fuse h x att
  = zip_with (fun xb ab =>
                zip_with (zip_with (@app R)) (repeat xb Q)
                  (map (transpose (match Q with O => O | S _ => M end)) ab))
      (PoseHead_refine h x) att.
Proof.
  intros Hatt HH.
  unfold PoseHead_fuse, cat3, repeat_1_n_1_1, unsqueeze1.
  rewrite (permute_0_1_3_2_const _ _ _ _ _ Hatt HH).
  destruct att as [|ab att];
    [cbn [map]; rewrite !zip_with_nil_r; reflexivity|].
  assert (HQ : length ab = Q).
  { destruct (shape4_In _ _ _ _ _ _ Hatt (or_introl eq_refl)); assumption. }
  cbn [hd]; rewrite HQ.
  rewrite !map_map, zip_with_map_both.
  apply zip_with_ext_in; intros xb ab' _ _.
  cbn [concat]; rewrite concat_repeat_singleton; reflexivity.
Qed.

(** One (batch, query) block of the fused tensor pairs every refined model
    row with that model's column of the query's attention. *)
Lemma fused_block h (x : tensor3) (att : tensor4) B Q H M C b q :
  PoseHead_wf h -> shape3 B M C x -> shape4 B Q H M att -> (1 <= H)%nat ->
  (b < B)%nat -> (q < Q)%nat ->
  nth q (nth b (PoseHead_fuse h x att) []) []
  = zip_with (@app R) (nth b (PoseHead_refine h x) [])
      (transpose M (nth q (nth b att []) [])).
Proof.
  intros Hwf Hx Hatt HH Hb Hq.
  pose proof (refine_shape h B M C x Hwf Hx) as Hr.
  rewrite (fuse_explicit h x att B Q H M Hatt HH).
  assert (Hlr : length (PoseHead_refine h x) = B) by apply Hr.
  assert (Hla : length att = B) by apply Hatt.
  assert (Hin : In (nth b att []) att) by (apply nth_In; tlia).
  destruct (shape4_In _ _ _ _ _ _ Hatt Hin) as [HQ _].
  tnorm.
  rewrite (nth_zip_with _ _ _ b [] [] []) by lia.
  rewrite (nth_zip_with _ _ _ q [] [] [])
    by (rewrite ?repeat_length, ?length_map; lia).
  rewrite nth_repeat_lt by exact Hq.
  rewrite (nth_map_in _ _ q [] []) by lia.
  destruct Q; [lia | reflexivity].
Qed.

(** X5.  The fused tensor has shape (B, Q, M, num_dims + heads), and its row for
    (batch b, query q, model m) is the refined feature row of model m of
    batch b followed by the attention of query q to model m, one value per
    head. *)
Theorem fused_layout
  (h : PoseHeadSmallLinear) (x : tensor3) (attention : tensor4)
  (B Q H M C b q m : nat) :
  PoseHead_wf h -> shape3 B M C x -> shape4 B Q H M attention ->
  (1 <= H)%nat -> (b < B)%nat -> (q < Q)%nat -> (m < M)%nat ->
  shape4 B Q M (ph_num_dims h + H) (PoseHead_fuse h x attention)
  /\ nth m (nth q (nth b (PoseHead_fuse h x attention) []) []) []
     = nth m (nth b (PoseHead_refine h x) []) []
       ++ map (fun head_row => nth m head_row 0)
            (nth q (nth b attention []) []).
Proof.
  intros Hwf Hx Hatt HH Hb Hq Hm.
  split; [apply (fuse_shape h B Q H M C); assumption|].
  rewrite (fused_block h x attention B Q H M C b q) by assumption.
  pose proof (refine_shape h B M C x Hwf Hx) as Hr.
  assert (Hlr : length (PoseHead_refine h x) = B) by apply Hr.
  assert (Hin : In (nth b (PoseHead_refine h x) []) (PoseHead_refine h x))
    by (apply nth_In; tlia).
  destruct (shape3_In _ _ _ _ _ Hr Hin) as [HM _].
  destruct (transpose_shape M (nth q (nth b attention []) [])) as [HT _].
  tnorm.
  rewrite (nth_zip_with _ _ _ m [] [] []) by lia.
  rewrite nth_transpose by exact Hm; reflexivity.
Qed.

Lemma fused_layout_witness :
  nth 1 (nth 0 (nth 0 (PoseHead_fuse ex_head ex_x8 ex_att8) []) []) []
  = nth 1 (nth 0 (PoseHead_refine ex_head ex_x8) []) []
    ++ map (fun head_row => nth 1 head_row 0) (nth 0 (nth 0 ex_att8 []) []).
Proof.
  apply (fused_layout ex_head ex_x8 ex_att8 1 1 8 2 8 0 0 1).
  - exact ex_head_wf.
  - exact ex_x8_shape.
  - exact ex_att8_shape.
  - lia.
  - lia.
  - lia.
  - lia.
Defined.

(** ** Queries do not interact in the head *)

Lemma class_block h (fused : tensor4) B Q M b q :
  shape3 B Q M fused -> (b < B)%nat -> (q < Q)%nat ->
  nth q (nth b (PoseHead_class h fused) []) []
  = softmax (map (fun f =>
               relu (hd 0 (linear (l3 h) (Sequential_row (l2 h) f))))
               (nth q (nth b fused []) [])).
Proof.
  intros Hf Hb Hq.
  rewrite class_entrywise.
  assert (Hl : length fused = B) by apply Hf.
  assert (Hin : In (nth b fused []) fused) by (apply nth_In; tlia).
  destruct (shape3_In _ _ _ _ _ Hf Hin) as [HQ _].
  tnorm.
  rewrite (nth_map_in _ fused b [] []) by lia.
  rewrite (nth_map_in _ (nth b fused []) q [] []) by lia.
  reflexivity.
Qed.

Lemma pose_block h (fused : tensor4) B Q M b q :
  shape3 B Q M fused -> (b < B)%nat -> (q < Q)%nat ->
  nth q (nth b (PoseHead_pose h fused) []) []
  = map (fun f => linear (l5 h) (Sequential_row (l4 h) f))
      (nth q (nth b fused []) []).
Proof.
  intros Hf Hb Hq.
  unfold PoseHead_pose, linear4, linear3, Sequential_forward.
  assert (Hl : length fused = B) by apply Hf.
  assert (Hin : In (nth b fused []) fused) by (apply nth_In; tlia).
  destruct (shape3_In _ _ _ _ _ Hf Hin) as [HQ _].
  tnorm.
  rewrite (nth_map_in _ (map _ fused) b [] [])
    by (rewrite length_map; lia).
  rewrite (nth_map_in _ fused b [] []) by lia.
  rewrite (nth_map_in _ (map _ (nth b fused [])) q [] [])
    by (rewrite length_map; lia).
  rewrite (nth_map_in _ (nth b fused []) q [] []) by lia.
  rewrite map_map; reflexivity.
Qed.

(** X6.  The class distribution and the poses of a query depend on the model
    features of its batch element and on that query's own attention weights
    only: changing the attention of other queries leaves them as they
    are. *)
Theorem head_queries_independent
  (h : PoseHeadSmallLinear) (x : tensor3) (attention attention' : tensor4)
  (B Q H M C b q : nat) :
  PoseHead_wf h -> shape3 B M C x ->
  shape4 B Q H M attention -> shape4 B Q H M attention' ->
  (1 <= H)%nat -> (b < B)%nat -> (q < Q)%nat ->
  nth q (nth b attention []) [] = nth q (nth b attention' []) [] ->
  nth q (nth b (fst (PoseHeadSmallLinear_forward h x attention)) []) []
  = nth q (nth b (fst (PoseHeadSmallLinear_forward h x attention')) []) []
  /\ nth q (nth b (snd (PoseHeadSmallLinear_forward h x attention)) []) []
     = nth q (nth b (snd (PoseHeadSmallLinear_forward h x attention')) [])
         [].
Proof.
  intros Hwf Hx Ha Ha' HH Hb Hq E.
  pose proof (shape4_outer _ _ _ _ _
                (fuse_shape h B Q H M C x attention Hwf Hx Ha HH)) as Hf.
  pose proof (shape4_outer _ _ _ _ _
                (fuse_shape h B Q H M C x attention' Hwf Hx Ha' HH)) as Hf'.
  pose proof (fused_block h x attention B Q H M C b q Hwf Hx Ha HH Hb Hq)
    as E1.
  pose proof (fused_block h x attention' B Q H M C b q Hwf Hx Ha' HH Hb Hq)
    as E2.
  cbn [PoseHeadSmallLinear_forward fst snd].
  rewrite (class_block h _ B Q M b q Hf Hb Hq),
          (class_block h _ B Q M b q Hf' Hb Hq),
          (pose_block h _ B Q M b q Hf Hb Hq),
          (pose_block h _ B Q M b q Hf' Hb Hq).
  tnorm; rewrite E1, E2, E; split; reflexivity.
Qed.

Lemma head_queries_independent_witness :
  nth 0 (nth 0 (fst (PoseHeadSmallLinear_forward ex_head ex_x8 ex_att8_two))
           []) []
  = nth 0 (nth 0 (fst (PoseHeadSmallLinear_forward ex_head ex_x8
                         ex_att8_two')) []) [].
Proof.
  assert (H1 : shape4 1 2 8 2 ex_att8_two)
    by (unfold ex_att8_two; cbn [repeat]; repeat constructor).
  assert (H2 : shape4 1 2 8 2 ex_att8_two')
    by (unfold ex_att8_two'; cbn [repeat]; repeat constructor).
  assert (H3 : (1 <= 8)%nat) by lia.
  assert (H4 : (0 < 1)%nat) by lia.
  assert (H5 : (0 < 2)%nat) by lia.
  exact (proj1 (head_queries_independent ex_head ex_x8 ex_att8_two
                  ex_att8_two' 1 2 8 2 8 0 0 ex_head_wf ex_x8_shape
                  H1 H2 H3 H4 H5 eq_refl)).
Defined.

(** ** What the ReLU before the softmax does to the class distribution *)

Lemma exp_ge_1 z : 0 <= z -> 1 <= exp z.
Proof.
  intros [H | <-]; [|rewrite exp_0; lra].
  rewrite <- exp_0; left; apply exp_increasing; exact H.
Qed.

Lemma rsum_exp_ge_length v :
  Forall (fun z => 0 <= z) v -> INR (length v) <= rsum (map exp v).
Proof.
  induction 1 as [|z v Hz _ IH]; [simpl; lra|].
  change (length (z :: v)) with (S (length v)); rewrite S_INR.
  pose proof (exp_ge_1 z Hz); simpl; lra.
Qed.

Lemma exp_le_rsum v x : In x v -> exp x <= rsum (map exp v).
Proof.
  induction v as [|y v IH]; [contradiction|].
  intros [-> | H]; simpl.
  - destruct v as [|y' v]; [simpl; lra|].
    pose proof (rsum_exp_pos (y' :: v) ltac:(discriminate)); lra.
  - pose proof (IH H); pose proof (exp_pos y); lra.
Qed.

Lemma relu_ge_0 x : 0 <= relu x.
Proof. unfold relu; apply Rmax_l. Qed.

(** X7.  Every class probability lies in (0, 1], and a model whose scalar
    projection is not positive gets at most the uniform share [1 / M]: the
    ReLU lifts every non-positive projection to 0, the least value the
    softmax sees. *)
Theorem class_probability_bounds
  (h : PoseHeadSmallLinear) (x : tensor3) (attention : tensor4)
  (B Q H M C b q m : nat) :
  PoseHead_wf h -> shape3 B M C x -> shape4 B Q H M attention ->
  (1 <= H)%nat -> (b < B)%nat -> (q < Q)%nat -> (m < M)%nat ->
  0 < nth m (nth q (nth b
              (fst (PoseHeadSmallLinear_forward h x attention)) []) []) 0
      <= 1
  /\ (hd 0 (linear (l3 h) (Sequential_row (l2 h)
              (nth m (nth q (nth b (PoseHead_fuse h x attention) []) []) [])))
      <= 0 ->
      nth m (nth q (nth b
               (fst (PoseHeadSmallLinear_forward h x attention)) []) []) 0
      <= 1 / INR M).
Proof.
  intros Hwf Hx Hatt HH Hb Hq Hm.
  pose proof (shape4_outer _ _ _ _ _
                (fuse_shape h B Q H M C x attention Hwf Hx Hatt HH)) as Hf.
  cbn [PoseHeadSmallLinear_forward fst].
  rewrite (class_block h _ B Q M b q Hf Hb Hq).
  set (fused := PoseHead_fuse h x attention) in *.
  set (row := nth q (nth b fused []) []).
  set (g := fun f : vec =>
              relu (hd 0 (linear (l3 h) (Sequential_row (l2 h) f)))).
  assert (Hrow : length row = M).
  { assert (Hl : length fused = B) by apply Hf.
    assert (Hin : In (nth b fused []) fused) by (apply nth_In; tlia).
    pose proof (shape3_In _ _ _ _ _ Hf Hin) as Hb2.
    assert (Hl2 : length (nth b fused []) = Q) by apply Hb2.
    assert (Hin2 : In row (nth b fused [])) by (apply nth_In; tlia).
    exact (shape2_In _ _ _ _ Hb2 Hin2). }
  assert (Hlen : (m < length (map g row))%nat) by (rewrite length_map; lia).
  rewrite (nth_softmax _ m Hlen).
  assert (Hne : map g row <> []).
  { intros E; rewrite E in Hlen; simpl in Hlen; lia. }
  pose proof (rsum_exp_pos _ Hne) as HS.
  assert (Hin : In (nth m (map g row) 0) (map g row)) by (apply nth_In; exact Hlen).
  pose proof (exp_le_rsum _ _ Hin) as Hle.
  pose proof (exp_pos (nth m (map g row) 0)) as Hpos.
  split; [split|].
  - apply Rdiv_lt_0_compat; assumption.
  - apply (Rmult_le_reg_r (rsum (map exp (map g row)))); [exact HS|].
    unfold Rdiv; rewrite Rmult_assoc, Rinv_l by lra; lra.
  - intros Hz.
    rewrite (nth_map_in g row m 0 []) by lia.
    unfold g at 1; fold row; rewrite (relu_nonpos _ Hz), exp_0.
    assert (HM : INR M <= rsum (map exp (map g row))).
    { rewrite <- Hrow, <- (length_map g row).
      apply rsum_exp_ge_length, Forall_map, Forall_forall.
      intros f _; apply relu_ge_0. }
    assert (HM0 : 0 < INR M) by (apply lt_0_INR; lia).
    unfold Rdiv; rewrite !Rmult_1_l.
    apply Rinv_le_contravar; assumption.
Qed.

Lemma class_probability_bounds_witness :
  0 < nth 0 (nth 0 (nth 0
         (fst (PoseHeadSmallLinear_forward ex_head ex_x8 ex_att8)) []) []) 0
    <= 1.
Proof.
  apply (class_probability_bounds ex_head ex_x8 ex_att8 1 1 8 2 8 0 0 0).
  - exact ex_head_wf.
  - exact ex_x8_shape.
  - exact ex_att8_shape.
  - lia.
  - lia.
  - lia.
  - lia.
Defined.

(** ** A head narrower than sixteen features *)

Lemma linear_no_inputs l f :
  Forall (fun r => r = []) (data (weight l)) ->
  length (data (weight l)) = length (data (bias l)) ->
  linear l f = data (bias l).
Proof.
  unfold linear; generalize (data (bias l)) as bs.
  induction (data (weight l)) as [|w W IH]; intros [|b bs] HW Hlen;
    simpl in Hlen; try discriminate; [reflexivity|].
  inversion HW as [|? ? Hw HW']; subst.
  cbn [zip_with]; f_equal; [unfold dot; simpl; lra | apply IH; [assumption | lia]].
Qed.

Lemma shape2_no_columns n (t : tensor2) :
  shape2 n 0 t -> Forall (fun r => r = []) t.
Proof.
  intros [_ H]; eapply Forall_impl; [|exact H].
  intros r Hr; apply length_zero_iff_nil; exact Hr.
Qed.

Lemma rsum_repeat c n : rsum (repeat c n) = INR n * c.
Proof.
  induction n as [|n IH]; [simpl; lra|].
  rewrite S_INR; cbn [repeat rsum fold_right]; fold (rsum (repeat c n)).
  rewrite IH; lra.
Qed.

Lemma softmax_repeat c M :
  (1 <= M)%nat -> softmax (repeat c M) = repeat (1 / INR M) M.
Proof.
  intros HM; unfold softmax.
  rewrite !map_repeat, rsum_repeat.
  f_equal.
  assert (0 < INR M) by (apply lt_0_INR; lia).
  pose proof (exp_pos c); field; lra.
Qed.

(** X8.  When [num_dims + num_heads < 16] (eight channels and fewer than
    eight heads, as the eight groups must divide the channels) the last
    halving stage has width [num_feat // 16 = 0], so [l3] and [l5] are built
    with no input features.  For a head of those shapes, whatever its
    parameter values, the class output is the uniform distribution over the
    models and every pose vector is the bias of [l5]: the outputs ignore
    the image. *)
Theorem narrow_head_ignores_inputs :
  (forall (d nh : nat) (rng : Init),
     (0 < d)%nat -> (d mod 8 = 0)%nat -> (d + nh < 16)%nat ->
     shape2 1 0 (data (weight (l3 (PoseHeadSmallLinear_init d nh rng))))
     /\ shape2 6 0 (data (weight (l5 (PoseHeadSmallLinear_init d nh rng)))))
  /\ (forall (h : PoseHeadSmallLinear) (x : tensor3) (attention : tensor4)
        (B Q H M C : nat),
        PoseHead_wf h ->
        shape2 1 0 (data (weight (l3 h))) ->
        shape2 6 0 (data (weight (l5 h))) ->
        shape3 B M C x -> shape4 B Q H M attention ->
        (1 <= H)%nat -> (1 <= M)%nat ->
        Forall (Forall (fun row => row = repeat (1 / INR M) M))
          (fst (PoseHeadSmallLinear_forward h x attention))
        /\ Forall (Forall (Forall (fun v => v = data (bias (l5 h)))))
             (snd (PoseHeadSmallLinear_forward h x attention))).
Proof.
  split.
  - intros d nh rng _ _ Hlt.
    pose proof (reinit_weight_shape rng 5 ((d + nh) / 2 ^ 4) 1
                  (default_weight rng 5) (default_bias rng 5)) as H3.
    pose proof (reinit_weight_shape rng 10 ((d + nh) / 2 ^ 4) 6
                  (default_weight rng 10) (default_bias rng 10)) as H5.
    assert (E : ((d + nh) / 2 ^ 4 = 0)%nat)
      by (apply Nat.div_small; simpl; lia).
    cbn [PoseHeadSmallLinear_init l3 l5]; rewrite E in *; split; assumption.
  - intros h x attention B Q H M C Hwf H3 H5 Hx Hatt HH HM.
    pose proof (shape4_outer _ _ _ _ _
                  (fuse_shape h B Q H M C x attention Hwf Hx Hatt HH)) as Hf.
    pose proof Hwf as (_ & _ & _ & _ & _ & _ & _ & [Hw3 Hb3] & [Hw5 Hb5]).
    cbn [PoseHeadSmallLinear_forward fst snd].
    set (fused := PoseHead_fuse h x attention) in *.
    split.
    + rewrite class_entrywise.
      apply Forall_map, Forall_forall; intros tb Hb.
      apply Forall_map, Forall_forall; intros row Hrow.
      pose proof (shape2_In _ _ _ _ (shape3_In _ _ _ _ _ Hf Hb) Hrow) as Hlen.
      rewrite (map_ext _ (fun _ => relu (hd 0 (data (bias (l3 h)))))).
      * rewrite map_const_repeat; tnorm; rewrite Hlen.
        apply softmax_repeat; exact HM.
      * intros f; rewrite linear_no_inputs;
          [reflexivity | apply (shape2_no_columns 1); exact H3 | tlia].
    + unfold PoseHead_pose, linear4, linear3, Sequential_forward.
      apply Forall_map, Forall_map, Forall_forall; intros tb _.
      apply Forall_map, Forall_map, Forall_forall; intros row _.
      apply Forall_map, Forall_map, Forall_forall; intros f _.
      apply linear_no_inputs; [apply (shape2_no_columns 6); exact H5 | tlia].
Qed.

Lemma narrow_head_ignores_inputs_witness :
  Forall (Forall (fun row => row = repeat (1 / INR 2) 2))
    (fst (PoseHeadSmallLinear_forward
            (PoseHeadSmallLinear_init 8 4 diag_init) ex_x8 ex_att4)).
Proof.
  destruct narrow_head_ignores_inputs as [Hinit Hgen].
  destruct (Hinit 8%nat 4%nat diag_init ltac:(lia) eq_refl ltac:(lia))
    as [H3 H5].
  assert (Hwf : PoseHead_wf (PoseHeadSmallLinear_init 8 4 diag_init))
    by (apply init_wf; [lia | reflexivity]).
  assert (Ha : shape4 1 1 4 2 ex_att4)
    by (unfold ex_att4; cbn [repeat]; repeat constructor).
  exact (proj1 (Hgen _ ex_x8 ex_att4 1 1 4 2 8 Hwf H3 H5 ex_x8_shape Ha
                  ltac:(lia) ltac:(lia)))%nat.
Defined.

(** ** The result of [forward] *)

(** What a successful run of the body went through, and the dictionary it
    returns. *)
Lemma forward_body_inv ext detr m3d att head training noise draws samples
  out :
  forward_body ext detr m3d att head training noise draws samples = Ok out ->
  let sd := state_dict (detr_parameters detr) in
  let sd3 := state_dict (m3d_parameters m3d) in
  let enc := forward_encoder ext training draws sd3 in
  let dec := forward_decoder ext training draws sd3 enc in
  exists features pos feat mk pos_last hs memory logits boxes hs_last,
    detr_backbone ext training draws sd (as_nested_tensor ext samples)
    = (features, pos)
    /\ index_last features = Ok feat /\ mask feat = Some mk
    /\ index_last pos = Ok pos_last
    /\ detr_transformer ext training draws sd
         (detr_input_proj ext training draws sd (tensors feat)) mk
         (detr_query_embed_weight ext sd) pos_last = (hs, memory)
    /\ index_last (detr_class_embed ext training draws sd hs) = Ok logits
    /\ index_last (sigmoid4 (detr_bbox_embed ext training draws sd hs))
       = Ok boxes
    /\ index_last hs = Ok hs_last
    /\ out
       = result_dict
           (if aux_loss detr
            then Some (DETR_set_aux_loss
                         (detr_class_embed ext training draws sd hs)
                         (sigmoid4
                            (detr_bbox_embed ext training draws sd hs)))
            else None)
           logits boxes
           (fst (snd (attend_and_predict att head training noise hs_last
                        (broadcast_batch (length (tensors feat)) enc))))
           (snd (snd (attend_and_predict att head training noise hs_last
                        (broadcast_batch (length (tensors feat)) enc))))
           (fst (fst dec)) (snd (fst dec)) (snd dec).
Proof.
  intros H sd sd3 enc dec; unfold forward_body in H.
  fold sd sd3 in H; fold enc in H; fold dec in H.
  destruct (detr_backbone ext training draws sd
              (as_nested_tensor ext samples)) as [features pos].
  destruct (index_last features) as [feat|e] eqn:Ef; [|discriminate].
  cbn [bind] in H.
  destruct (mask feat) as [mk|] eqn:Em; [|discriminate].
  destruct (index_last pos) as [pos_last|e] eqn:Ep; [|discriminate].
  cbn [bind] in H.
  destruct (detr_transformer ext training draws sd
              (detr_input_proj ext training draws sd (tensors feat))
              mk (detr_query_embed_weight ext sd) pos_last)
    as [hs memory] eqn:Et.
  cbv zeta in H.
  destruct (index_last (detr_class_embed ext training draws sd hs))
    as [logits|e] eqn:Ec; [|discriminate].
  cbn [bind] in H.
  destruct (index_last (sigmoid4 (detr_bbox_embed ext training draws sd hs)))
    as [boxes|e] eqn:Eb; [|discriminate].
  cbn [bind] in H.
  destruct (index_last hs) as [hs_last|e] eqn:Eh; [|discriminate].
  cbn [bind] in H.
  exists features, pos, feat, mk, pos_last, hs, memory, logits, boxes, hs_last.
  repeat (split; [reflexivity || assumption|]).
  destruct (attend_and_predict att head training noise hs_last _)
    as [a [pc p6]].
  destruct dec as [[points scales] centers].
  injection H as <-.
  destruct (aux_loss detr); reflexivity.
Qed.

Lemma index_last_nil {A : Type} (l : list A) :
  l = [] -> index_last l = Raise IndexError.
Proof. intros ->; reflexivity. Qed.

Lemma index_last_Ok_nonempty {A : Type} (l : list A) x :
  index_last l = Ok x -> l <> [].
Proof. intros E ->; discriminate. Qed.

(** X9.  On a network whose sub-modules are set, [forward] never raises
    [AttributeError], and its look-ups fail in the order of the source.
    With no feature map it raises [IndexError] (line 133), before the mask
    is looked at; with a last feature map without mask it raises
    [AssertionError] (line 136); with the mask present it raises
    [IndexError] when there is no positional encoding (line 138) or when
    the class logits, the boxes or the hidden states have no layer (lines
    144, 145, 162).  So a call that returns a dictionary had a last feature
    map with a mask, a positional encoding, and at least one layer of
    hidden states, class logits and boxes. *)
Theorem forward_outcome
  (ext : Collaborators) (self : DETRpose) (detr : DETR) (m3d : Model3DNet)
  (att : MHAttentionMap) (head : PoseHeadSmallLinear) (training : bool)
  (noise : nat -> nat -> nat -> nat -> unit_sample) (draws : Draws)
  (samples : Samples) :
  self_detr self = Ok detr -> self_model_3d_net self = Ok m3d ->
  self_bbox_attention self = Ok att -> self_pose_head self = Ok head ->
  let sd := state_dict (detr_parameters detr) in
  let features :=
    fst (detr_backbone ext training draws sd
           (as_nested_tensor ext samples)) in
  let pos :=
    snd (detr_backbone ext training draws sd
           (as_nested_tensor ext samples)) in
  let hs_of feat mk pos_last :=
    fst (detr_transformer ext training draws sd
           (detr_input_proj ext training draws sd (tensors feat)) mk
           (detr_query_embed_weight ext sd) pos_last) in
  let run := DETRpose_forward ext self training noise draws samples in
  run <> Raise AttributeError
  /\ (features = [] -> run = Raise IndexError)
  /\ (forall feat, index_last features = Ok feat -> mask feat = None ->
        run = Raise AssertionError)
  /\ (forall feat mk, index_last features = Ok feat ->
        mask feat = Some mk -> pos = [] -> run = Raise IndexError)
  /\ (forall feat mk pos_last, index_last features = Ok feat ->
        mask feat = Some mk -> index_last pos = Ok pos_last ->
        hs_of feat mk pos_last = []
        \/ detr_class_embed ext training draws sd (hs_of feat mk pos_last)
           = []
        \/ detr_bbox_embed ext training draws sd (hs_of feat mk pos_last)
           = [] ->
        run = Raise IndexError)
  /\ (forall out, run = Ok out ->
        exists feat mk pos_last,
          index_last features = Ok feat /\ mask feat = Some mk
          /\ index_last pos = Ok pos_last
          /\ hs_of feat mk pos_last <> []
          /\ detr_class_embed ext training draws sd (hs_of feat mk pos_last)
             <> []
          /\ detr_bbox_embed ext training draws sd (hs_of feat mk pos_last)
             <> []).
Proof.
  intros Hd Hm Ha Hh sd features pos hs_of run; subst run.
  rewrite (forward_resolved ext self detr m3d att head training noise draws
             samples Hd Hm Ha Hh).
  pose proof (forward_body_cases ext detr m3d att head training noise draws
                samples) as Hc.
  cbv zeta in Hc; fold sd in Hc; fold features in Hc.
  split; [|split; [|split; [|split; [|split]]]].
  - destruct (index_last features) as [feat|e] eqn:Ef.
    + destruct (mask feat); [|rewrite Hc; discriminate].
      destruct Hc as [Hc | [out Hc]]; rewrite Hc; discriminate.
    + rewrite Hc; intros E; injection E as ->.
      unfold index_last in Ef; destruct (rev features); discriminate.
  - intros E; rewrite E in Hc; exact Hc.
  - intros feat Ef Em; rewrite Ef, Em in Hc; exact Hc.
  - intros feat mk Ef Em Ep.
    unfold forward_body; fold sd.
    rewrite (surjective_pairing (detr_backbone ext training draws sd _)).
    fold features pos; rewrite Ef; cbn [bind]; rewrite Em, Ep.
    reflexivity.
  - intros feat mk pos_last Ef Em Ep Hempty.
    unfold forward_body; fold sd.
    rewrite (surjective_pairing (detr_backbone ext training draws sd _)).
    fold features pos; rewrite Ef; cbn [bind]; rewrite Em, Ep; cbn [bind].
    rewrite (surjective_pairing (detr_transformer ext training draws sd _ _
                                   _ _)).
    fold (hs_of feat mk pos_last); cbv zeta.
    set (hs := hs_of feat mk pos_last) in *.
    destruct (index_last (detr_class_embed ext training draws sd hs))
      as [lg|e] eqn:Ec.
    + cbn [bind].
      destruct (index_last
                  (sigmoid4 (detr_bbox_embed ext training draws sd hs)))
        as [bx|e] eqn:Ex.
      * cbn [bind].
        destruct (index_last hs) as [hl|e] eqn:Eh.
        -- exfalso; destruct Hempty as [E | [E | E]].
           ++ exact (index_last_Ok_nonempty _ _ Eh E).
           ++ exact (index_last_Ok_nonempty _ _ Ec E).
           ++ unfold sigmoid4 in Ex; rewrite E in Ex; discriminate.
        -- unfold index_last in Eh; destruct (rev hs); [|discriminate].
           injection Eh as <-; reflexivity.
      * unfold index_last in Ex; destruct (rev _); [|discriminate].
        injection Ex as <-; reflexivity.
    + unfold index_last in Ec; destruct (rev _); [|discriminate].
      injection Ec as <-; reflexivity.
  - intros out Hout.
    destruct (forward_body_inv _ _ _ _ _ _ _ _ _ _ Hout)
      as (fs & ps & feat & mk & pos_last & hs & memory & lg & bx & hl
          & Eb & Ef & Em & Ep & Et & Ec & Ex & Eh & _).
    fold sd in Eb, Et, Ec, Ex.
    exists feat, mk, pos_last.
    subst features pos hs_of; cbv beta.
    rewrite Eb; cbn [fst snd]; rewrite Et; cbn [fst].
    repeat split; try assumption.
    + exact (index_last_Ok_nonempty _ _ Eh).
    + exact (index_last_Ok_nonempty _ _ Ec).
    + intros E; unfold sigmoid4 in Ex; rewrite E in Ex; discriminate.
Qed.

Lemma ex_attrs :
  self_detr (DETRpose_init ex_detr false ex_m3d diag_init diag_init)
  = Ok ex_detr
  /\ self_model_3d_net (DETRpose_init ex_detr false ex_m3d diag_init diag_init)
     = Ok ex_m3d
  /\ self_bbox_attention
       (DETRpose_init ex_detr false ex_m3d diag_init diag_init)
     = Ok (MHAttentionMap_init 8 8 8 0 diag_init)
  /\ self_pose_head (DETRpose_init ex_detr false ex_m3d diag_init diag_init)
     = Ok (PoseHeadSmallLinear_init 8 8 diag_init).
Proof. repeat split; reflexivity. Qed.

(** The example network returns a dictionary on the example input. *)
Lemma ex_forward_ok :
  exists out,
    DETRpose_forward ex_ext
      (DETRpose_init ex_detr false ex_m3d diag_init diag_init)
      true ex_noise ex_draws ex_samples = Ok out.
Proof.
  rewrite forward_constructed.
  destruct (forward_body_ok ex_ext ex_detr ex_m3d
              (MHAttentionMap_init 8 8 8 0 diag_init)
              (PoseHeadSmallLinear_init 8 8 diag_init)
              true ex_noise ex_draws ex_samples
              _ _ _ _ _ _ _ _ _ _
              eq_refl eq_refl eq_refl eq_refl eq_refl eq_refl eq_refl
              eq_refl)
    as (pc & p6 & pts & sc & ce & E).
  eexists; exact E.
Qed.

Lemma forward_outcome_witness :
  exists out feat mk,
    DETRpose_forward ex_ext
      (DETRpose_init ex_detr false ex_m3d diag_init diag_init)
      true ex_noise ex_draws ex_samples = Ok out
    /\ index_last
         (fst (detr_backbone ex_ext true ex_draws
                 (state_dict (detr_parameters ex_detr))
                 (as_nested_tensor ex_ext ex_samples))) = Ok feat
    /\ mask feat = Some mk.
Proof.
  destruct ex_forward_ok as [out Hout].
  destruct ex_attrs as (Hd & Hm & Ha & Hh).
  destruct (forward_outcome ex_ext _ _ _ _ _ true ex_noise ex_draws
              ex_samples Hd Hm Ha Hh)
    as (_ & _ & _ & _ & _ & Hok).
  destruct (Hok out Hout) as (feat & mk & pos_last & Ef & Em & _).
  exists out, feat, mk; repeat split; assumption.
Defined.

(** X10.  The result dictionary has the detection keys, ["aux_outputs"]
    exactly when [aux_loss] is set, then the pose and reconstruction keys,
    in insertion order and each once. *)
Theorem forward_result_keys
  (ext : Collaborators) (self : DETRpose) (detr : DETR) (m3d : Model3DNet)
  (att : MHAttentionMap) (head : PoseHeadSmallLinear) (training : bool)
  (noise : nat -> nat -> nat -> nat -> unit_sample) (draws : Draws)
  (samples : Samples)
  (out : Dict) :
  self_detr self = Ok detr -> self_model_3d_net self = Ok m3d ->
  self_bbox_attention self = Ok att -> self_pose_head self = Ok head ->
  DETRpose_forward ext self training noise draws samples = Ok out ->
  map fst out
  = ["pred_logits"%string; "pred_boxes"%string]
    ++ (if aux_loss detr then ["aux_outputs"%string] else [])
    ++ ["pose_class"%string; "pose_6dof"%string; "pred_model_points"%string;
        "pred_model_scales"%string; "pred_model_centers"%string]
  /\ NoDup (map fst out)
  /\ (dict_get "aux_outputs" out = None <-> aux_loss detr = false).
Proof.
  intros Hd Hm Ha Hh Hout.
  rewrite (forward_resolved ext self detr m3d att head training noise draws
             samples Hd Hm Ha Hh) in Hout.
  destruct (forward_body_inv _ _ _ _ _ _ _ _ _ _ Hout)
    as (fs & ps & feat & mk & pos_last & hs & memory & lg & bx & hl
        & _ & _ & _ & _ & _ & _ & _ & _ & ->).
  destruct (aux_loss detr); cbn [result_dict app map fst].
  - split; [reflexivity|]. split.
    + repeat (constructor; [cbn [In]; intros H;
                repeat (destruct H as [H | H]; [discriminate H|]);
                exact H|]).
      constructor.
    + split; intros H; discriminate H.
  - split; [reflexivity|]. split.
    + repeat (constructor; [cbn [In]; intros H;
                repeat (destruct H as [H | H]; [discriminate H|]);
                exact H|]).
      constructor.
    + split; reflexivity.
Qed.

Lemma forward_result_keys_witness :
  exists out,
    DETRpose_forward ex_ext
      (DETRpose_init ex_detr false ex_m3d diag_init diag_init)
      true ex_noise ex_draws ex_samples = Ok out
    /\ (dict_get "aux_outputs" out = None <-> aux_loss ex_detr = false).
Proof.
  destruct ex_forward_ok as [out Hout].
  destruct ex_attrs as (Hd & Hm & Ha & Hh).
  exists out; split; [exact Hout|].
  exact (proj2 (proj2 (forward_result_keys ex_ext _ _ _ _ _ true ex_noise
                         ex_draws ex_samples out Hd Hm Ha Hh Hout))).
Defined.

(** ** Detection outputs *)

Lemma sigmoid_range x : 0 < sigmoid x < 1.
Proof.
  unfold sigmoid; pose proof (exp_pos (- x)) as He.
  split.
  - apply Rdiv_lt_0_compat; lra.
  - apply (Rmult_lt_reg_r (1 + exp (- x))); [lra|].
    unfold Rdiv; rewrite Rmult_assoc, Rinv_l by lra; lra.
Qed.

Lemma sigmoid4_range (t : tensor4) :
  Forall (Forall (Forall (Forall (fun c => 0 < c < 1)))) (sigmoid4 t).
Proof.
  unfold sigmoid4.
  apply Forall_map, Forall_forall; intros a _.
  apply Forall_map, Forall_forall; intros b _.
  apply Forall_map, Forall_forall; intros c _.
  apply Forall_map, Forall_forall; intros x _.
  apply sigmoid_range.
Qed.

(** X11.  Every coordinate of ["pred_boxes"] lies strictly between 0 and
    1. *)
Theorem pred_boxes_in_unit_interval
  (ext : Collaborators) (self : DETRpose) (detr : DETR) (m3d : Model3DNet)
  (att : MHAttentionMap) (head : PoseHeadSmallLinear) (training : bool)
  (noise : nat -> nat -> nat -> nat -> unit_sample) (draws : Draws)
  (samples : Samples) (out : Dict) :
  self_detr self = Ok detr -> self_model_3d_net self = Ok m3d ->
  self_bbox_attention self = Ok att -> self_pose_head self = Ok head ->
  DETRpose_forward ext self training noise draws samples = Ok out ->
  exists boxes,
    dict_get "pred_boxes" out = Some (VTensor3 boxes)
    /\ Forall (Forall (Forall (fun c => 0 < c < 1))) boxes.
Proof.
  intros Hd Hm Ha Hh Hout.
  rewrite (forward_resolved ext self detr m3d att head training noise draws
             samples Hd Hm Ha Hh) in Hout.
  destruct (forward_body_inv _ _ _ _ _ _ _ _ _ _ Hout)
    as (fs & ps & feat & mk & pos_last & hs & memory & lg & bx & hl
        & _ & _ & _ & _ & _ & _ & Hbx & _ & ->).
  exists bx; split; [reflexivity|].
  pose proof (sigmoid4_range
                (detr_bbox_embed ext training draws
                   (state_dict (detr_parameters detr)) hs)) as Hr.
  rewrite Forall_forall in Hr; apply Hr.
  exact (index_last_In _ _ Hbx).
Qed.

Lemma pred_boxes_in_unit_interval_witness :
  exists out boxes,
    DETRpose_forward ex_ext
      (DETRpose_init ex_detr false ex_m3d diag_init diag_init)
      true ex_noise ex_draws ex_samples = Ok out
    /\ dict_get "pred_boxes" out = Some (VTensor3 boxes)
    /\ Forall (Forall (Forall (fun c => 0 < c < 1))) boxes.
Proof.
  destruct ex_forward_ok as [out Hout].
  destruct ex_attrs as (Hd & Hm & Ha & Hh).
  destruct (pred_boxes_in_unit_interval ex_ext _ _ _ _ _ true ex_noise
              ex_draws ex_samples out Hd Hm Ha Hh Hout) as (boxes & H1 & H2).
  exists out, boxes; repeat split; assumption.
Defined.

(** X12.  The pose branch never feeds back into the detection entries:
    when two networks around the same detector, whatever their 3D-model
    networks, attention maps, heads and attention mask draws, both return a
    dictionary for the same input, in the same mode and with the same draws
    of the detector, their ["pred_logits"], ["pred_boxes"] and
    ["aux_outputs"] are the same. *)
Theorem detection_independent_of_pose_branch
  (ext : Collaborators) (self self' : DETRpose) (detr : DETR)
  (m3d m3d' : Model3DNet) (att att' : MHAttentionMap)
  (head head' : PoseHeadSmallLinear) (training : bool)
  (noise noise' : nat -> nat -> nat -> nat -> unit_sample) (draws : Draws)
  (samples : Samples) (out out' : Dict) :
  self_detr self = Ok detr -> self_model_3d_net self = Ok m3d ->
  self_bbox_attention self = Ok att -> self_pose_head self = Ok head ->
  self_detr self' = Ok detr -> self_model_3d_net self' = Ok m3d' ->
  self_bbox_attention self' = Ok att' -> self_pose_head self' = Ok head' ->
  DETRpose_forward ext self training noise draws samples = Ok out ->
  DETRpose_forward ext self' training noise' draws samples = Ok out' ->
  dict_get "pred_logits" out' = dict_get "pred_logits" out
  /\ dict_get "pred_boxes" out' = dict_get "pred_boxes" out
  /\ dict_get "aux_outputs" out' = dict_get "aux_outputs" out.
Proof.
  intros Hd Hm Ha Hh Hd' Hm' Ha' Hh' Hout Hout'.
  rewrite (forward_resolved ext self detr m3d att head training noise draws
             samples Hd Hm Ha Hh) in Hout.
  rewrite (forward_resolved ext self' detr m3d' att' head' training noise'
             draws samples Hd' Hm' Ha' Hh') in Hout'.
  destruct (forward_body_inv _ _ _ _ _ _ _ _ _ _ Hout)
    as (fs & ps & feat & mk & pos_last & hs & memory & lg & bx & hl
        & Eb & Ef & Em & Ep & Et & Ec & Ex & Eh & ->).
  destruct (forward_body_inv _ _ _ _ _ _ _ _ _ _ Hout')
    as (fs' & ps' & feat' & mk' & pos_last' & hs' & memory' & lg' & bx'
        & hl' & Eb' & Ef' & Em' & Ep' & Et' & Ec' & Ex' & Eh' & ->).
  rewrite Eb in Eb'; injection Eb' as <- <-.
  rewrite Ef in Ef'; injection Ef' as <-.
  rewrite Em in Em'; injection Em' as <-.
  rewrite Ep in Ep'; injection Ep' as <-.
  rewrite Et in Et'; injection Et' as <- <-.
  rewrite Ec in Ec'; injection Ec' as <-.
  rewrite Ex in Ex'; injection Ex' as <-.
  destruct (aux_loss detr); repeat split; reflexivity.
Qed.

Lemma ex_forward_zero_ok :
  exists out,
    DETRpose_forward ex_ext
      (DETRpose_init ex_detr false ex_m3d zero_init zero_init)
      true ex_noise ex_draws ex_samples = Ok out.
Proof.
  rewrite forward_constructed.
  destruct (forward_body_ok ex_ext ex_detr ex_m3d
              (MHAttentionMap_init 8 8 8 0 zero_init)
              (PoseHeadSmallLinear_init 8 8 zero_init)
              true ex_noise ex_draws ex_samples
              _ _ _ _ _ _ _ _ _ _
              eq_refl eq_refl eq_refl eq_refl eq_refl eq_refl eq_refl
              eq_refl)
    as (pc & p6 & pts & sc & ce & E).
  eexists; exact E.
Qed.

Lemma detection_independent_of_pose_branch_witness :
  exists out out',
    DETRpose_forward ex_ext
      (DETRpose_init ex_detr false ex_m3d diag_init diag_init)
      true ex_noise ex_draws ex_samples = Ok out
    /\ DETRpose_forward ex_ext
         (DETRpose_init ex_detr false ex_m3d zero_init zero_init)
         true ex_noise ex_draws ex_samples = Ok out'
    /\ dict_get "pred_logits" out' = dict_get "pred_logits" out.
Proof.
  destruct ex_forward_ok as [out Hout].
  destruct ex_forward_zero_ok as [out' Hout'].
  destruct ex_attrs as (Hd & Hm & Ha & Hh).
  exists out, out'.
  split; [exact Hout|]. split; [exact Hout'|].
  exact (proj1 (detection_independent_of_pose_branch ex_ext
                  (DETRpose_init ex_detr false ex_m3d diag_init diag_init)
                  (DETRpose_init ex_detr false ex_m3d zero_init zero_init)
                  ex_detr ex_m3d ex_m3d _ _ _ _ true ex_noise ex_noise
                  ex_draws ex_samples out out' Hd Hm Ha Hh
                  eq_refl eq_refl eq_refl eq_refl Hout Hout')).
Defined.

(** ** Pose outputs, end to end *)

(** X13.  The shapes the comments of lines 160-168 give, end to end.  Take
    a network whose attention map and head have the widths of their
    constructors for [D] channels, a last feature map of batch size [bs]
    with a mask, last-layer hidden states of shape (bs, Q, D), and [M >= 1]
    encoder features of width [D].  Then in a dictionary [forward] returns,
    ["pose_class"] has shape (bs, Q, M) and each of its rows sums to 1, and
    ["pose_6dof"] has shape (bs, Q, M, 6), in training and in evaluation
    mode. *)
Theorem pose_outputs_end_to_end
  (ext : Collaborators) (self : DETRpose) (detr : DETR) (m3d : Model3DNet)
  (att : MHAttentionMap) (head : PoseHeadSmallLinear) (training : bool)
  (noise : nat -> nat -> nat -> nat -> unit_sample) (draws : Draws)
  (samples : Samples)
  (features : list NestedTensor) (pos : list tensor4) (feat : NestedTensor)
  (mk : Mask) (pos_last hs memory : tensor4) (hs_last : tensor3)
  (out : Dict) (Q M D : nat) :
  self_detr self = Ok detr -> self_model_3d_net self = Ok m3d ->
  self_bbox_attention self = Ok att -> self_pose_head self = Ok head ->
  Attention_widths D att ->
  PoseHead_widths D (am_num_heads att) head -> PoseHead_wf head ->
  let sd := state_dict (detr_parameters detr) in
  detr_backbone ext training draws sd (as_nested_tensor ext samples)
  = (features, pos) ->
  index_last features = Ok feat -> mask feat = Some mk ->
  index_last pos = Ok pos_last ->
  detr_transformer ext training draws sd
    (detr_input_proj ext training draws sd (tensors feat)) mk
    (detr_query_embed_weight ext sd) pos_last = (hs, memory) ->
  index_last hs = Ok hs_last ->
  shape3 (length (tensors feat)) Q D hs_last ->
  shape2 M D
    (forward_encoder ext training draws (state_dict (m3d_parameters m3d))) ->
  (1 <= M)%nat ->
  DETRpose_forward ext self training noise draws samples = Ok out ->
  exists pose_class pose_6dof,
    dict_get "pose_class" out = Some (VTensor3 pose_class)
    /\ shape3 (length (tensors feat)) Q M pose_class
    /\ Forall (Forall (fun row => rsum row = 1)) pose_class
    /\ dict_get "pose_6dof" out = Some (VTensor4 pose_6dof)
    /\ shape4 (length (tensors feat)) Q M 6 pose_6dof.
Proof.
  intros Hd Hm Ha Hh (_ & _ & HH & _) _ Hwf sd Eb Ef Em Ep Et Eh Hhs Hfeat HM
    Hout.
  rewrite (forward_resolved ext self detr m3d att head training noise draws
             samples Hd Hm Ha Hh) in Hout.
  destruct (forward_body_inv _ _ _ _ _ _ _ _ _ _ Hout)
    as (fs & ps & feat0 & mk0 & pos_last0 & hs0 & memory0 & lg0 & bx0 & hl0
        & Eb0 & Ef0 & Em0 & Ep0 & Et0 & _ & _ & Eh0 & Eout).
  fold sd in Eb0, Et0.
  rewrite Eb in Eb0; injection Eb0 as <- <-.
  rewrite Ef in Ef0; injection Ef0 as <-.
  rewrite Em in Em0; injection Em0 as <-.
  rewrite Ep in Ep0; injection Ep0 as <-.
  rewrite Et in Et0; injection Et0 as <- <-.
  rewrite Eh in Eh0; injection Eh0 as <-.
  set (bs := length (tensors feat)) in *.
  set (k := broadcast_batch bs
              (forward_encoder ext training draws
                 (state_dict (m3d_parameters m3d)))) in *.
  assert (Hk : shape3 bs M D k).
  { subst k; rewrite broadcast_batch_repeat; apply repeat_shape3;
      exact Hfeat. }
  pose proof (forward_shape att training noise hs_last k bs Q M D D
                Hhs Hk HH) as Hsh.
  pose proof (shape4_outer _ _ _ _ _
                (fuse_shape head bs Q (am_num_heads att) M D k _
                   Hwf Hk Hsh HH)) as Hf.
  do 2 eexists.
  rewrite Eout.
  split; [destruct (aux_loss detr); reflexivity|].
  unfold attend_and_predict; cbn [fst snd PoseHeadSmallLinear_forward].
  split; [apply class_shape; exact Hf|].
  split.
  { unfold PoseHead_class.
    apply (softmax3_rows_sum bs Q M); [|exact HM].
    apply (shape3_map3 (fun v => hd 0 v)).
    apply (shape3_map3 (map relu)).
    apply (shape3_map3 (linear (l3 head))).
    apply (shape3_map3 (Sequential_row (l2 head))); exact Hf. }
  split; [destruct (aux_loss detr); reflexivity|].
  unfold PoseHead_pose, linear4, linear3, Sequential_forward.
  rewrite !map_map.
  assert (E : forall t : tensor4,
            map (fun x => map (map (linear (l5 head)))
                            (map (map (Sequential_row (l4 head))) x)) t
            = map (map (map (fun f =>
                     linear (l5 head) (Sequential_row (l4 head) f)))) t).
  { intros t; apply map_ext; intros tb.
    rewrite map_map; apply map_ext; intros r; apply map_map. }
  rewrite E; apply shape4_map3; [|exact Hf].
  intros f; apply linear_out_length.
  destruct Hwf as (_ & _ & _ & _ & _ & _ & _ & _ & Hl5); exact Hl5.
Qed.

Lemma pose_outputs_end_to_end_witness :
  exists out pose_class pose_6dof,
    DETRpose_forward ex_ext
      (DETRpose_init ex_detr false ex_m3d diag_init diag_init)
      true ex_noise ex_draws ex_samples = Ok out
    /\ dict_get "pose_class" out = Some (VTensor3 pose_class)
    /\ shape3 1 1 2 pose_class
    /\ Forall (Forall (fun row => rsum row = 1)) pose_class
    /\ dict_get "pose_6dof" out = Some (VTensor4 pose_6dof)
    /\ shape4 1 1 2 6 pose_6dof.
Proof.
  destruct ex_forward_ok as [out Hout].
  destruct ex_attrs as (Hd & Hm & Ha & Hh).
  assert (Hwf : PoseHead_wf (PoseHeadSmallLinear_init 8 8 diag_init))
    by (apply init_wf; [lia | reflexivity]).
  assert (Hw : PoseHead_widths 8
                 (am_num_heads (MHAttentionMap_init 8 8 8 0 diag_init))
                 (PoseHeadSmallLinear_init 8 8 diag_init))
    by (apply init_widths).
  assert (Haw : Attention_widths 8 (MHAttentionMap_init 8 8 8 0 diag_init))
    by (apply attention_init_widths; [lia | reflexivity]).
  assert (Hs3 : shape3 1 1 8 [[[1; 0; 0; 0; 0; 0; 0; 0]]])
    by (repeat constructor).
  assert (Hs2 : shape2 2 8 ex_feat8) by (repeat constructor).
  destruct (pose_outputs_end_to_end ex_ext _ _ _ _ _ true ex_noise ex_draws
              ex_samples
              [mkNestedTensor [[[[0]]]] (Some [[[false]]])] [[[[[0]]]]]
              (mkNestedTensor [[[[0]]]] (Some [[[false]]])) [[[false]]]
              [[[[0]]]]
              [[[[0; 0; 0; 0; 0; 0; 0; 0]]]; [[[1; 0; 0; 0; 0; 0; 0; 0]]]]
              [[[[0]]]] [[[1; 0; 0; 0; 0; 0; 0; 0]]] out
              1 2 8 Hd Hm Ha Hh Haw Hw Hwf
              eq_refl eq_refl eq_refl eq_refl eq_refl eq_refl Hs3 Hs2
              (le_S 1 1 (le_n 1)) Hout)
    as (pc & p6 & H).
  exists out, pc, p6; split; [exact Hout | exact H].
Defined.
